(** * Reflections: day-entry journal (FastAPI + SQLAlchemy)

    A shallow embedding of the request handlers of [app/routers/entries.py],
    [app/routers/pages.py], [app/routers/auth.py], of the access resolution of
    [app/auth.py] and of the request schemas of [app/schemas.py], over an
    explicit storage state standing for the two tables of [app/models.py].

    Conventions.
    - A Python [str] is a [string]; a character is a code point below 256.
    - A Python [int] is a [Z]; a [datetime] is a [Z] (microseconds).
    - A handler is a computation in a state-and-exception monad over the
      storage session; [get_db] commits on return and rolls back on raise.
    - Readings of the clock and the result of the salted password hash are
      inputs of the handler that reads them: one input for each reading of
      [datetime.utcnow()], one for the current day [date.today()].
    - What the libraries compute (the password check, the token codec, the
      e-mail validator) is a parameter of the handler that calls them. *)

From Stdlib Require Import Ascii String DecimalString DecimalZ DecimalPos.
From stdpp Require Import base numbers list option strings gmap sorting.

Local Open Scope string_scope.
Local Open Scope list_scope.
Local Open Scope Z_scope.

(** ** Python strings *)

Module Str.

(** [str.isspace] on one character, for code points below 256: the ASCII
    white space 9-13 and 28-32, NEL (133) and NBSP (160). *)
Definition isspace (c : ascii) : bool :=
  let n := N_of_ascii c in
  ((9 <=? n) && (n <=? 13) || (28 <=? n) && (n <=? 32)
   || (n =? 133) || (n =? 160))%N.

Definition len (s : string) : Z := Z.of_nat (String.length s).

Fixpoint lstrip (s : string) : string :=
  match s with
  | EmptyString => EmptyString
  | String c s' => if isspace c then lstrip s' else s
  end.

Fixpoint rstrip (s : string) : string :=
  match s with
  | EmptyString => EmptyString
  | String c s' =>
      match rstrip s' with
      | EmptyString => if isspace c then EmptyString else String c EmptyString
      | r => String c r
      end
  end.

(** [s.strip()] *)
Definition strip (s : string) : string := rstrip (lstrip s).

Definition first (s : string) : option ascii :=
  match s with
  | EmptyString => None
  | String c _ => Some c
  end.

Fixpoint last (s : string) : option ascii :=
  match s with
  | EmptyString => None
  | String c EmptyString => Some c
  | String _ s' => last s'
  end.

(** No white space at either end. *)
Definition trimmed (s : string) : bool :=
  match first s, last s with
  | Some a, Some b => negb (isspace a) && negb (isspace b)
  | _, _ => true
  end.

(** [s.startswith(p)] *)
Fixpoint startswith (p s : string) : bool :=
  match p, s with
  | EmptyString, _ => true
  | String a p', String b s' => bool_decide (a = b) && startswith p' s'
  | String _ _, EmptyString => false
  end.

(** [s[n:]] *)
Fixpoint drop (n : nat) (s : string) : string :=
  match n, s with
  | O, _ => s
  | S n', String _ s' => drop n' s'
  | S _, EmptyString => EmptyString
  end.

End Str.

(** ** Calendar dates ([datetime.date], [calendar.monthrange]) *)

Record date := Date { year : Z; month : Z; day : Z }.

(** The type under a second name, for use where a field called [date] hides it. *)
Abbreviation date_t := date (only parsing).

Global Instance date_eq_dec : EqDecision date.
Proof. solve_decision. Defined.

Global Instance date_countable : Countable date.
Proof.
  refine (inj_countable' (λ d, (year d, month d, day d))
                         (λ t, Date t.1.1 t.1.2 t.2) _).
  by intros [].
Defined.

Module Calendar.

Definition MINYEAR : Z := 1.
Definition MAXYEAR : Z := 9999.

Definition isleap (y : Z) : bool :=
  (y mod 4 =? 0) && (negb (y mod 100 =? 0) || (y mod 400 =? 0)).

Definition mdays (m : Z) : Z :=
  if bool_decide (m = 2) then 28
  else if bool_decide (m = 4 ∨ m = 6 ∨ m = 9 ∨ m = 11) then 30
  else 31.

Definition days_in_month (y m : Z) : Z :=
  if bool_decide (m = 2) && isleap y then 29 else mdays m.

Definition days_before_year (y : Z) : Z :=
  let y' := y - 1 in y' * 365 + y' / 4 - y' / 100 + y' / 400.

(** Days of the year before the first of month [m]. *)
Definition days_before_month (y m : Z) : Z :=
  foldr Z.add 0 ((days_in_month y) <$> seqZ 1 (m - 1)).

Definition toordinal (d : date) : Z :=
  days_before_year (year d) + days_before_month (year d) (month d) + day d.

(** [d.weekday()]: Monday is 0, Sunday is 6. *)
Definition weekday (d : date) : Z := (toordinal d + 6) mod 7.

(** Comparison of dates, as [date.__lt__] and [date.__le__] do it. *)
Definition date_ltb (a b : date) : bool :=
  (year a <? year b)
  || ((year a =? year b)
      && ((month a <? month b)
          || ((month a =? month b) && (day a <? day b)))).

Definition date_leb (a b : date) : bool :=
  bool_decide (a = b) || date_ltb a b.

End Calendar.

(** ** Failures and the handler monad *)

Inductive status_code :=
| HTTP_400_BAD_REQUEST
| HTTP_401_UNAUTHORIZED
| HTTP_404_NOT_FOUND
| HTTP_422_UNPROCESSABLE_ENTITY.

(** What a request can raise: an [HTTPException] (answered with its status),
    or an exception nobody catches (answered as an internal server error). *)
Inductive exn :=
| HTTPException (status : status_code)
| ValueError
| OverflowError
| MultipleResultsFound
| IntegrityError.

Inductive result (A : Type) :=
| Return (a : A)
| Raise (e : exn).
Arguments Return {A} a.
Arguments Raise {A} e.

Global Instance status_code_eq_dec : EqDecision status_code.
Proof. solve_decision. Defined.
Global Instance exn_eq_dec : EqDecision exn.
Proof. solve_decision. Defined.

(** ** The tables of [app/models.py] *)

Definition datetime := Z.

Module User.
Record t := mk {
  id : Z;
  email : string;
  hashed_password : string;
  created_at : datetime;
}.
End User.

Module DayEntry.
Record t := mk {
  id : Z;
  user_id : Z;
  date : date;
  score : Z;
  summary : string;
  created_at : datetime;
  updated_at : datetime;
}.

Definition with_score (v : Z) (e : t) : t :=
  mk (id e) (user_id e) (date e) v (summary e) (created_at e) (updated_at e).
Definition with_summary (v : string) (e : t) : t :=
  mk (id e) (user_id e) (date e) (score e) v (created_at e) (updated_at e).
Definition with_updated_at (v : datetime) (e : t) : t :=
  mk (id e) (user_id e) (date e) (score e) (summary e) (created_at e) v.
End DayEntry.

Global Instance User_eq_dec : EqDecision User.t.
Proof. solve_decision. Defined.
Global Instance DayEntry_eq_dec : EqDecision DayEntry.t.
Proof. solve_decision. Defined.

(** The storage seen by one request: the rows of [users] and [day_entries]. *)
Record Session := mkSession {
  users : list User.t;
  day_entries : list DayEntry.t;
}.

Definition empty_db : Session := mkSession [] [].

(** A handler body: it reads and writes the session and may raise. *)
Definition M (A : Type) : Type := Session → result (A * Session).

Global Instance M_ret : MRet M := λ A a db, Return (a, db).
Global Instance M_bind : MBind M := λ A B k m db,
  match m db with
  | Return (a, db') => k a db'
  | Raise e => Raise e
  end.

Global Instance result_ret : MRet result := λ A a, Return a.
Global Instance result_bind : MBind result := λ A B k r,
  match r with
  | Return a => k a
  | Raise e => Raise e
  end.

Definition raise {A} (e : exn) : M A := λ _, Raise e.
Definition lift {A} (r : result A) : M A :=
  λ db, match r with
        | Return a => Return (a, db)
        | Raise e => Raise e
        end.

(** [get_db] of [app/database.py]: the handler runs in one session, which is
    committed when it returns and rolled back when it raises. *)
Definition get_db {A} (handler : M A) (db : Session) : result A * Session :=
  match handler db with
  | Return (a, db') => (Return a, db')
  | Raise e => (Raise e, db)
  end.

(** ** Queries and the unit of work *)

(** [result.scalar_one_or_none()] *)
Definition scalar_one_or_none {A} (rows : list A) : result (option A) :=
  match rows with
  | [] => Return None
  | [a] => Return (Some a)
  | _ => Raise MultipleResultsFound
  end.

(** [select(DayEntry).where(and_(DayEntry.user_id == uid, DayEntry.date == d))] *)
Definition select_day_entry (uid : Z) (d : date) (db : Session) : list DayEntry.t :=
  filter (λ e, DayEntry.user_id e = uid ∧ DayEntry.date e = d) (day_entries db).

Definition select_user_by_id (uid : Z) (db : Session) : list User.t :=
  filter (λ u, User.id u = uid) (users db).

Definition select_user_by_email (email : string) (db : Session) : list User.t :=
  filter (λ u, User.email u = email) (users db).

(** The integers that the driver of the configured storage, SQLite, binds to
    a statement: 64 bits with sign. *)
Definition sqlite_integer (n : Z) : bool := (- 2 ^ 63 <=? n) && (n <? 2 ^ 63).

(** Binding the integer [n] that a request supplied as a parameter of a
    statement: the driver raises [OverflowError] for one it cannot hold. The
    queries of the handlers bind the identifier of a row that was loaded,
    which the storage holds. *)
Definition bind_integer (n : Z) : M unit :=
  λ db, if sqlite_integer n then Return (tt, db) else Raise OverflowError.

(** The integer primary key of a new row: one more than the largest in use. *)
Definition next_id (ids : list Z) : Z := 1 + foldr Z.max 0 ids.

(** [db.add(entry); await db.flush()] for a new [DayEntry]: the INSERT takes
    the key and is refused by [uq_user_date] when the pair is taken. Each of
    [created_at] and [updated_at] is filled from its own [default], so the
    clock is read twice: [now] is the reading for [created_at], [now'] the
    one for [updated_at]. *)
Definition add_day_entry (now now' : datetime) (uid : Z) (d : date)
    (score : Z) (summary : string) : M DayEntry.t :=
  λ db,
    if bool_decide (select_day_entry uid d db = []) then
      let e := DayEntry.mk (next_id (DayEntry.id <$> day_entries db))
                 uid d score summary now now' in
      Return (e, mkSession (users db) (day_entries db ++ [e]))
    else Raise IntegrityError.

(** [await db.flush()] for a loaded entry [old] whose attributes were set to
    those of [new]. The unit of work compares every attribute that was set
    with the value it was loaded with and writes the ones that differ. When
    none differs no UPDATE is sent; [onupdate] of [updated_at] is evaluated
    only for an UPDATE that is sent. *)
Definition flush_day_entry (now : datetime) (old new : DayEntry.t) : M DayEntry.t :=
  λ db,
    let row :=
      if bool_decide (DayEntry.score new = DayEntry.score old
                      ∧ DayEntry.summary new = DayEntry.summary old)
      then old
      else DayEntry.with_updated_at now new in
    Return (row,
            mkSession (users db)
              ((λ e, if bool_decide (DayEntry.id e = DayEntry.id old)
                     then row else e) <$> day_entries db)).

(** [await db.delete(entry)]: DELETE by primary key. *)
Definition delete_day_entry_row (entry : DayEntry.t) : M unit :=
  λ db,
    Return (tt, mkSession (users db)
                  (filter (λ e, DayEntry.id e ≠ DayEntry.id entry) (day_entries db))).

(** [await db.delete(user)]: the [entries] relationship is loaded and, by
    [cascade="all, delete-orphan"], each of its rows is deleted by primary
    key before the user's own row is. *)
Definition delete_user_row (user : User.t) : M unit :=
  λ db,
    let owned := filter (λ e, DayEntry.user_id e = User.id user) (day_entries db) in
    Return (tt, mkSession
                  (filter (λ u, User.id u ≠ User.id user) (users db))
                  (filter (λ e, DayEntry.id e ∉ DayEntry.id <$> owned) (day_entries db))).

(** [db.add(user); await db.flush()] for a new [User]; [email] is unique. *)
Definition add_user (now : datetime) (email hashed : string) : M User.t :=
  λ db,
    if bool_decide (select_user_by_email email db = []) then
      let u := User.mk (next_id (User.id <$> users db)) email hashed now in
      Return (u, mkSession (users db ++ [u]) (day_entries db))
    else Raise IntegrityError.

(** ** Request schemas ([app/schemas.py])

    A field's [Field] bounds are checked on the value as it arrives; a
    [field_validator] (mode "after", the default) then runs on the value that
    passed them. A body that fails is answered 422 before the handler runs. *)

Module DayEntryCreate.
Record t := mk { date : date; score : Z; summary : string }.

Definition strip_summary (v : string) : string := Str.strip v.

Definition validate (d : date_t) (score : Z) (summary : string) : result t :=
  if (0 <=? score) && (score <=? 10)
     && (1 <=? Str.len summary) && (Str.len summary <=? 200)
  then Return (mk d score (strip_summary summary))
  else Raise (HTTPException HTTP_422_UNPROCESSABLE_ENTITY).
End DayEntryCreate.

Module DayEntryUpdate.
Record t := mk { score : option Z; summary : option string }.

(** [v.strip() if v else v] *)
Definition strip_summary (v : option string) : option string :=
  match v with
  | Some s => if bool_decide (s = "") then Some s else Some (Str.strip s)
  | None => None
  end.

Definition score_ok (v : option Z) : bool :=
  match v with
  | Some n => (0 <=? n) && (n <=? 10)
  | None => true
  end.

Definition summary_ok (v : option string) : bool :=
  match v with
  | Some s => (1 <=? Str.len s) && (Str.len s <=? 200)
  | None => true
  end.

Definition validate (score : option Z) (summary : option string) : result t :=
  if score_ok score && summary_ok summary
  then Return (mk score (strip_summary summary))
  else Raise (HTTPException HTTP_422_UNPROCESSABLE_ENTITY).
End DayEntryUpdate.

(** [await db.execute(query)] for a SELECT. *)
Definition execute {A} (query : Session → list A) : M (list A) :=
  λ db, Return (query db, db).

(** ** The entries API ([app/routers/entries.py]) *)

Module Entries.

Definition opt_holds {A} (bound : option A) (test : A → bool) : bool :=
  match bound with
  | Some b => test b
  | None => true
  end.

(** The WHERE clause that [list_entries] builds up. *)
Definition list_where (uid : Z) (start_date end_date : option date)
    (min_score max_score : option Z) (e : DayEntry.t) : bool :=
  bool_decide (DayEntry.user_id e = uid)
  && opt_holds start_date (λ d, Calendar.date_leb d (DayEntry.date e))
  && opt_holds end_date (λ d, Calendar.date_leb (DayEntry.date e) d)
  && opt_holds min_score (λ n, n <=? DayEntry.score e)
  && opt_holds max_score (λ n, DayEntry.score e <=? n).

(** [Query(None, ge=0, le=10)], the declaration of [min_score] and of
    [max_score]: a value outside the bounds is answered 422 before the
    handler runs. *)
Definition score_bound_ok (v : option Z) : bool :=
  match v with
  | Some n => (0 <=? n) && (n <=? 10)
  | None => true
  end.

Definition query_ok (min_score max_score : option Z) : bool :=
  score_bound_ok min_score && score_bound_ok max_score.

Definition validate_query (min_score max_score : option Z) : result unit :=
  if query_ok min_score max_score then Return tt
  else Raise (HTTPException HTTP_422_UNPROCESSABLE_ENTITY).

(** [DayEntry.date.desc()] *)
Definition date_desc (a b : DayEntry.t) : Prop :=
  Calendar.date_leb (DayEntry.date b) (DayEntry.date a).

Global Instance date_desc_dec a b : Decision (date_desc a b).
Proof. unfold date_desc. apply _. Defined.

Record DayEntryListResponse := mkList {
  entries : list DayEntry.t;
  total : Z;
}.

Definition list_entries (current_user : User.t)
    (start_date end_date : option date) (min_score max_score : option Z)
    : M DayEntryListResponse :=
  entries ← execute (λ db,
    merge_sort date_desc
      (filter (λ e, list_where (User.id current_user)
                      start_date end_date min_score max_score e)
              (day_entries db)));
  mret (mkList entries (Z.of_nat (length entries))).

Definition get_entry (entry_date : date) (current_user : User.t) : M DayEntry.t :=
  rows ← execute (select_day_entry (User.id current_user) entry_date);
  entry ← lift (scalar_one_or_none rows);
  match entry with
  | None => raise (HTTPException HTTP_404_NOT_FOUND)
  | Some entry => mret entry
  end.

Definition create_entry (now now' : datetime) (entry_data : DayEntryCreate.t)
    (current_user : User.t) : M DayEntry.t :=
  rows ← execute (select_day_entry (User.id current_user)
                    (DayEntryCreate.date entry_data));
  existing ← lift (scalar_one_or_none rows);
  match existing with
  | Some _ => raise (HTTPException HTTP_400_BAD_REQUEST)
  | None =>
      add_day_entry now now' (User.id current_user)
        (DayEntryCreate.date entry_data)
        (DayEntryCreate.score entry_data)
        (DayEntryCreate.summary entry_data)
  end.

Definition update_entry (now : datetime) (entry_date : date)
    (entry_data : DayEntryUpdate.t) (current_user : User.t) : M DayEntry.t :=
  rows ← execute (select_day_entry (User.id current_user) entry_date);
  entry ← lift (scalar_one_or_none rows);
  match entry with
  | None => raise (HTTPException HTTP_404_NOT_FOUND)
  | Some entry =>
      let entry1 :=
        match DayEntryUpdate.score entry_data with
        | Some v => DayEntry.with_score v entry
        | None => entry
        end in
      let entry2 :=
        match DayEntryUpdate.summary entry_data with
        | Some v => DayEntry.with_summary v entry1
        | None => entry1
        end in
      flush_day_entry now entry entry2
  end.

Definition delete_entry (entry_date : date) (current_user : User.t) : M unit :=
  rows ← execute (select_day_entry (User.id current_user) entry_date);
  entry ← lift (scalar_one_or_none rows);
  match entry with
  | None => raise (HTTPException HTTP_404_NOT_FOUND)
  | Some entry => delete_day_entry_row entry
  end.

End Entries.

(** ** The pages ([app/routers/pages.py]) *)

Module Pages.

Definition get_score_color (score : option Z) : string :=
  match score with
  | None => "score-none"
  | Some 0 => "score-0"
  | Some 1 => "score-1"
  | Some 2 => "score-2"
  | Some 3 => "score-3"
  | Some 4 => "score-4"
  | Some 5 => "score-5"
  | Some 6 => "score-6"
  | Some 7 => "score-7"
  | Some 8 => "score-8"
  | Some 9 => "score-9"
  | Some 10 => "score-10"
  | Some _ => "score-none"
  end.

(** The dictionary that describes one day of the grid. *)
Record day_data := mkDay {
  dd_date : date;
  dd_day : Z;
  dd_entry : option DayEntry.t;
  dd_score_class : string;
  dd_is_today : bool;
  dd_is_future : bool;
}.

Inductive TemplateResponse :=
| entry_form_html (entry : option DayEntry.t) (entry_date : date)
    (error : string) (is_future : bool) (status : status_code)
| day_cell_html (day : day_data) (success : option bool).

(** [now] is the first reading of the clock during the flush and [now'] the
    second: an UPDATE takes one (for [onupdate]), an INSERT both. *)
Definition save_day_entry (today : date) (now now' : datetime)
    (entry_date : date) (user : User.t) (score : Z) (summary : string)
    : M TemplateResponse :=
  if (score <? 0) || (10 <? score) then
    mret (entry_form_html None entry_date "Score must be between 0 and 10"
            (Calendar.date_ltb today entry_date) HTTP_400_BAD_REQUEST)
  else if (Str.len (Str.strip summary) =? 0) || (200 <? Str.len summary) then
    mret (entry_form_html None entry_date "Summary must be 1-200 characters"
            (Calendar.date_ltb today entry_date) HTTP_400_BAD_REQUEST)
  else
    rows ← execute (select_day_entry (User.id user) entry_date);
    entry ← lift (scalar_one_or_none rows);
    entry ← match entry with
            | Some entry =>
                flush_day_entry now entry
                  (DayEntry.with_summary (Str.strip summary)
                     (DayEntry.with_score score entry))
            | None =>
                add_day_entry now now' (User.id user) entry_date score
                  (Str.strip summary)
            end;
    mret (day_cell_html
            (mkDay entry_date (day entry_date) (Some entry)
               (get_score_color (Some (DayEntry.score entry)))
               (bool_decide (entry_date = today)) false)
            (Some true)).

Definition delete_day_entry (today : date) (entry_date : date)
    (user : User.t) : M TemplateResponse :=
  rows ← execute (select_day_entry (User.id user) entry_date);
  entry ← lift (scalar_one_or_none rows);
  match entry with
  | Some entry => delete_day_entry_row entry
  | None => mret tt
  end;;
  mret (day_cell_html
          (mkDay entry_date (day entry_date) None "score-none"
             (bool_decide (entry_date = today))
             (Calendar.date_ltb today entry_date))
          None).

End Pages.

(** ** Validating constructors of the calendar library *)

Module CalendarLib.
Import Calendar.

(** The integers that fit a C [int], 32 bits with sign. *)
Definition c_int (n : Z) : bool := (- 2 ^ 31 <=? n) && (n <? 2 ^ 31).

(** [date(year, month, day)]: the three arguments are converted to C
    integers, which raises [OverflowError] for one that does not fit, and
    then checked against their ranges. *)
Definition new_date (y m d : Z) : result date :=
  if c_int y && c_int m && c_int d then
    if (MINYEAR <=? y) && (y <=? MAXYEAR) && (1 <=? m) && (m <=? 12)
       && (1 <=? d) && (d <=? days_in_month y m)
    then Return (Date y m d)
    else Raise ValueError
  else Raise OverflowError.

(** [calendar.monthrange(year, month)]: week day of the first of the month
    and number of days. *)
Definition monthrange (y m : Z) : result (Z * Z) :=
  if (1 <=? m) && (m <=? 12) then
    let y' := if (MINYEAR <=? y) && (y <=? MAXYEAR) then y
              else 2000 + y mod 400 in
    Return (weekday (Date y' m 1), days_in_month y m)
  else Raise ValueError.

End CalendarLib.

(** ** The calendar grid ([get_calendar_data] of [app/routers/pages.py]) *)

Module Grid.
Import Pages.

Definition week := list (option day_data).

(** The body of the loop up to [current_week.append(day_data)]. *)
Definition make_day (today : date) (year month : Z)
    (entries : gmap date DayEntry.t) (day : Z) : day_data :=
  let current_date := Date year month day in
  let entry := entries !! current_date in
  mkDay current_date day entry
    (get_score_color (DayEntry.score <$> entry))
    (bool_decide (current_date = today))
    (Calendar.date_ltb today current_date).

(** The [for day in range(...)] loop over its two accumulators. *)
Fixpoint calendar_loop (mk : Z → day_data) (days : list Z)
    (weeks : list week) (current_week : week) : list week * week :=
  match days with
  | [] => (weeks, current_week)
  | day :: rest =>
      let current_week := current_week ++ [Some (mk day)] in
      if bool_decide (length current_week = 7%nat)
      then calendar_loop mk rest (weeks ++ [current_week]) []
      else calendar_loop mk rest weeks current_week
  end.

(** [today] is what [date.today()] returns during the call. *)
Definition get_calendar_data (today : date) (year month : Z)
    (entries : gmap date DayEntry.t) : result (list week) :=
  first_day ← CalendarLib.new_date year month 1;
  range ← CalendarLib.monthrange year month;
  let days_in_month := range.2 in
  let start_weekday := (Calendar.weekday first_day + 1) mod 7 in
  let '(weeks, current_week) :=
    calendar_loop (make_day today year month entries)
      (seqZ 1 days_in_month) [] (replicate (Z.to_nat start_weekday) None) in
  mret (match current_week with
        | [] => weeks
        | _ => weeks ++ [current_week
                         ++ replicate (7 - length current_week)%nat None]
        end).

End Grid.

(** ** Access resolution ([app/auth.py]) *)

Module Auth.

(** What [jwt.decode(token, secret_key, algorithms=[algorithm])] does with a
    token: it raises [JWTError] (bad signature, malformed token, expired,
    or a claim of the wrong type), or it returns the payload, of which the
    handlers read the claim ["sub"] only. The library accepts ["sub"] only
    as a string. *)
Inductive decoded :=
| JWTError
| Payload (sub : option string).

Definition digit_of (c : ascii) : option Z :=
  let n := N_of_ascii c in
  if ((48 <=? n) && (n <=? 57))%N then Some (Z.of_N n - 48) else None.

(** Decimal digits, single underscores allowed between two digits. *)
Fixpoint parse_digits (acc : Z) (after_digit : bool) (s : string) : option Z :=
  match s with
  | EmptyString => if after_digit then Some acc else None
  | String c s' =>
      match digit_of c with
      | Some d => parse_digits (10 * acc + d) true s'
      | None =>
          if bool_decide (c = "_"%char) && after_digit
          then parse_digits acc false s'
          else None
      end
  end.

(** The white space that [int] skips at either end of a string: of the
    characters below 256 for which [str.isspace] holds, all but the
    separators 28 to 31. *)
Definition int_space (c : ascii) : bool :=
  let n := N_of_ascii c in
  ((9 <=? n) && (n <=? 13) || (n =? 32) || (n =? 133) || (n =? 160))%N.

Fixpoint skip_leading (s : string) : string :=
  match s with
  | EmptyString => EmptyString
  | String c s' => if int_space c then skip_leading s' else s
  end.

Fixpoint skip_trailing (s : string) : string :=
  match s with
  | EmptyString => EmptyString
  | String c s' =>
      match skip_trailing s' with
      | EmptyString => if int_space c then EmptyString else String c EmptyString
      | r => String c r
      end
  end.

(** [sys.get_int_max_str_digits()], which the program leaves at its
    default: a literal with more digits is refused. *)
Definition int_max_str_digits : Z := 4300.

Fixpoint count_digits (s : string) : Z :=
  match s with
  | EmptyString => 0
  | String c s' =>
      match digit_of c with
      | Some _ => 1 + count_digits s'
      | None => count_digits s'
      end
  end.

(** [int(s)] for a string [s]: white space at either end, an optional sign,
    then the digits, no more of them than the limit; [ValueError]
    otherwise. *)
Definition py_int (s : string) : result Z :=
  let literal := skip_trailing (skip_leading s) in
  let parsed :=
    match literal with
    | String "-" s' => Z.opp <$> parse_digits 0 false s'
    | String "+" s' => parse_digits 0 false s'
    | s' => parse_digits 0 false s'
    end in
  match parsed with
  | Some n =>
      if int_max_str_digits <? count_digits literal then Raise ValueError
      else Return n
  | None => Raise ValueError
  end.

(** [get_token_from_cookie_or_header]: [cookie] is the cookie
    ["access_token"], [token] what the OAuth2 scheme read from the
    [Authorization] header. *)
Definition get_token_from_cookie_or_header (cookie token : option string)
    : option string :=
  match cookie with
  | Some cookie_token =>
      if bool_decide (cookie_token = "") then token
      else if Str.startswith "Bearer " cookie_token
           then Some (Str.drop 7 cookie_token)
           else Some cookie_token
  | None => token
  end.

(** [user_id] is what [int] made of the subject of the token. *)
Definition get_user_by_id (user_id : Z) : M (option User.t) :=
  bind_integer user_id;;
  rows ← execute (select_user_by_id user_id);
  lift (scalar_one_or_none rows).

Definition get_user_by_email (email : string) : M (option User.t) :=
  rows ← execute (select_user_by_email email);
  lift (scalar_one_or_none rows).

Definition credentials_exception : exn := HTTPException HTTP_401_UNAUTHORIZED.

Section Resolution.
Variable jwt_decode : string → decoded.

Definition get_current_user (token : option string) : M User.t :=
  match token with
  | None => raise credentials_exception
  | Some tok =>
      if bool_decide (tok = "") then raise credentials_exception
      else
        (* try: ... except JWTError: raise credentials_exception *)
        match jwt_decode tok with
        | JWTError => raise credentials_exception
        | Payload None => raise credentials_exception
        | Payload (Some user_id) =>
            token_data ← lift (py_int user_id);
            user ← get_user_by_id token_data;
            match user with
            | None => raise credentials_exception
            | Some user => mret user
            end
        end
  end.

Definition get_current_user_optional (token : option string)
    : M (option User.t) :=
  match token with
  | None => mret None
  | Some tok =>
      if bool_decide (tok = "") then mret None
      else
        (* try: ... except JWTError: return None *)
        match jwt_decode tok with
        | JWTError => mret None
        | Payload None => mret None
        | Payload (Some user_id) =>
            uid ← lift (py_int user_id);
            get_user_by_id uid
        end
  end.

End Resolution.

End Auth.

(** ** Accounts ([app/routers/auth.py]) *)

Module Accounts.

Record UserCreate := mkUserCreate { uc_email : string; uc_password : string }.

(** The schema [UserCreate] of [app/schemas.py]. [EmailStr] hands the
    address to the e-mail validator of the library, which refuses it or
    returns it in normal form: [validate_email] is that function. The
    password has 6 to 100 characters. *)
Definition validate (validate_email : string → option string)
    (email password : string) : result UserCreate :=
  match validate_email email with
  | Some normalized =>
      if (6 <=? Str.len password) && (Str.len password <=? 100)
      then Return (mkUserCreate normalized password)
      else Raise (HTTPException HTTP_422_UNPROCESSABLE_ENTITY)
  | None => Raise (HTTPException HTTP_422_UNPROCESSABLE_ENTITY)
  end.

(** [hashed] is what [get_password_hash(user_data.password)] returns. *)
Definition register (now : datetime) (hashed : string)
    (user_data : UserCreate) : M User.t :=
  existing_user ← Auth.get_user_by_email (uc_email user_data);
  match existing_user with
  | Some _ => raise (HTTPException HTTP_400_BAD_REQUEST)
  | None => add_user now (uc_email user_data) hashed
  end.

Definition delete_account (current_user : User.t) : M unit :=
  delete_user_row current_user.

End Accounts.

(** ** Whole requests

    The body, or for the listing the query, is validated against its
    declaration, then the handler runs inside [get_db]. [user] is the user
    the access layer resolved. *)

Module Request.

Definition create_entry (now now' : datetime) (user : User.t) (d : date)
    (score : Z) (summary : string) : Session → result DayEntry.t * Session :=
  get_db (entry_data ← lift (DayEntryCreate.validate d score summary);
          Entries.create_entry now now' entry_data user).

Definition update_entry (now : datetime) (user : User.t) (d : date)
    (score : option Z) (summary : option string)
    : Session → result DayEntry.t * Session :=
  get_db (entry_data ← lift (DayEntryUpdate.validate score summary);
          Entries.update_entry now d entry_data user).

Definition get_entry (user : User.t) (d : date)
    : Session → result DayEntry.t * Session :=
  get_db (Entries.get_entry d user).

Definition list_entries (user : User.t) (start_date end_date : option date)
    (min_score max_score : option Z)
    : Session → result Entries.DayEntryListResponse * Session :=
  get_db (lift (Entries.validate_query min_score max_score);;
          Entries.list_entries user start_date end_date min_score max_score).

Definition delete_entry (user : User.t) (d : date)
    : Session → result unit * Session :=
  get_db (Entries.delete_entry d user).

Definition save_day_entry (today : date) (now now' : datetime)
    (user : User.t) (d : date) (score : Z) (summary : string)
    : Session → result Pages.TemplateResponse * Session :=
  get_db (Pages.save_day_entry today now now' d user score summary).

Definition delete_day_entry (today : date) (user : User.t) (d : date)
    : Session → result Pages.TemplateResponse * Session :=
  get_db (Pages.delete_day_entry today d user).

Definition register (validate_email : string → option string)
    (now : datetime) (hashed : string) (email password : string)
    : Session → result User.t * Session :=
  get_db (user_data ← lift (Accounts.validate validate_email email password);
          Accounts.register now hashed user_data).

Definition delete_account (user : User.t) : Session → result unit * Session :=
  get_db (Accounts.delete_account user).

End Request.

(** ** Reachable storage states *)

(** One request that can write, made by a user who is in the credential
    store at that moment. *)
Inductive step (db : Session) : Session → Prop :=
| step_register validate_email now hashed email password :
    step db (Request.register validate_email now hashed email password db).2
| step_create now now' user d score summary :
    user ∈ users db →
    step db (Request.create_entry now now' user d score summary db).2
| step_update now user d score summary :
    user ∈ users db →
    step db (Request.update_entry now user d score summary db).2
| step_delete user d :
    user ∈ users db →
    step db (Request.delete_entry user d db).2
| step_save today now now' user d score summary :
    user ∈ users db →
    step db (Request.save_day_entry today now now' user d score summary db).2
| step_delete_day today user d :
    user ∈ users db →
    step db (Request.delete_day_entry today user d db).2
| step_delete_account user :
    user ∈ users db →
    step db (Request.delete_account user db).2.

Definition reachable (db : Session) : Prop := rtc step empty_db db.

(** ** Constraints of the schema *)

(** The pair under [uq_user_date]. *)
Definition user_date (e : DayEntry.t) : Z * date :=
  (DayEntry.user_id e, DayEntry.date e).

(** Primary keys are distinct and [uq_user_date] holds. *)
Record constraints (db : Session) : Prop := mkConstraints {
  pk_day_entries : NoDup (DayEntry.id <$> day_entries db);
  uq_user_date : NoDup (user_date <$> day_entries db);
}.

(** ** The properties of a stored entry *)

Definition score_in_range (e : DayEntry.t) : bool :=
  (0 <=? DayEntry.score e) && (DayEntry.score e <=? 10).

Definition summary_nonempty (e : DayEntry.t) : bool :=
  1 <=? Str.len (DayEntry.summary e).

Definition summary_bounded (e : DayEntry.t) : bool :=
  (Str.len (DayEntry.summary e) <=? 200) && Str.trimmed (DayEntry.summary e).

(** The invariant of the data model: score 0-10, summary non-empty, at most
    200 characters, no white space at either end. *)
Definition entry_invariant (e : DayEntry.t) : bool :=
  score_in_range e && summary_nonempty e && summary_bounded e.

(** The part of it that every write keeps. *)
Definition entry_bounds (e : DayEntry.t) : bool :=
  score_in_range e && summary_bounded e.

(** ** Two statements about the last-updated timestamp, as the specification
    words them *)

(** "Calling Upsert twice with the same input yields one entry whose score
    and summary are unchanged and whose updated-timestamp strictly
    increases", the clock readings of the second call being later than
    those of the first. *)
Definition upsert_twice_increases_updated_at : Prop :=
  ∀ (today : date) (now1 now1' now2 now2' : datetime) (user : User.t)
    (d : date) (score : Z) (summary : string) (db : Session)
    (e1 e2 : DayEntry.t),
    constraints db →
    0 ≤ score ≤ 10 →
    Str.len (Str.strip summary) ≠ 0 →
    Str.len summary ≤ 200 →
    now1 ≤ now1' → now1' < now2 → now2 ≤ now2' →
    let db1 :=
      (Request.save_day_entry today now1 now1' user d score summary db).2 in
    let db2 :=
      (Request.save_day_entry today now2 now2' user d score summary db1).2 in
    select_day_entry (User.id user) d db1 = [e1] →
    select_day_entry (User.id user) d db2 = [e2] →
    DayEntry.score e2 = DayEntry.score e1
    ∧ DayEntry.summary e2 = DayEntry.summary e1
    ∧ DayEntry.updated_at e1 < DayEntry.updated_at e2.

(** "Each of score and summary is updated only if supplied; the
    updated-timestamp is refreshed unconditionally on any successful update
    call": the entry returned carries the instant of the call. *)
Definition update_always_refreshes_updated_at : Prop :=
  ∀ (now : datetime) (user : User.t) (d : date)
    (entry_data : DayEntryUpdate.t) (db db' : Session) (old new : DayEntry.t),
    constraints db →
    select_day_entry (User.id user) d db = [old] →
    get_db (Entries.update_entry now d entry_data user) db = (Return new, db') →
    (DayEntryUpdate.score entry_data = None →
     DayEntry.score new = DayEntry.score old)
    ∧ (DayEntryUpdate.summary entry_data = None →
       DayEntry.summary new = DayEntry.summary old)
    ∧ DayEntry.updated_at new = now.

(** The storage without the rows of one owner. *)
Definition without_owner (uid : Z) (db : Session) : Session :=
  mkSession (users db) (filter (λ e, DayEntry.user_id e ≠ uid) (day_entries db)).

(** The constraints hold and every stored entry is within bounds. *)
Definition healthy (db : Session) : Prop :=
  constraints db ∧ Forall entry_bounds (day_entries db).

(** ** The calendar grid, as the specification words it *)

(** The twelve display categories: "none", then one for each score. *)
Definition score_categories : list string :=
  ["score-none"; "score-0"; "score-1"; "score-2"; "score-3"; "score-4";
   "score-5"; "score-6"; "score-7"; "score-8"; "score-9"; "score-10"].

(** "For every year, every month in 1-12 and every mapping the grid builder
    is a pure function of those three inputs producing a sequence of weeks of
    exactly 7 slots each": the three inputs fix one grid, whatever the day on
    which it is built. *)
Definition grid_fixed_by_three_inputs : Prop :=
  ∀ (year month : Z) (entries : gmap date DayEntry.t),
    1 ≤ month ≤ 12 →
    ∃ weeks : list Grid.week,
      Forall (λ w, length w = 7%nat) weeks
      ∧ ∀ today, Grid.get_calendar_data today year month entries = Return weeks.

(** "Each in-month slot's score category is one of 12 categories matching
    its entry's score, or none if no entry exists": a day shows the category
    "none" only when the mapping has no entry for it. *)
Definition category_none_only_without_entry : Prop :=
  ∀ (today : date) (year month day : Z) (entries : gmap date DayEntry.t),
    Pages.dd_score_class (Grid.make_day today year month entries day)
    = "score-none" →
    entries !! Date year month day = None.

(** The last step of the grid builder, on the two accumulators the loop
    leaves: the week that is left over is padded and appended. *)
Definition finish (acc : list Grid.week * Grid.week) : list Grid.week :=
  match acc.2 with
  | [] => acc.1
  | _ => acc.1 ++ [acc.2 ++ replicate (7 - length acc.2)%nat None]
  end.

(** ** Issuing tokens and logging in ([app/auth.py], [app/routers/auth.py]) *)

(** [str(n)] for an integer [n] of at most 4300 digits, which the identifier
    of a stored row is; for a longer one [str] raises. *)
Definition py_str (n : Z) : string := NilZero.string_of_int (Z.to_int n).

(** A [timedelta] of [n] minutes, in microseconds. *)
Definition minutes (n : Z) : Z := n * 60000000.

Module Login.

Record Token := mkToken { access_token : string; token_type : string }.

(** What [response.set_cookie] is called with. *)
Record Cookie := mkCookie {
  key : string;
  value : string;
  httponly : bool;
  max_age : Z;
  samesite : string;
  secure : bool;
}.

Section Credentials.
(** [bcrypt.checkpw] on the encoded password and hash. *)
Variable verify_password : string → string → bool.
(** [jwt.encode] of the payload with subject [sub] and expiry [exp] under the
    configured key and algorithm. *)
Variable jwt_encode : string → datetime → string.
(** [settings.access_token_expire_minutes] and [settings.debug]. *)
Variable access_token_expire_minutes : Z.
Variable debug : bool.

Definition authenticate_user (email password : string) : M (option User.t) :=
  user ← Auth.get_user_by_email email;
  match user with
  | None => mret None
  | Some user =>
      if verify_password password (User.hashed_password user)
      then mret (Some user)
      else mret None
  end.

(** [create_access_token(data={"sub": sub}, expires_delta)]; [now] is what
    [datetime.utcnow()] returns. A zero [timedelta] is false, so it gives way
    to the configured duration as an absent one does. *)
Definition create_access_token (now : datetime) (sub : string)
    (expires_delta : option Z) : string :=
  let delta :=
    match expires_delta with
    | Some delta =>
        if delta =? 0 then minutes access_token_expire_minutes else delta
    | None => minutes access_token_expire_minutes
    end in
  jwt_encode sub (now + delta).

(** [login] of [app/routers/auth.py]: the token and the cookie it sets. *)
Definition login (now : datetime) (username password : string)
    : M (Token * Cookie) :=
  user ← authenticate_user username password;
  match user with
  | None => raise (HTTPException HTTP_401_UNAUTHORIZED)
  | Some user =>
      let access_token :=
        create_access_token now (py_str (User.id user))
          (Some (minutes access_token_expire_minutes)) in
      mret (mkToken access_token "bearer",
            mkCookie "access_token" ("Bearer " ++ access_token) true
              (access_token_expire_minutes * 60) "lax" (negb debug))
  end.

(** What [register_submit] of [app/routers/pages.py] answers: the form again
    with an error and status 400, or the redirect to the calendar with the
    session cookie. *)
Inductive RegisterResponse :=
| register_html (error : string) (status : status_code)
| redirect_calendar (cookie : Cookie).

(** [hashed] is what [get_password_hash(password)] returns; [now] is the
    reading of the clock that fills [created_at] of the new user and [now']
    the one that [create_access_token] takes afterwards. *)
Definition register_submit (now now' : datetime) (hashed : string)
    (email password password_confirm : string) : M RegisterResponse :=
  if negb (bool_decide (password = password_confirm)) then
    mret (register_html "Passwords do not match" HTTP_400_BAD_REQUEST)
  else if Str.len password <? 6 then
    mret (register_html "Password must be at least 6 characters"
            HTTP_400_BAD_REQUEST)
  else
    existing ← Auth.get_user_by_email email;
    match existing with
    | Some _ =>
        mret (register_html "Email already registered" HTTP_400_BAD_REQUEST)
    | None =>
        user ← add_user now email hashed;
        let access_token :=
          create_access_token now' (py_str (User.id user)) None in
        mret (redirect_calendar
                (mkCookie "access_token" ("Bearer " ++ access_token) true
                   (access_token_expire_minutes * 60) "lax" false))
    end.

End Credentials.

End Login.

(** ** The remaining pages ([app/routers/pages.py]) *)

Module MorePages.

(** [delete_account_page]: the same deletion as the API's. *)
Definition delete_account_page (user : User.t) : M unit :=
  delete_user_row user.

(** The context of the entry form that [get_day_modal] renders. *)
Record DayModal := mkDayModal {
  dm_entry : option DayEntry.t;
  dm_entry_date : date;
  dm_is_future : bool;
}.

Definition get_day_modal (today : date) (entry_date : date) (user : User.t)
    : M DayModal :=
  rows ← execute (select_day_entry (User.id user) entry_date);
  entry ← lift (scalar_one_or_none rows);
  mret (mkDayModal entry entry_date (Calendar.date_ltb today entry_date)).

Definition month_names : list string :=
  [""; "January"; "February"; "March"; "April"; "May"; "June";
   "July"; "August"; "September"; "October"; "November"; "December"].

(** The context of the calendar template. *)
Record CalendarPage := mkCalendarPage {
  cp_weeks : list Grid.week;
  cp_year : Z;
  cp_month : Z;
  cp_month_name : string;
  cp_prev_month : Z;
  cp_prev_year : Z;
  cp_next_month : Z;
  cp_next_year : Z;
  cp_today : date;
}.

(** [value or fallback] for an optional integer query parameter. *)
Definition or_else (value : option Z) (fallback : Z) : Z :=
  match value with
  | Some v => if v =? 0 then fallback else v
  | None => fallback
  end.

(** [{e.date: e for e in entries_list}]: a later row replaces an earlier one
    of the same date. *)
Definition by_date (entries_list : list DayEntry.t) : gmap date DayEntry.t :=
  foldl (λ m e, <[DayEntry.date e := e]> m) ∅ entries_list.

(** The query of [calendar_page] for the entries of the month. *)
Definition select_month (uid : Z) (first_day last_day : date) (db : Session)
    : list DayEntry.t :=
  filter (λ e, DayEntry.user_id e = uid
               ∧ Calendar.date_leb first_day (DayEntry.date e)
               ∧ Calendar.date_leb (DayEntry.date e) last_day)
         (day_entries db).

(** [calendar_page]; [today] is what [date.today()] returns. The index into
    [month_names] is within range once the month is validated. *)
Definition calendar_page (today : date) (user : User.t)
    (year month : option Z) : M CalendarPage :=
  let '(Date today_year today_month _) := today in
  let year := or_else year today_year in
  let month := or_else month today_month in
  let month := if (month <? 1) || (12 <? month) then today_month else month in
  let year := if (year <? 2000) || (2100 <? year) then today_year else year in
  first_day ← lift (CalendarLib.new_date year month 1);
  range ← lift (CalendarLib.monthrange year month);
  last_day ← lift (CalendarLib.new_date year month range.2);
  entries_list ← execute (select_month (User.id user) first_day last_day);
  let entries := by_date entries_list in
  weeks ← lift (Grid.get_calendar_data today year month entries);
  let prev_month := if 1 <? month then month - 1 else 12 in
  let prev_year := if 1 <? month then year else year - 1 in
  let next_month := if month <? 12 then month + 1 else 1 in
  let next_year := if month <? 12 then year else year + 1 in
  mret (mkCalendarPage weeks year month
          (default "" (month_names !! Z.to_nat month))
          prev_month prev_year next_month next_year today).

End MorePages.

(** ** The storage location ([app/config.py]) *)

Module Config.

(** [needle in s] *)
Fixpoint contains (needle s : string) : bool :=
  Str.startswith needle s
  || match s with
     | EmptyString => false
     | String _ s' => contains needle s'
     end.

(** [s.replace(old, new, 1)] for a non-empty [old]: the leftmost occurrence
    is replaced. *)
Fixpoint replace_first (old new s : string) : string :=
  if Str.startswith old s
  then (new ++ Str.drop (String.length old) s)%string
  else match s with
       | EmptyString => EmptyString
       | String c s' => String c (replace_first old new s')
       end.

(** [Settings.async_database_url] for the configured [database_url]. *)
Definition async_database_url (database_url : string) : string :=
  let url := database_url in
  if Str.startswith "postgres://" url then
    replace_first "postgres://" "postgresql+asyncpg://" url
  else if Str.startswith "postgresql://" url
          && negb (contains "+asyncpg" url) then
    replace_first "postgresql://" "postgresql+asyncpg://" url
  else url.

End Config.

(** ** Every route that writes *)

(** The two writing routes of the pages that the API does not have. *)
Inductive page_step (db : Session) : Session → Prop :=
| step_register_submit jwt_encode expire_minutes now now' hashed
    email password password_confirm :
    page_step db
      (get_db (Login.register_submit jwt_encode expire_minutes now now' hashed
                 email password password_confirm) db).2
| step_delete_account_page user :
    user ∈ users db →
    page_step db (get_db (MorePages.delete_account_page user) db).2.

Definition any_step (db db' : Session) : Prop := step db db' ∨ page_step db db'.

Definition reachable_by_any_route (db : Session) : Prop :=
  rtc any_step empty_db db.

(** The credential store has distinct identifiers and distinct emails, and
    every entry belongs to a user that is stored. *)
Record store_ok (db : Session) : Prop := mkStoreOk {
  pk_users : NoDup (User.id <$> users db);
  uq_email : NoDup (User.email <$> users db);
  fk_user : ∀ e, e ∈ day_entries db →
                 DayEntry.user_id e ∈ User.id <$> users db;
}.

(** ** Storages that differ in one pair only *)

(** The users are the same, and so are the rows of every pair of user and
    date other than the one of [uid] and [d]. *)
Definition same_elsewhere (uid : Z) (d : date) (db db' : Session) : Prop :=
  users db' = users db
  ∧ ∀ uid' d', (uid', d') ≠ (uid, d) →
      select_day_entry uid' d' db' = select_day_entry uid' d' db.

(** ** Sample data *)

Module Sample.
(** An e-mail validator for the sample addresses, which are in normal form
    already: it returns the address as it is. *)
Definition validate_email (email : string) : option string := Some email.

Definition alice : User.t := User.mk 1 "alice@example.org" "$2b$12$alice" 0.
Definition bob : User.t := User.mk 2 "bob@example.org" "$2b$12$bob" 5.
Definition may_1 : date := Date 2024 5 1.
Definition may_2 : date := Date 2024 5 2.
Definition entry_bob : DayEntry.t := DayEntry.mk 1 2 may_1 7 "good day" 10 11.
Definition entry_alice : DayEntry.t := DayEntry.mk 2 1 may_2 4 "slow day" 20 21.

Definition entry_blank : DayEntry.t := DayEntry.mk 1 1 may_1 5 "" 10 11.

(** Alice alone, before and after a strict create whose summary is one
    blank. *)
Definition db_alice : Session := mkSession [alice] [].
Definition db_blank : Session := mkSession [alice] [entry_blank].

(** Both users registered; Bob has written the first of May. *)
Definition db_bob : Session := mkSession [alice; bob] [entry_bob].

(** Alice has written the second of May as well. *)
Definition db_both : Session := mkSession [alice; bob] [entry_bob; entry_alice].

(** Bob has written five days, not in the order of their dates, with the
    scores 8, 3, 10, 7 and 9. *)
Definition may_3 : date := Date 2024 5 3.
Definition may_4 : date := Date 2024 5 4.
Definition may_5 : date := Date 2024 5 5.
Definition scored (id : Z) (d : date_t) (score : Z) : DayEntry.t :=
  DayEntry.mk id 2 d score "day" (100 * id) (100 * id + 1).
Definition db_scores : Session :=
  mkSession [alice; bob]
    [scored 1 may_3 8; scored 2 may_1 3; scored 3 may_5 10; scored 4 may_2 7;
     scored 5 may_4 9].
End Sample.

(** * Facts *)

(** ** Strings *)

Module StrFacts.
Import Str.

Lemma lstrip_length s : (String.length (lstrip s) ≤ String.length s)%nat.
Proof. induction s as [|c s IH]; simpl; [lia|]. destruct (isspace c); simpl; lia. Qed.

Lemma rstrip_length s : (String.length (rstrip s) ≤ String.length s)%nat.
Proof.
  induction s as [|c s IH]; simpl; [lia|].
  destruct (rstrip s); [destruct (isspace c)|]; simpl in *; lia.
Qed.

Lemma strip_length s : (String.length (strip s) ≤ String.length s)%nat.
Proof.
  unfold strip. etrans; [apply rstrip_length | apply lstrip_length].
Qed.

Lemma strip_len s : len (strip s) ≤ len s.
Proof. unfold len. pose proof (strip_length s). lia. Qed.

Lemma first_lstrip s a : first (lstrip s) = Some a → isspace a = false.
Proof.
  induction s as [|c s IH]; simpl; [done|].
  destruct (isspace c) eqn:E; [done|]. simpl. by intros [= <-].
Qed.

Lemma first_rstrip s : rstrip s ≠ "" → first (rstrip s) = first s.
Proof.
  destruct s as [|c s]; simpl; [done|].
  destruct (rstrip s); [destruct (isspace c)|]; done.
Qed.

Lemma last_rstrip s b : last (rstrip s) = Some b → isspace b = false.
Proof.
  induction s as [|c s IH]; simpl; [done|].
  destruct (rstrip s) as [|c' r] eqn:E.
  - destruct (isspace c) eqn:Ec; simpl; [done|]. by intros [= <-].
  - simpl. exact IH.
Qed.

Lemma trimmed_strip s : trimmed (strip s) = true.
Proof.
  unfold trimmed, strip.
  destruct (first (rstrip (lstrip s))) as [a|] eqn:Ha; [|done].
  destruct (last (rstrip (lstrip s))) as [b|] eqn:Hb; [|done].
  rewrite first_rstrip in Ha by (intros E; by rewrite E in Ha).
  by rewrite (first_lstrip _ _ Ha), (last_rstrip _ _ Hb).
Qed.

Lemma len_nonneg s : 0 ≤ len s.
Proof. unfold len. lia. Qed.

Lemma len_zero s : len s = 0 ↔ s = "".
Proof. unfold len. destruct s; simpl; split; (done || lia). Qed.

End StrFacts.

(** ** Rows selected by a key *)

Section Keys.
Context {A K : Type} `{EqDecision K} (f : A → K).

Lemma filter_key_unique (l : list A) (x : A) :
  NoDup (f <$> l) → x ∈ l → filter (λ y, f y = f x) l = [x].
Proof.
  induction l as [|a l IH]; intros Hnd Hin; [by apply elem_of_nil in Hin|].
  rewrite fmap_cons in Hnd. apply NoDup_cons in Hnd as [Ha Hnd].
  apply elem_of_cons in Hin as [->|Hin].
  - rewrite filter_cons_True by done. f_equal.
    destruct (filter (λ y, f y = f a) l) as [|b k] eqn:E; [done|].
    assert (b ∈ filter (λ y, f y = f a) l) as Hb by (rewrite E; left).
    apply list_elem_of_filter in Hb as [Hb1 Hb2].
    exfalso. apply Ha. rewrite <- Hb1. by apply list_elem_of_fmap_2.
  - rewrite filter_cons_False; [by apply IH|].
    intros E. apply Ha. rewrite E. by apply list_elem_of_fmap_2.
Qed.

Lemma filter_key_absent (l : list A) (k : K) :
  k ∉ f <$> l → filter (λ y, f y = k) l = [].
Proof.
  intros Hk. destruct (filter (λ y, f y = k) l) as [|b r] eqn:E; [done|].
  assert (b ∈ filter (λ y, f y = k) l) as Hb by (rewrite E; left).
  apply list_elem_of_filter in Hb as [<- Hb2].
  exfalso. apply Hk. by apply list_elem_of_fmap_2.
Qed.

(** Replacing the rows with the key of [x] by a row with the same key
    leaves the column of keys as it is. *)
Lemma fmap_replace_same {B} (g : A → B) (P : A → Prop) `{∀ y, Decision (P y)}
    (row : A) (l : list A) :
  (∀ y, y ∈ l → P y → g row = g y) →
  g <$> ((λ y, if bool_decide (P y) then row else y) <$> l) = g <$> l.
Proof.
  intros Hg. rewrite <- list_fmap_compose. apply list_fmap_ext.
  intros i y Hy. simpl. case_bool_decide; [|done].
  apply Hg; [|done]. by eapply list_elem_of_lookup_2.
Qed.

Lemma NoDup_fmap_filter (P : A → Prop) `{∀ y, Decision (P y)} (l : list A) :
  NoDup (f <$> l) → NoDup (f <$> filter P l).
Proof.
  intros Hnd. eapply sublist_NoDup; [exact Hnd|].
  apply fmap_sublist, sublist_filter.
Qed.

End Keys.

(** ** The storage operations *)

Ltac run :=
  unfold Request.create_entry, Request.update_entry, Request.get_entry,
    Request.delete_entry, Request.save_day_entry, Request.delete_day_entry,
    Request.register, Request.delete_account, Request.list_entries,
    Entries.get_entry, Entries.create_entry, Entries.update_entry,
    Entries.delete_entry, Entries.list_entries,
    Pages.save_day_entry, Pages.delete_day_entry,
    Accounts.register, Accounts.delete_account,
    Auth.get_user_by_id, Auth.get_user_by_email,
    get_db, mbind, M_bind, mret, M_ret, execute, lift, raise, bind_integer,
    delete_day_entry_row, delete_user_row, scalar_one_or_none in *.

Section Storage.
Implicit Types (db : Session) (e : DayEntry.t) (d : date) (uid : Z).

Lemma select_day_entry_key uid d db :
  select_day_entry uid d db
  = filter (λ e, user_date e = (uid, d)) (day_entries db).
Proof.
  unfold select_day_entry. apply list_filter_iff.
  intros e. unfold user_date. split; [by intros [-> ->] | by intros [= -> ->]].
Qed.

Lemma elem_of_select e uid d db :
  e ∈ select_day_entry uid d db
  ↔ (DayEntry.user_id e = uid ∧ DayEntry.date e = d) ∧ e ∈ day_entries db.
Proof. unfold select_day_entry. by rewrite list_elem_of_filter. Qed.

Lemma select_unique db e :
  constraints db → e ∈ day_entries db →
  select_day_entry (DayEntry.user_id e) (DayEntry.date e) db = [e].
Proof.
  intros [_ Huq] Hin. rewrite select_day_entry_key.
  by apply (filter_key_unique user_date).
Qed.

Lemma select_absent db uid d :
  (∀ e, e ∈ day_entries db → ¬ (DayEntry.user_id e = uid ∧ DayEntry.date e = d)) →
  select_day_entry uid d db = [].
Proof.
  intros Hno. destruct (select_day_entry uid d db) as [|e r] eqn:E; [done|].
  assert (e ∈ select_day_entry uid d db) as He by (rewrite E; left).
  apply elem_of_select in He as [He Hin]. by destruct (Hno e Hin).
Qed.

(** Under the constraints a point query finds no row or exactly one. *)
Lemma select_cases db uid d :
  constraints db →
  select_day_entry uid d db = []
  ∨ ∃ e, select_day_entry uid d db = [e] ∧ e ∈ day_entries db
         ∧ DayEntry.user_id e = uid ∧ DayEntry.date e = d.
Proof.
  intros Hc. destruct (select_day_entry uid d db) as [|e r] eqn:E; [by left|].
  right. exists e.
  assert (e ∈ select_day_entry uid d db) as He by (rewrite E; left).
  apply elem_of_select in He as [[Hu Hd] Hin].
  pose proof (select_unique db e Hc Hin) as Hs. rewrite Hu, Hd, E in Hs.
  by injection Hs as ->.
Qed.

Lemma foldr_max_ge (ids : list Z) x : x ∈ ids → x ≤ foldr Z.max 0 ids.
Proof.
  induction ids as [|a ids IH]; intros Hin; [by apply elem_of_nil in Hin|].
  simpl. apply elem_of_cons in Hin as [->|Hin]; [lia|].
  specialize (IH Hin). lia.
Qed.

Lemma next_id_fresh (ids : list Z) : next_id ids ∉ ids.
Proof.
  intros Hin. apply foldr_max_ge in Hin. unfold next_id in Hin. lia.
Qed.

(** *** The constraints are kept *)

Lemma add_day_entry_constraints now now' uid d score summary db e db' :
  constraints db →
  add_day_entry now now' uid d score summary db = Return (e, db') →
  constraints db'.
Proof.
  intros [Hpk Huq]. unfold add_day_entry.
  case_bool_decide as Hsel; [|done]. intros [= <- <-].
  split; simpl; rewrite fmap_app; simpl; apply NoDup_app; split_and!;
    try done; try apply NoDup_singleton.
  - intros x Hx ->%list_elem_of_singleton. by apply next_id_fresh in Hx.
  - intros x Hx ->%list_elem_of_singleton.
    apply list_elem_of_fmap in Hx as (e' & [= Hu Hd] & Hin).
    eapply (filter_nil_not_elem_of _ _ e'); [exact Hsel| |exact Hin]. done.
Qed.

Lemma flush_day_entry_constraints now old new db e db' :
  constraints db → old ∈ day_entries db →
  DayEntry.id new = DayEntry.id old → user_date new = user_date old →
  flush_day_entry now old new db = Return (e, db') →
  constraints db'.
Proof.
  intros [Hpk Huq] Hin Hid Hkey. unfold flush_day_entry. intros [= <- <-].
  assert (∀ y, y ∈ day_entries db → DayEntry.id y = DayEntry.id old → y = old)
    as Hsame.
  { intros y Hy Hidy.
    pose proof (filter_key_unique DayEntry.id _ _ Hpk Hin) as Hf.
    assert (y ∈ filter (λ z, DayEntry.id z = DayEntry.id old) (day_entries db))
      as Hyf by (by apply list_elem_of_filter).
    rewrite Hf in Hyf. by apply list_elem_of_singleton in Hyf. }
  split; simpl.
  - rewrite (fmap_replace_same DayEntry.id); [done|].
    intros y Hy Hidy. rewrite (Hsame y Hy Hidy).
    case_bool_decide; [done|]. by destruct new, old.
  - rewrite (fmap_replace_same user_date); [done|].
    intros y Hy Hidy. rewrite (Hsame y Hy Hidy).
    case_bool_decide; [done|]. by destruct new, old.
Qed.

Lemma filter_constraints (P : DayEntry.t → Prop) `{∀ e, Decision (P e)} db us :
  constraints db → constraints (mkSession us (filter P (day_entries db))).
Proof.
  intros [Hpk Huq]. split; simpl; by apply NoDup_fmap_filter.
Qed.

End Storage.

Lemma filter_ext_in {A} (P1 P2 : A → Prop)
    `{!∀ x, Decision (P1 x), !∀ x, Decision (P2 x)} (l : list A) :
  (∀ x, x ∈ l → (P1 x ↔ P2 x)) → filter P1 l = filter P2 l.
Proof.
  induction l as [|a l IH]; intros Hiff; [done|].
  rewrite !filter_cons.
  rewrite IH by (intros x Hx; apply Hiff; by right).
  apply decide_ext. apply Hiff. by left.
Qed.

(** ** What each handler does, by the rows its point query finds *)

Section Handlers.
Implicit Types (db : Session) (e : DayEntry.t) (d : date) (user : User.t).

Lemma get_entry_absent d user db :
  select_day_entry (User.id user) d db = [] →
  Request.get_entry user d db = (Raise (HTTPException HTTP_404_NOT_FOUND), db).
Proof. intros Hs. run. by rewrite Hs. Qed.

Lemma get_entry_present d user db e :
  select_day_entry (User.id user) d db = [e] →
  Request.get_entry user d db = (Return e, db).
Proof. intros Hs. run. by rewrite Hs. Qed.

Lemma create_entry_present now now' entry_data user db e :
  select_day_entry (User.id user) (DayEntryCreate.date entry_data) db = [e] →
  get_db (Entries.create_entry now now' entry_data user) db
  = (Raise (HTTPException HTTP_400_BAD_REQUEST), db).
Proof. intros Hs. run. by rewrite Hs. Qed.

Lemma create_entry_absent now now' entry_data user db :
  select_day_entry (User.id user) (DayEntryCreate.date entry_data) db = [] →
  get_db (Entries.create_entry now now' entry_data user) db
  = let e := DayEntry.mk (next_id (DayEntry.id <$> day_entries db))
               (User.id user) (DayEntryCreate.date entry_data)
               (DayEntryCreate.score entry_data)
               (DayEntryCreate.summary entry_data) now now' in
    (Return e, mkSession (users db) (day_entries db ++ [e])).
Proof.
  intros Hs. run. rewrite Hs. simpl. unfold add_day_entry.
  by rewrite Hs, bool_decide_eq_true_2.
Qed.

Lemma update_entry_absent now d entry_data user db :
  select_day_entry (User.id user) d db = [] →
  get_db (Entries.update_entry now d entry_data user) db
  = (Raise (HTTPException HTTP_404_NOT_FOUND), db).
Proof. intros Hs. run. by rewrite Hs. Qed.

Lemma delete_entry_absent d user db :
  select_day_entry (User.id user) d db = [] →
  Request.delete_entry user d db
  = (Raise (HTTPException HTTP_404_NOT_FOUND), db).
Proof. intros Hs. run. by rewrite Hs. Qed.

Lemma delete_entry_present d user db e :
  select_day_entry (User.id user) d db = [e] →
  Request.delete_entry user d db
  = (Return tt,
     mkSession (users db)
       (filter (λ x, DayEntry.id x ≠ DayEntry.id e) (day_entries db))).
Proof. intros Hs. run. by rewrite Hs. Qed.

Lemma delete_day_entry_absent today d user db :
  select_day_entry (User.id user) d db = [] →
  ∃ resp, Request.delete_day_entry today user d db = (Return resp, db).
Proof. intros Hs. run. rewrite Hs. simpl. by eexists. Qed.

Lemma delete_day_entry_present today d user db e :
  select_day_entry (User.id user) d db = [e] →
  ∃ resp,
    Request.delete_day_entry today user d db
    = (Return resp,
       mkSession (users db)
         (filter (λ x, DayEntry.id x ≠ DayEntry.id e) (day_entries db))).
Proof. intros Hs. run. rewrite Hs. simpl. by eexists. Qed.

(** Deleting by primary key takes out the one row that has the key. *)
Lemma delete_by_pk db e :
  constraints db → e ∈ day_entries db →
  filter (λ x, DayEntry.id x ≠ DayEntry.id e) (day_entries db)
  = filter (λ x, x ≠ e) (day_entries db).
Proof.
  intros [Hpk _] Hin. apply filter_ext_in. intros x Hx.
  split; [by intros Hne -> |]. intros Hne Hid. apply Hne.
  pose proof (filter_key_unique DayEntry.id _ _ Hpk Hin) as Hf.
  assert (x ∈ filter (λ z, DayEntry.id z = DayEntry.id e) (day_entries db))
    as Hxf by (by rewrite list_elem_of_filter).
  rewrite Hf in Hxf. by apply list_elem_of_singleton in Hxf.
Qed.

End Handlers.

Ltac solve_constraints :=
  split; simpl; apply (bool_decide_unpack _); vm_compute; exact I.

(** * Properties of the specification *)

(** ** Strict create on a date that is taken *)

(** C3. When the user already has an entry for the date, the strict create
    handler raises the duplicate failure, which the code answers with status
    400 and which differs from the not-found failure 404, and the storage,
    hence the original entry with its score, summary and timestamps, is as
    it was. This holds for the whole request too, whatever the body. *)
Theorem create_entry_conflict (now now' : datetime) (user : User.t)
    (entry_data : DayEntryCreate.t) (existing : DayEntry.t) (db : Session) :
  constraints db →
  existing ∈ day_entries db →
  DayEntry.user_id existing = User.id user →
  DayEntry.date existing = DayEntryCreate.date entry_data →
  get_db (Entries.create_entry now now' entry_data user) db
  = (Raise (HTTPException HTTP_400_BAD_REQUEST), db)
  ∧ HTTPException HTTP_400_BAD_REQUEST ≠ HTTPException HTTP_404_NOT_FOUND
  ∧ ∀ score summary, ∃ failure,
      Request.create_entry now now' user (DayEntry.date existing) score summary db
      = (Raise failure, db).
Proof.
  intros Hc Hin Hu Hd.
  pose proof (select_unique db existing Hc Hin) as Hs. rewrite Hu in Hs.
  split_and!; [|done|].
  - apply (create_entry_present _ _ _ _ _ existing). by rewrite <- Hd.
  - intros score summary. unfold Request.create_entry, DayEntryCreate.validate.
    destruct (_ && _).
    + exists (HTTPException HTTP_400_BAD_REQUEST).
      run. simpl. by rewrite Hs.
    + by exists (HTTPException HTTP_422_UNPROCESSABLE_ENTITY).
Qed.

Lemma create_entry_conflict_witness :
  get_db (Entries.create_entry 30 31 (DayEntryCreate.mk Sample.may_1 2 "retry")
            Sample.bob) Sample.db_bob
  = (Raise (HTTPException HTTP_400_BAD_REQUEST), Sample.db_bob).
Proof.
  refine (proj1 (create_entry_conflict 30 31 Sample.bob
                   (DayEntryCreate.mk Sample.may_1 2 "retry")
                   Sample.entry_bob Sample.db_bob _ _ _ _)).
  - solve_constraints.
  - simpl. left.
  - reflexivity.
  - reflexivity.
Defined.

(** ** The two delete paths *)

(** C7. When the user has no entry for the date, the strict API delete raises
    404 while the interactive delete returns its page fragment, both leaving
    the storage as it was. When the user has an entry for the date, both
    return normally and leave the same storage: the one without that row. *)
Theorem delete_asymmetry (today : date) (user : User.t) (d : date) (db : Session) :
  constraints db →
  ((∀ e, e ∈ day_entries db → DayEntry.user_id e = User.id user →
         DayEntry.date e ≠ d) →
   Request.delete_entry user d db
   = (Raise (HTTPException HTTP_404_NOT_FOUND), db)
   ∧ ∃ resp, Request.delete_day_entry today user d db = (Return resp, db))
  ∧ (∀ e, e ∈ day_entries db → DayEntry.user_id e = User.id user →
          DayEntry.date e = d →
     let db' := mkSession (users db) (filter (λ x, x ≠ e) (day_entries db)) in
     Request.delete_entry user d db = (Return tt, db')
     ∧ (∃ resp, Request.delete_day_entry today user d db = (Return resp, db'))
     ∧ (e ∉ day_entries db')
     ∧ select_day_entry (User.id user) d db' = []).
Proof.
  intros Hc. split.
  - intros Hno.
    assert (select_day_entry (User.id user) d db = []) as Hs.
    { apply select_absent. intros e Hin [Hu Hd]. by apply (Hno e). }
    split; [by apply delete_entry_absent | by apply delete_day_entry_absent].
  - intros e Hin Hu Hd db'.
    pose proof (select_unique db e Hc Hin) as Hs. rewrite Hu, Hd in Hs.
    unfold db'. rewrite <- (delete_by_pk db e Hc Hin). split_and!.
    + by apply delete_entry_present.
    + by apply delete_day_entry_present.
    + simpl. rewrite list_elem_of_filter. by intros [Hne _].
    + rewrite (delete_by_pk db e Hc Hin). apply select_absent. simpl.
      intros x [Hne Hx]%list_elem_of_filter [Hxu Hxd]. apply Hne.
      assert (x ∈ select_day_entry (User.id user) d db) as Hxs
        by (by apply elem_of_select).
      rewrite Hs in Hxs. by apply list_elem_of_singleton in Hxs.
Qed.

Lemma delete_asymmetry_witness :
  Request.delete_entry Sample.alice Sample.may_1 Sample.db_bob
  = (Raise (HTTPException HTTP_404_NOT_FOUND), Sample.db_bob)
  ∧ Request.delete_entry Sample.bob Sample.may_1 Sample.db_bob
    = (Return tt, mkSession [Sample.alice; Sample.bob] []).
Proof.
  assert (constraints Sample.db_bob) as Hc by solve_constraints.
  split.
  - refine (proj1 (proj1 (delete_asymmetry Sample.may_1 Sample.alice
                            Sample.may_1 Sample.db_bob Hc) _)).
    intros e ->%list_elem_of_singleton. simpl. discriminate.
  - refine (proj1 (proj2 (delete_asymmetry Sample.may_1 Sample.bob
                            Sample.may_1 Sample.db_bob Hc)
                     Sample.entry_bob _ _ _)).
    + simpl. left.
    + reflexivity.
    + reflexivity.
Defined.

(** ** Deleting the account *)

(** C8. The account deletion returns normally and leaves a storage in which
    no entry has the user as owner; fetching any date for that user there
    raises 404. *)
Theorem delete_account_cascades (user : User.t) (db : Session) :
  ∃ db',
    Request.delete_account user db = (Return tt, db')
    ∧ (∀ e, e ∈ day_entries db' → DayEntry.user_id e ≠ User.id user)
    ∧ (∀ d, Request.get_entry user d db'
            = (Raise (HTTPException HTTP_404_NOT_FOUND), db')).
Proof.
  eexists. split; [run; reflexivity|].
  assert (∀ e, e ∈ filter (λ e, DayEntry.id e ∉ DayEntry.id <$>
                 filter (λ e, DayEntry.user_id e = User.id user) (day_entries db))
                 (day_entries db) → DayEntry.user_id e ≠ User.id user) as Hnone.
  { intros e [Hid Hin]%list_elem_of_filter Hu. apply Hid.
    apply list_elem_of_fmap_2. by rewrite list_elem_of_filter. }
  split; [exact Hnone|].
  intros d. apply get_entry_absent, select_absent. simpl.
  intros e Hin [Hu _]. by apply (Hnone e).
Qed.

(** ** Isolation between users *)

Lemma select_without_owner uid other d db :
  uid ≠ other →
  select_day_entry uid d (without_owner other db) = select_day_entry uid d db.
Proof.
  intros Hne. unfold select_day_entry, without_owner. simpl.
  apply list_filter_filter_l. intros e [Hu _]. by rewrite Hu.
Qed.

Lemma list_entries_run user sd ed mn mx db :
  Entries.query_ok mn mx = true →
  Request.list_entries user sd ed mn mx db
  = (let entries :=
       merge_sort Entries.date_desc
         (filter (λ e, Entries.list_where (User.id user) sd ed mn mx e)
                 (day_entries db)) in
     Return (Entries.mkList entries (Z.of_nat (length entries))), db).
Proof. intros Hq. run. unfold Entries.validate_query. by rewrite Hq. Qed.

Lemma list_entries_refused user sd ed mn mx db :
  Entries.query_ok mn mx = false →
  Request.list_entries user sd ed mn mx db
  = (Raise (HTTPException HTTP_422_UNPROCESSABLE_ENTITY), db).
Proof. intros Hq. run. unfold Entries.validate_query. by rewrite Hq. Qed.

Lemma list_where_owner uid sd ed mn mx e :
  Entries.list_where uid sd ed mn mx e → DayEntry.user_id e = uid.
Proof.
  unfold Entries.list_where. rewrite !andb_True.
  intros [[[[Hu _] _] _] _]. by apply bool_decide_unpack in Hu.
Qed.

(** C5. Let A and B be two users and let B, but not A, own an entry for the
    date. Then A's get, update and strict delete for the date raise 404 and
    leave the storage as it was, and every row of A's list has A as owner, so
    B's entry is not in it; a list whose score bounds are not within 0 to 10
    is refused with 422 whatever the storage holds. What A is answered by
    get and by list is what A would be answered if B had no entries at
    all. *)
Theorem cross_user_isolation (now : datetime) (A B : User.t) (d : date)
    (entry_B : DayEntry.t) (entry_data : DayEntryUpdate.t)
    (start_date end_date : option date) (min_score max_score : option Z)
    (db : Session) :
  User.id A ≠ User.id B →
  entry_B ∈ day_entries db →
  DayEntry.user_id entry_B = User.id B →
  DayEntry.date entry_B = d →
  (∀ e, e ∈ day_entries db → DayEntry.user_id e = User.id A →
        DayEntry.date e ≠ d) →
  Request.get_entry A d db = (Raise (HTTPException HTTP_404_NOT_FOUND), db)
  ∧ get_db (Entries.update_entry now d entry_data A) db
    = (Raise (HTTPException HTTP_404_NOT_FOUND), db)
  ∧ Request.delete_entry A d db
    = (Raise (HTTPException HTTP_404_NOT_FOUND), db)
  ∧ (Entries.query_ok min_score max_score = true →
     ∃ resp,
       Request.list_entries A start_date end_date min_score max_score db
       = (Return resp, db)
       ∧ (∀ e, e ∈ Entries.entries resp → DayEntry.user_id e = User.id A)
       ∧ (entry_B ∉ Entries.entries resp)
       ∧ (Request.list_entries A start_date end_date min_score max_score
            (without_owner (User.id B) db)).1 = Return resp)
  ∧ (Entries.query_ok min_score max_score = false →
     ∀ db0,
       Request.list_entries A start_date end_date min_score max_score db0
       = (Raise (HTTPException HTTP_422_UNPROCESSABLE_ENTITY), db0))
  ∧ (Request.get_entry A d (without_owner (User.id B) db)).1
    = (Request.get_entry A d db).1.
Proof.
  intros Hne HinB HuB HdB Hno.
  assert (select_day_entry (User.id A) d db = []) as Hs.
  { apply select_absent. intros e Hin [Hu Hd]. by apply (Hno e). }
  assert (∀ e, e ∈ merge_sort Entries.date_desc
                 (filter (λ e, Entries.list_where (User.id A)
                            start_date end_date min_score max_score e)
                         (day_entries db)) → DayEntry.user_id e = User.id A)
    as Hown.
  { intros e He. rewrite merge_sort_Permutation in He.
    apply list_elem_of_filter in He as [He _].
    by apply list_where_owner in He. }
  split_and!.
  - by apply get_entry_absent.
  - by apply update_entry_absent.
  - by apply delete_entry_absent.
  - assert (filter (λ e, Entries.list_where (User.id A)
                            start_date end_date min_score max_score e)
              (day_entries (without_owner (User.id B) db))
            = filter (λ e, Entries.list_where (User.id A)
                             start_date end_date min_score max_score e)
                (day_entries db)) as Hfil.
    { apply list_filter_filter_l. intros e He%list_where_owner. congruence. }
    intros Hq. eexists. rewrite !list_entries_run by done. simpl in *.
    rewrite Hfil. split_and!; [done|exact Hown| |done].
    intros He. apply Hown in He. congruence.
  - intros Hq db0. by apply list_entries_refused.
  - rewrite !get_entry_absent; [done|done|].
    by rewrite select_without_owner.
Qed.

Lemma cross_user_isolation_witness :
  Request.get_entry Sample.alice Sample.may_1 Sample.db_both
  = (Raise (HTTPException HTTP_404_NOT_FOUND), Sample.db_both).
Proof.
  refine (proj1 (cross_user_isolation 40 Sample.alice Sample.bob Sample.may_1
                   Sample.entry_bob (DayEntryUpdate.mk (Some 9) None)
                   None None None None Sample.db_both _ _ _ _ _)).
  - simpl. discriminate.
  - simpl. left.
  - reflexivity.
  - reflexivity.
  - intros e He Hu. simpl in He.
    apply elem_of_cons in He as [->|He]; [simpl in Hu; discriminate|].
    apply list_elem_of_singleton in He as ->. simpl. discriminate.
Defined.

(** ** Access resolution *)

Section Access.
Variable jwt_decode : string → Auth.decoded.
Implicit Types (db : Session) (tok sub : string).

Lemma select_user_absent uid db :
  (∀ u, u ∈ users db → User.id u ≠ uid) → select_user_by_id uid db = [].
Proof.
  intros Hno. unfold select_user_by_id.
  destruct (filter _ (users db)) as [|u r] eqn:E; [done|].
  assert (u ∈ filter (λ u, User.id u = uid) (users db)) as Hu
    by (rewrite E; left).
  apply list_elem_of_filter in Hu as [Hid Hin]. by destruct (Hno u Hin).
Qed.

(** The lookup by identifier, by what the driver and the query do. *)
Lemma get_user_by_id_run uid db :
  Auth.get_user_by_id uid db
  = if sqlite_integer uid
    then match select_user_by_id uid db with
         | [] => Return (None, db)
         | [u] => Return (Some u, db)
         | _ => Raise MultipleResultsFound
         end
    else Raise OverflowError.
Proof.
  run. destruct (sqlite_integer uid); [|done].
  by destruct (select_user_by_id uid db) as [|a [|b r]].
Qed.

Lemma get_user_by_id_elem uid db u db' :
  Auth.get_user_by_id uid db = Return (Some u, db') →
  u ∈ users db ∧ User.id u = uid.
Proof.
  rewrite get_user_by_id_run. destruct (sqlite_integer uid); [|done].
  unfold select_user_by_id.
  destruct (filter _ (users db)) as [|a [|b r]] eqn:E; simpl; try done.
  intros [= <- <-].
  assert (a ∈ filter (λ u, User.id u = uid) (users db)) as Ha
    by (rewrite E; left).
  apply list_elem_of_filter in Ha as [Hid Hin]. done.
Qed.

(** Resolution of a token that decodes to a subject which [int] reads as
    [uid]: what the lookup gives decides. *)
Lemma get_current_user_run tok sub uid db :
  tok ≠ "" →
  jwt_decode tok = Auth.Payload (Some sub) →
  Auth.py_int sub = Return uid →
  get_db (Auth.get_current_user jwt_decode (Some tok)) db
  = if sqlite_integer uid
    then match select_user_by_id uid db with
         | [] => (Raise (HTTPException HTTP_401_UNAUTHORIZED), db)
         | [u] => (Return u, db)
         | _ => (Raise MultipleResultsFound, db)
         end
    else (Raise OverflowError, db).
Proof.
  intros Htok Hdec Hint. unfold Auth.get_current_user, get_db.
  rewrite bool_decide_eq_false_2 by done. rewrite Hdec.
  unfold mbind, M_bind, lift. rewrite Hint, get_user_by_id_run.
  destruct (sqlite_integer uid); [|done].
  by destruct (select_user_by_id uid db) as [|a [|b r]].
Qed.

Lemma get_current_user_optional_run tok sub uid db :
  tok ≠ "" →
  jwt_decode tok = Auth.Payload (Some sub) →
  Auth.py_int sub = Return uid →
  get_db (Auth.get_current_user_optional jwt_decode (Some tok)) db
  = if sqlite_integer uid
    then match select_user_by_id uid db with
         | [] => (Return None, db)
         | [u] => (Return (Some u), db)
         | _ => (Raise MultipleResultsFound, db)
         end
    else (Raise OverflowError, db).
Proof.
  intros Htok Hdec Hint. unfold Auth.get_current_user_optional, get_db.
  rewrite bool_decide_eq_false_2 by done. rewrite Hdec.
  unfold mbind, M_bind, lift. rewrite Hint, get_user_by_id_run.
  destruct (sqlite_integer uid); [|done].
  by destruct (select_user_by_id uid db) as [|a [|b r]].
Qed.

(** Strict resolution only ever returns a row of the credential store. *)
Lemma get_current_user_elem token db u db' :
  Auth.get_current_user jwt_decode token db = Return (u, db') →
  u ∈ users db.
Proof.
  unfold Auth.get_current_user. destruct token as [tok|]; [|done].
  case_bool_decide; [done|].
  destruct (jwt_decode tok) as [|[sub|]]; try done.
  unfold mbind, M_bind, lift. destruct (Auth.py_int sub) as [uid|]; [|done].
  destruct (Auth.get_user_by_id uid db) as [[[v|] db1]|] eqn:E; try done.
  apply get_user_by_id_elem in E as [Hin _].
  unfold mret, M_ret. by intros [= <- <-].
Qed.

Lemma get_current_user_optional_elem token db u db' :
  Auth.get_current_user_optional jwt_decode token db = Return (Some u, db') →
  u ∈ users db.
Proof.
  unfold Auth.get_current_user_optional. destruct token as [tok|]; [|done].
  case_bool_decide; [done|].
  destruct (jwt_decode tok) as [|[sub|]]; try done.
  unfold mbind, M_bind, lift. destruct (Auth.py_int sub) as [uid|]; [|done].
  intros E. by apply get_user_by_id_elem in E as [Hin _].
Qed.

End Access.

(** C10, with the input on which the code departs from it. Let the token
    decode (signature and expiry accepted) to a payload whose subject [int]
    reads as the integer [uid], and let no user have that identifier. When
    [uid] is an integer that the storage holds, strict resolution raises 401,
    the very failure it raises for a missing token and for a token that does
    not decode, and optional resolution returns no user. When it is not
    (2^63, say), the lookup raises [OverflowError], which neither mode
    catches: the request ends with that exception and not with 401 or with
    no user. Whatever the token, a user that resolution returns is a row of
    the credential store. *)
Theorem unknown_user_resolution (jwt_decode : string → Auth.decoded)
    (tok sub : string) (uid : Z) (db : Session) :
  tok ≠ "" →
  jwt_decode tok = Auth.Payload (Some sub) →
  Auth.py_int sub = Return uid →
  (∀ u, u ∈ users db → User.id u ≠ uid) →
  (sqlite_integer uid = true →
   get_db (Auth.get_current_user jwt_decode (Some tok)) db
   = (Raise (HTTPException HTTP_401_UNAUTHORIZED), db)
   ∧ get_db (Auth.get_current_user_optional jwt_decode (Some tok)) db
     = (Return None, db))
  ∧ (sqlite_integer uid = false →
     get_db (Auth.get_current_user jwt_decode (Some tok)) db
     = (Raise OverflowError, db)
     ∧ get_db (Auth.get_current_user_optional jwt_decode (Some tok)) db
       = (Raise OverflowError, db))
  ∧ OverflowError ≠ HTTPException HTTP_401_UNAUTHORIZED
  ∧ get_db (Auth.get_current_user jwt_decode None) db
    = (Raise (HTTPException HTTP_401_UNAUTHORIZED), db)
  ∧ (∀ bad, jwt_decode bad = Auth.JWTError →
       get_db (Auth.get_current_user jwt_decode (Some bad)) db
       = (Raise (HTTPException HTTP_401_UNAUTHORIZED), db))
  ∧ (∀ token u db',
       Auth.get_current_user jwt_decode token db = Return (u, db')
       ∨ Auth.get_current_user_optional jwt_decode token db
         = Return (Some u, db') →
       u ∈ users db).
Proof.
  intros Htok Hdec Hint Hno.
  pose proof (select_user_absent uid db Hno) as Hsel.
  pose proof (get_current_user_run jwt_decode tok sub uid db Htok Hdec Hint)
    as Hstrict.
  pose proof (get_current_user_optional_run jwt_decode tok sub uid db
                Htok Hdec Hint) as Hopt.
  rewrite Hsel in Hstrict, Hopt.
  split_and!.
  - intros Hfit. by rewrite Hfit in Hstrict, Hopt.
  - intros Hfit. by rewrite Hfit in Hstrict, Hopt.
  - done.
  - done.
  - intros bad Hbad. unfold Auth.get_current_user.
    case_bool_decide; [done|]. by rewrite Hbad.
  - intros token u db' [H|H].
    + by eapply get_current_user_elem.
    + by eapply get_current_user_optional_elem.
Qed.

Lemma unknown_user_resolution_witness :
  get_db (Auth.get_current_user
            (λ _, Auth.Payload (Some "9223372036854775808")) (Some "t"))
    Sample.db_bob
  = (Raise OverflowError, Sample.db_bob)
  ∧ get_db (Auth.get_current_user_optional
              (λ _, Auth.Payload (Some "9223372036854775808")) (Some "t"))
      Sample.db_bob
    = (Raise OverflowError, Sample.db_bob)
  ∧ get_db (Auth.get_current_user (λ _, Auth.Payload (Some "7")) (Some "t"))
      Sample.db_bob
    = (Raise (HTTPException HTTP_401_UNAUTHORIZED), Sample.db_bob).
Proof.
  assert (∀ uid, uid ≠ 1 → uid ≠ 2 →
            ∀ u, u ∈ users Sample.db_bob → User.id u ≠ uid) as Hnone.
  { intros uid H1 H2 u Hu. simpl in Hu.
    apply elem_of_cons in Hu as [->|Hu]; [done|].
    by apply list_elem_of_singleton in Hu as ->. }
  split_and!.
  - refine (proj1 (proj1 (proj2 (unknown_user_resolution
                                   (λ _, Auth.Payload
                                           (Some "9223372036854775808"))
                                   "t" "9223372036854775808"
                                   9223372036854775808 Sample.db_bob
                                   _ _ _ _)) _)).
    + discriminate.
    + reflexivity.
    + reflexivity.
    + apply Hnone; lia.
    + reflexivity.
  - refine (proj2 (proj1 (proj2 (unknown_user_resolution
                                   (λ _, Auth.Payload
                                           (Some "9223372036854775808"))
                                   "t" "9223372036854775808"
                                   9223372036854775808 Sample.db_bob
                                   _ _ _ _)) _)).
    + discriminate.
    + reflexivity.
    + reflexivity.
    + apply Hnone; lia.
    + reflexivity.
  - refine (proj1 (proj1 (unknown_user_resolution
                            (λ _, Auth.Payload (Some "7")) "t" "7" 7
                            Sample.db_bob _ _ _ _) _)).
    + discriminate.
    + reflexivity.
    + reflexivity.
    + apply Hnone; lia.
    + reflexivity.
Defined.

(** C6, at the input on which the code departs from it. Let the token decode
    to a payload whose subject is the string "abc". The conversion [int(...)]
    raises [ValueError]; the handlers catch [JWTError] only, so in strict and
    in optional mode alike the request ends with that uncaught exception and
    not with 401 or with no user. *)
Theorem non_numeric_subject_uncaught (jwt_decode : string → Auth.decoded)
    (tok : string) (db : Session) :
  tok ≠ "" →
  jwt_decode tok = Auth.Payload (Some "abc") →
  get_db (Auth.get_current_user jwt_decode (Some tok)) db
  = (Raise ValueError, db)
  ∧ get_db (Auth.get_current_user_optional jwt_decode (Some tok)) db
    = (Raise ValueError, db)
  ∧ ValueError ≠ HTTPException HTTP_401_UNAUTHORIZED.
Proof.
  intros Htok Hdec.
  unfold Auth.get_current_user, Auth.get_current_user_optional.
  rewrite bool_decide_eq_false_2 by done. rewrite Hdec. done.
Qed.

Lemma non_numeric_subject_uncaught_witness :
  get_db (Auth.get_current_user (λ _, Auth.Payload (Some "abc")) (Some "t"))
    empty_db
  = (Raise ValueError, empty_db).
Proof.
  refine (proj1 (non_numeric_subject_uncaught
                   (λ _, Auth.Payload (Some "abc")) "t" empty_db _ _)).
  - discriminate.
  - reflexivity.
Defined.

(** ** What every reachable storage satisfies *)

Section Invariant.
Implicit Types (db : Session) (e : DayEntry.t).

Lemma entry_bounds_spec e :
  entry_bounds e
  ↔ 0 ≤ DayEntry.score e ≤ 10
    ∧ Str.len (DayEntry.summary e) ≤ 200
    ∧ Str.trimmed (DayEntry.summary e).
Proof.
  unfold entry_bounds, score_in_range, summary_bounded.
  rewrite !andb_True, !Is_true_true, !Z.leb_le. tauto.
Qed.

Lemma entry_invariant_spec e :
  entry_invariant e
  ↔ 0 ≤ DayEntry.score e ≤ 10
    ∧ 1 ≤ Str.len (DayEntry.summary e) ≤ 200
    ∧ Str.trimmed (DayEntry.summary e).
Proof.
  unfold entry_invariant, score_in_range, summary_nonempty, summary_bounded.
  rewrite !andb_True, !Is_true_true, !Z.leb_le. tauto.
Qed.

Lemma healthy_same_entries db db' :
  day_entries db' = day_entries db → healthy db → healthy db'.
Proof.
  intros E [[Hpk Huq] Hb]. split; [split|]; by rewrite E.
Qed.

Lemma select_singleton_elem uid d db e :
  select_day_entry uid d db = [e] →
  e ∈ day_entries db ∧ DayEntry.user_id e = uid ∧ DayEntry.date e = d.
Proof.
  intros Hs. assert (e ∈ select_day_entry uid d db) as He by (rewrite Hs; left).
  apply elem_of_select in He. tauto.
Qed.

Lemma add_day_entry_healthy (P : DayEntry.t → Prop) now now' uid d score summary db e db' :
  constraints db ∧ Forall P (day_entries db) →
  (∀ i, P (DayEntry.mk i uid d score summary now now')) →
  add_day_entry now now' uid d score summary db = Return (e, db') →
  constraints db' ∧ Forall P (day_entries db').
Proof.
  intros [Hc Hb] Hnew Hadd. split; [by eapply add_day_entry_constraints|].
  unfold add_day_entry in Hadd. case_bool_decide; [|done].
  injection Hadd as <- <-. simpl. apply Forall_app. split; [done|].
  by apply Forall_singleton.
Qed.

Lemma flush_day_entry_healthy (P : DayEntry.t → Prop) now old new db e db' :
  constraints db ∧ Forall P (day_entries db) →
  old ∈ day_entries db →
  DayEntry.id new = DayEntry.id old → user_date new = user_date old →
  P (DayEntry.with_updated_at now new) →
  flush_day_entry now old new db = Return (e, db') →
  constraints db' ∧ Forall P (day_entries db').
Proof.
  intros [Hc Hb] Hin Hid Hkey Hnew Hfl.
  split; [by eapply flush_day_entry_constraints|].
  unfold flush_day_entry in Hfl. injection Hfl as <- <-. simpl.
  apply Forall_fmap. eapply Forall_impl; [exact Hb|].
  intros x Hx. simpl. case_bool_decide; [|done].
  case_bool_decide; [|done].
  rewrite Forall_forall in Hb. by apply Hb.
Qed.

Lemma filter_healthy (P : DayEntry.t → Prop) (Q : DayEntry.t → Prop)
    `{∀ e, Decision (Q e)} db us :
  constraints db ∧ Forall P (day_entries db) →
  constraints (mkSession us (filter Q (day_entries db)))
  ∧ Forall P (day_entries (mkSession us (filter Q (day_entries db)))).
Proof.
  intros [Hc Hb]. split; [by apply filter_constraints|]. simpl.
  rewrite Forall_forall in Hb. apply Forall_forall.
  intros x [_ Hx]%list_elem_of_filter. by apply Hb.
Qed.

End Invariant.

#[local] Arguments flush_day_entry : simpl never.
#[local] Arguments add_day_entry : simpl never.

Section Writes.
Implicit Types (db : Session) (e : DayEntry.t) (P : DayEntry.t → Prop).

Abbreviation good P db := (constraints db ∧ Forall P (day_entries db)).

(** Upsert, for any property that holds of a row once its score and
    summary are the validated ones. *)
Lemma save_day_entry_keeps P today now now' user d score summary db :
  (∀ e, 0 ≤ score ≤ 10 → Str.len (Str.strip summary) ≠ 0 →
        Str.len summary ≤ 200 →
        DayEntry.score e = score → DayEntry.summary e = Str.strip summary →
        P e) →
  good P db →
  good P (Request.save_day_entry today now now' user d score summary db).2.
Proof.
  intros HP Hg. unfold Request.save_day_entry, Pages.save_day_entry.
  destruct ((score <? 0) || (10 <? score)) eqn:Hsc; [done|].
  destruct ((Str.len (Str.strip summary) =? 0) || (200 <? Str.len summary))
    eqn:Hsu; [done|].
  apply orb_false_iff in Hsc as [?%Z.ltb_ge ?%Z.ltb_ge].
  apply orb_false_iff in Hsu as [?%Z.eqb_neq ?%Z.ltb_ge].
  run. destruct (select_day_entry (User.id user) d db) as [|e [|e' r]] eqn:Hs;
    cbn; [| |done].
  - destruct (add_day_entry _ _ _ _ _ _ db) as [[e1 db1]|] eqn:Ha; [|done].
    cbn. eapply add_day_entry_healthy; [exact Hg| |exact Ha].
    intros i. by apply HP.
  - apply select_singleton_elem in Hs as (Hin & _ & _).
    destruct (flush_day_entry _ _ _ db) as [[e1 db1]|] eqn:Hf; [|done].
    cbn. eapply (flush_day_entry_healthy P); [exact Hg|exact Hin| | | |exact Hf];
      [done|done|]. by apply HP.
Qed.

Lemma create_entry_keeps P now now' user d score summary db :
  (∀ e, 0 ≤ score ≤ 10 → 1 ≤ Str.len summary ≤ 200 →
        DayEntry.score e = score → DayEntry.summary e = Str.strip summary →
        P e) →
  good P db →
  good P (Request.create_entry now now' user d score summary db).2.
Proof.
  intros HP Hg. unfold Request.create_entry, DayEntryCreate.validate.
  destruct (_ && _) eqn:Hv; [|done].
  apply andb_true_iff in Hv as [[[?%Z.leb_le ?%Z.leb_le]%andb_true_iff
                                   ?%Z.leb_le]%andb_true_iff ?%Z.leb_le].
  run. cbn.
  destruct (select_day_entry (User.id user) d db) as [|e [|e' r]] eqn:Hs;
    cbn; [|done|done].
  destruct (add_day_entry _ _ _ _ _ _ db) as [[e1 db1]|] eqn:Ha; [|done].
  cbn. eapply add_day_entry_healthy; [exact Hg| |exact Ha].
  intros i. by apply HP.
Qed.

Lemma update_entry_keeps P now user d score summary db :
  (∀ old e,
     P old →
     (DayEntry.score e = DayEntry.score old
      ∨ ∃ v, score = Some v ∧ 0 ≤ v ≤ 10 ∧ DayEntry.score e = v) →
     (DayEntry.summary e = DayEntry.summary old
      ∨ ∃ v, summary = Some v ∧ 1 ≤ Str.len v ≤ 200
             ∧ DayEntry.summary e = Str.strip v) →
     P e) →
  good P db →
  good P (Request.update_entry now user d score summary db).2.
Proof.
  intros HP Hg. unfold Request.update_entry, DayEntryUpdate.validate.
  destruct (_ && _) eqn:Hv; [|done].
  apply andb_true_iff in Hv as [Hsc Hsu].
  run. cbn.
  destruct (select_day_entry (User.id user) d db) as [|e [|e' r]] eqn:Hs;
    cbn; [done| |done].
  apply select_singleton_elem in Hs as (Hin & _ & _).
  destruct (flush_day_entry _ _ _ db) as [[e1 db1]|] eqn:Hf; [|done].
  cbn. eapply (flush_day_entry_healthy P); [exact Hg|exact Hin| | | |exact Hf].
  - destruct score, summary; simpl; try case_bool_decide; done.
  - destruct score, summary; simpl; try case_bool_decide; done.
  - destruct Hg as [_ Hb]. rewrite Forall_forall in Hb.
    apply (HP e); [by apply Hb| |].
    + destruct score as [v|]; simpl in *.
      * right. exists v.
        apply andb_true_iff in Hsc as [?%Z.leb_le ?%Z.leb_le].
        split_and!; [done|lia|lia|].
        destruct summary; simpl; try case_bool_decide; done.
      * left. destruct summary; simpl; try case_bool_decide; done.
    + destruct summary as [v|]; simpl in *; [|left; by destruct score].
      right. exists v.
      apply andb_true_iff in Hsu as [?%Z.leb_le ?%Z.leb_le].
      split_and!; [done|lia|lia|].
      case_bool_decide as Hv; [|by destruct score].
      subst v. unfold Str.len in *. simpl in *. lia.
Qed.

Lemma delete_entry_keeps P user d db :
  good P db → good P (Request.delete_entry user d db).2.
Proof.
  intros Hg. run.
  destruct (select_day_entry (User.id user) d db) as [|e [|e' r]];
    cbn; [done| |done].
  by apply (filter_healthy P).
Qed.

Lemma delete_day_entry_keeps P today user d db :
  good P db → good P (Request.delete_day_entry today user d db).2.
Proof.
  intros Hg. run.
  destruct (select_day_entry (User.id user) d db) as [|e [|e' r]];
    cbn; [done| |done].
  by apply (filter_healthy P).
Qed.

Lemma delete_account_keeps P user db :
  good P db → good P (Request.delete_account user db).2.
Proof. intros Hg. run. cbn. by apply (filter_healthy P). Qed.

Lemma register_keeps P validate_email now hashed email password db :
  good P db →
  good P (Request.register validate_email now hashed email password db).2.
Proof.
  intros Hg. unfold Request.register.
  destruct (Accounts.validate validate_email email password)
    as [user_data|failure]; [|done].
  run. unfold add_user.
  destruct (select_user_by_email _ db) as [|u [|u' r]] eqn:Hs;
    cbn; [|done|done].
  rewrite Hs. cbn. destruct Hg as [[Hpk Huq] Hb]. done.
Qed.

End Writes.

Section Reachable.
Implicit Types (db : Session) (e : DayEntry.t).

Lemma bounds_of_validated e score summary :
  0 ≤ score ≤ 10 → Str.len summary ≤ 200 →
  DayEntry.score e = score → DayEntry.summary e = Str.strip summary →
  entry_bounds e.
Proof.
  intros Hsc Hlen Hs Hsum. apply entry_bounds_spec. rewrite Hs, Hsum.
  split_and!; [lia|lia| |].
  - pose proof (StrFacts.strip_len summary). lia.
  - by rewrite StrFacts.trimmed_strip.
Qed.

Lemma invariant_of_validated e score summary :
  0 ≤ score ≤ 10 → Str.len (Str.strip summary) ≠ 0 → Str.len summary ≤ 200 →
  DayEntry.score e = score → DayEntry.summary e = Str.strip summary →
  entry_invariant e.
Proof.
  intros Hsc Hne Hlen Hs Hsum. apply entry_invariant_spec. rewrite Hs, Hsum.
  pose proof (StrFacts.strip_len summary).
  pose proof (StrFacts.len_nonneg (Str.strip summary)).
  split_and!; [lia|lia|lia|lia|]. by rewrite StrFacts.trimmed_strip.
Qed.

Lemma step_healthy db db' : healthy db → step db db' → healthy db'.
Proof.
  intros Hh Hstep.
  destruct Hstep as [ve now hashed em pw|now now' u d sc su _
                    |now u d sc su _|u d _
                    |today now now' u d sc su _|today u d _|u _].
  - by apply register_keeps.
  - apply create_entry_keeps; [|done].
    intros e ? ? ? ?. eapply bounds_of_validated; eauto. lia.
  - apply update_entry_keeps; [|done].
    intros old e Hold Hsc Hsu. apply entry_bounds_spec in Hold.
    apply entry_bounds_spec.
    destruct Hsc as [->|(v & _ & Hv & ->)];
      destruct Hsu as [->|(w & _ & Hw & ->)]; split_and!; try tauto; try lia.
    + pose proof (StrFacts.strip_len w). lia.
    + by rewrite StrFacts.trimmed_strip.
    + pose proof (StrFacts.strip_len w). lia.
    + by rewrite StrFacts.trimmed_strip.
  - by apply delete_entry_keeps.
  - apply save_day_entry_keeps; [|done].
    intros e ? ? ? ? ?. eapply bounds_of_validated; eauto.
  - by apply delete_day_entry_keeps.
  - by apply delete_account_keeps.
Qed.

(** Every reachable storage satisfies the constraints of the schema, and
    every entry in it has a score from 0 to 10 and a summary of at most 200
    characters with no white space at either end. *)
Lemma reachable_healthy db : reachable db → healthy db.
Proof.
  unfold reachable. revert db. apply rtc_ind_r.
  - split; [split; simpl; apply NoDup_nil_2 | apply Forall_nil_2].
  - intros y z _ Hstep IH. by eapply step_healthy.
Qed.

(** The upsert keeps the whole invariant of the data model. *)
Lemma save_day_entry_keeps_invariant today now now' user d score summary db :
  constraints db ∧ Forall entry_invariant (day_entries db) →
  Forall entry_invariant
    (day_entries (Request.save_day_entry today now now' user d score summary db).2).
Proof.
  intros Hg. apply save_day_entry_keeps; [|done].
  intros e ? ? ? ? ?. by eapply invariant_of_validated.
Qed.

End Reachable.

(** ** The invariant of stored entries *)

(** C1, at the input on which the code departs from it. A strict create with
    score 5 and the one-blank summary " " passes the bounds of the schema
    (length 1) and is stripped afterwards, so the row that is stored has the
    empty summary and breaks the invariant; the storage it is stored in is
    reachable. The strict update stores the empty summary in the same way.
    The upsert refuses the same input with status 400 and writes nothing. *)
Theorem blank_summary_persisted :
  Request.register Sample.validate_email 0 "$2b$12$alice"
    "alice@example.org" "hunter22" empty_db
  = (Return Sample.alice, Sample.db_alice)
  ∧ Request.create_entry 10 11 Sample.alice Sample.may_1 5 " " Sample.db_alice
    = (Return Sample.entry_blank, Sample.db_blank)
  ∧ reachable Sample.db_blank
  ∧ entry_invariant Sample.entry_blank = false
  ∧ DayEntry.summary Sample.entry_blank = ""
  ∧ (∃ e db', Request.update_entry 50 Sample.alice Sample.may_2 None (Some " ")
                Sample.db_both = (Return e, db')
              ∧ e ∈ day_entries db' ∧ DayEntry.summary e = ""
              ∧ entry_invariant e = false)
  ∧ (∃ resp, Request.save_day_entry Sample.may_1 10 11 Sample.alice Sample.may_1
               5 " " Sample.db_alice = (Return resp, Sample.db_alice)
             ∧ resp = Pages.entry_form_html None Sample.may_1
                        "Summary must be 1-200 characters" false
                        HTTP_400_BAD_REQUEST).
Proof.
  split_and!; try reflexivity.
  - unfold reachable. eapply rtc_l; [|eapply rtc_l; [|apply rtc_refl]].
    + exact (step_register empty_db Sample.validate_email 0 "$2b$12$alice"
               "alice@example.org" "hunter22").
    + refine (step_create Sample.db_alice 10 11 Sample.alice Sample.may_1 5 " " _).
      simpl. left.
  - eexists _, _. split; [vm_compute; reflexivity|].
    split; [|split; reflexivity].
    simpl. right. left.
  - eexists. split; reflexivity.
Qed.

(** ** The flush of a loaded entry *)

Section Flush.
Implicit Types (db : Session) (old new : DayEntry.t).

Lemma fmap_fix {A} (f : A → A) (l : list A) :
  (∀ x, x ∈ l → f x = x) → f <$> l = l.
Proof.
  intros Hf. rewrite <- (list_fmap_id l) at 2. apply list_fmap_ext.
  intros i x Hx. apply Hf. by eapply list_elem_of_lookup_2.
Qed.

Lemma pk_determines db x y :
  constraints db → x ∈ day_entries db → y ∈ day_entries db →
  DayEntry.id x = DayEntry.id y → x = y.
Proof.
  intros [Hpk _] Hx Hy Hid.
  pose proof (filter_key_unique DayEntry.id _ _ Hpk Hy) as Hf.
  assert (x ∈ filter (λ z, DayEntry.id z = DayEntry.id y) (day_entries db))
    as Hxf by (by rewrite list_elem_of_filter).
  rewrite Hf in Hxf. by apply list_elem_of_singleton in Hxf.
Qed.

(** No attribute differs: nothing is written. *)
Lemma flush_day_entry_noop now old new db :
  constraints db → old ∈ day_entries db →
  DayEntry.score new = DayEntry.score old →
  DayEntry.summary new = DayEntry.summary old →
  flush_day_entry now old new db = Return (old, db).
Proof.
  intros Hc Hin Hs Hsum. unfold flush_day_entry.
  rewrite bool_decide_eq_true_2 by done. do 2 f_equal.
  destruct db as [us es]. simpl in *. f_equal. apply fmap_fix.
  intros x Hx. case_bool_decide; [|done].
  symmetry. by eapply (pk_determines (mkSession us es)).
Qed.

(** In any case the row the flush returns is the one a point query for the
    pair finds afterwards. *)
Lemma flush_day_entry_select now old new db :
  constraints db → old ∈ day_entries db →
  DayEntry.id new = DayEntry.id old → user_date new = user_date old →
  ∃ row db',
    flush_day_entry now old new db = Return (row, db')
    ∧ row = (if bool_decide (DayEntry.score new = DayEntry.score old
                             ∧ DayEntry.summary new = DayEntry.summary old)
             then old else DayEntry.with_updated_at now new)
    ∧ constraints db'
    ∧ users db' = users db
    ∧ select_day_entry (DayEntry.user_id old) (DayEntry.date old) db' = [row].
Proof.
  intros Hc Hin Hid Hkey.
  destruct (flush_day_entry now old new db) as [[row db']|] eqn:Hf; [|done].
  pose proof (flush_day_entry_constraints _ _ _ _ _ _ Hc Hin Hid Hkey Hf) as Hc'.
  exists row, db'. unfold flush_day_entry in Hf. injection Hf as Hrow Hdb.
  split_and!; [done|done|done|by rewrite <- Hdb|].
  assert (user_date row = user_date old) as Hrk.
  { rewrite <- Hrow. case_bool_decide; [done|].
    rewrite <- Hkey. by destruct new. }
  assert (row ∈ day_entries db') as Hrin.
  { rewrite <- Hdb. simpl. apply list_elem_of_fmap. exists old.
    split; [|done]. by rewrite bool_decide_eq_true_2, Hrow. }
  pose proof (select_unique db' row Hc' Hrin) as Hs.
  injection Hrk as Hu Hd. by rewrite Hu, Hd in Hs.
Qed.

End Flush.

(** ** Strict update *)

(** C4, as the code has it. A strict update of an existing entry returns
    normally; the score of the entry becomes the supplied score and is kept
    when none is supplied, and so for the summary; key, owner, date and
    creation time are kept. The last-updated time becomes the instant of the
    call when the score or the summary is thereby changed, and is kept when
    neither changes (nothing supplied, or the stored values supplied again).
    The entry returned is the one stored for the pair afterwards. *)
Theorem update_entry_partial (now : datetime) (user : User.t) (d : date)
    (entry_data : DayEntryUpdate.t) (old : DayEntry.t) (db : Session) :
  constraints db →
  old ∈ day_entries db →
  DayEntry.user_id old = User.id user →
  DayEntry.date old = d →
  ∃ new db',
    get_db (Entries.update_entry now d entry_data user) db = (Return new, db')
    ∧ DayEntry.score new
      = default (DayEntry.score old) (DayEntryUpdate.score entry_data)
    ∧ DayEntry.summary new
      = default (DayEntry.summary old) (DayEntryUpdate.summary entry_data)
    ∧ DayEntry.updated_at new
      = (if bool_decide (DayEntry.score new = DayEntry.score old
                         ∧ DayEntry.summary new = DayEntry.summary old)
         then DayEntry.updated_at old else now)
    ∧ DayEntry.id new = DayEntry.id old
    ∧ DayEntry.user_id new = DayEntry.user_id old
    ∧ DayEntry.date new = DayEntry.date old
    ∧ DayEntry.created_at new = DayEntry.created_at old
    ∧ select_day_entry (User.id user) d db' = [new].
Proof.
  intros Hc Hin Hu Hd.
  pose proof (select_unique db old Hc Hin) as Hs. rewrite Hu, Hd in Hs.
  set (new0 := match DayEntryUpdate.summary entry_data with
               | Some v => DayEntry.with_summary v
                   (match DayEntryUpdate.score entry_data with
                    | Some v => DayEntry.with_score v old
                    | None => old
                    end)
               | None => match DayEntryUpdate.score entry_data with
                         | Some v => DayEntry.with_score v old
                         | None => old
                         end
               end).
  assert (DayEntry.id new0 = DayEntry.id old) as Hid
    by (unfold new0; by destruct entry_data as [[?|] [?|]]).
  assert (user_date new0 = user_date old) as Hkey
    by (unfold new0; by destruct entry_data as [[?|] [?|]]).
  destruct (flush_day_entry_select now old new0 db Hc Hin Hid Hkey)
    as (row & db' & Hf & Hrow & Hc' & _ & Hsel).
  exists row, db'. split.
  { run. rewrite Hs. cbn. fold new0. by rewrite Hf. }
  rewrite Hu, Hd in Hsel.
  assert (DayEntry.score new0
          = default (DayEntry.score old) (DayEntryUpdate.score entry_data))
    as Hsc by (unfold new0; by destruct entry_data as [[?|] [?|]]).
  assert (DayEntry.summary new0
          = default (DayEntry.summary old) (DayEntryUpdate.summary entry_data))
    as Hsu by (unfold new0; by destruct entry_data as [[?|] [?|]]).
  assert (DayEntry.created_at new0 = DayEntry.created_at old) as Hcr
    by (unfold new0; by destruct entry_data as [[?|] [?|]]).
  injection Hkey as Hku Hkd.
  subst row. destruct (decide (DayEntry.score new0 = DayEntry.score old
                               ∧ DayEntry.summary new0 = DayEntry.summary old))
    as [[Hs1 Hs2]|Hdiff].
  - rewrite bool_decide_eq_true_2 in Hsel |- * by done.
    rewrite <- Hsc, <- Hsu, Hs1, Hs2.
    rewrite bool_decide_eq_true_2 by done. by split_and!.
  - rewrite (bool_decide_eq_false_2 _ Hdiff) in Hsel |- *. simpl.
    rewrite (bool_decide_eq_false_2 _ Hdiff). by split_and!.
Qed.

Lemma update_entry_partial_witness :
  ∃ new db',
    get_db (Entries.update_entry 50 Sample.may_1
              (DayEntryUpdate.mk (Some 9) None) Sample.bob) Sample.db_bob
    = (Return new, db')
    ∧ DayEntry.score new = 9
    ∧ DayEntry.summary new = "good day"
    ∧ DayEntry.updated_at new = 50.
Proof.
  destruct (update_entry_partial 50 Sample.bob Sample.may_1
              (DayEntryUpdate.mk (Some 9) None) Sample.entry_bob Sample.db_bob)
    as (new & db' & Hrun & Hsc & Hsu & Hup & _).
  - solve_constraints.
  - simpl. left.
  - reflexivity.
  - reflexivity.
  - exists new, db'. split_and!; [exact Hrun|exact Hsc|exact Hsu|].
    rewrite Hup, Hsc. reflexivity.
Defined.

(** C4 as worded fails: a strict update that supplies nothing succeeds and
    leaves the last-updated time of Bob's entry at 11 although it is made at
    instant 50. *)
Lemma update_without_change_keeps_updated_at :
  ¬ update_always_refreshes_updated_at.
Proof.
  intros Hclaim.
  destruct (Hclaim 50 Sample.bob Sample.may_1 (DayEntryUpdate.mk None None)
              Sample.db_bob Sample.db_bob Sample.entry_bob Sample.entry_bob)
    as (_ & _ & Hup).
  - solve_constraints.
  - reflexivity.
  - reflexivity.
  - simpl in Hup. discriminate.
Qed.

(** ** Upsert *)

Section Upsert.
Implicit Types (db : Session) (e : DayEntry.t).

(** With input that passes its checks the upsert returns normally and the
    pair then has exactly one row, carrying the score and the stripped
    summary. *)
Lemma save_day_entry_stores today now now' user d score summary db :
  constraints db →
  0 ≤ score ≤ 10 → Str.len (Str.strip summary) ≠ 0 → Str.len summary ≤ 200 →
  ∃ resp e db',
    Request.save_day_entry today now now' user d score summary db
    = (Return resp, db')
    ∧ constraints db'
    ∧ select_day_entry (User.id user) d db' = [e]
    ∧ DayEntry.score e = score
    ∧ DayEntry.summary e = Str.strip summary.
Proof.
  intros Hc Hsc Hne Hlen.
  unfold Request.save_day_entry, Pages.save_day_entry.
  replace ((score <? 0) || (10 <? score)) with false
    by (symmetry; apply orb_false_iff; split; apply Z.ltb_ge; lia).
  replace ((Str.len (Str.strip summary) =? 0) || (200 <? Str.len summary))
    with false
    by (symmetry; apply orb_false_iff; split;
        [by apply Z.eqb_neq | apply Z.ltb_ge; lia]).
  destruct (select_cases db (User.id user) d Hc)
    as [Hs|(old & Hs & Hin & Hu & Hd)].
  - destruct (add_day_entry now now' (User.id user) d score (Str.strip summary) db)
      as [[e db']|] eqn:Ha.
    + pose proof (add_day_entry_constraints _ _ _ _ _ _ _ _ _ Hc Ha) as Hc'.
      eexists _, e, db'. split; [run; rewrite Hs; cbn; by rewrite Ha|].
      unfold add_day_entry in Ha. rewrite Hs in Ha.
      rewrite bool_decide_eq_true_2 in Ha by done. injection Ha as He Hdb.
      assert (e ∈ day_entries db') as Hein.
      { rewrite <- Hdb, <- He. simpl. apply elem_of_app. right. left. }
      pose proof (select_unique db' e Hc' Hein) as Hsel.
      rewrite <- He in Hsel |- *. simpl in Hsel |- *. by split_and!.
    + unfold add_day_entry in Ha. rewrite Hs in Ha.
      by rewrite bool_decide_eq_true_2 in Ha.
  - set (new := DayEntry.with_summary (Str.strip summary)
                  (DayEntry.with_score score old)).
    destruct (flush_day_entry_select now old new db Hc Hin)
      as (row & db' & Hf & Hrow & Hc' & _ & Hsel); [done|done|].
    rewrite Hu, Hd in Hsel.
    eexists _, row, db'. split; [run; rewrite Hs; cbn; fold new; by rewrite Hf|].
    split_and!; [done|done| |].
    + rewrite Hrow. case_bool_decide as Hsame; [|done]. by destruct Hsame.
    + rewrite Hrow. case_bool_decide as Hsame; [|done]. by destruct Hsame.
Qed.

(** When the row of the pair already carries the score and the stripped
    summary, the upsert returns normally and writes nothing. *)
Lemma save_day_entry_noop today now now' user d score summary db e :
  constraints db →
  0 ≤ score ≤ 10 → Str.len (Str.strip summary) ≠ 0 → Str.len summary ≤ 200 →
  select_day_entry (User.id user) d db = [e] →
  DayEntry.score e = score → DayEntry.summary e = Str.strip summary →
  ∃ resp,
    Request.save_day_entry today now now' user d score summary db
    = (Return resp, db).
Proof.
  intros Hc Hsc Hne Hlen Hs Hes Hesum.
  unfold Request.save_day_entry, Pages.save_day_entry.
  replace ((score <? 0) || (10 <? score)) with false
    by (symmetry; apply orb_false_iff; split; apply Z.ltb_ge; lia).
  replace ((Str.len (Str.strip summary) =? 0) || (200 <? Str.len summary))
    with false
    by (symmetry; apply orb_false_iff; split;
        [by apply Z.eqb_neq | apply Z.ltb_ge; lia]).
  pose proof (select_singleton_elem _ _ _ _ Hs) as (Hin & _ & _).
  eexists. run. rewrite Hs. cbn.
  rewrite (flush_day_entry_noop now e _ db Hc Hin); [reflexivity|done|done].
Qed.

End Upsert.

(** C2, as the code has it. With a score and a summary that pass the checks,
    two upserts for the same user and date, whatever the clock reads during
    them, both return normally. After the first the pair has exactly one entry, with the
    given score and the stripped summary; the second writes nothing, so the
    storage, and with it the score, the summary and the last-updated time of
    that entry, is after the second call what it was after the first. *)
Theorem save_day_entry_twice (today1 today2 : date)
    (now1 now1' now2 now2' : datetime) (user : User.t) (d : date) (score : Z) (summary : string) (db : Session) :
  constraints db →
  0 ≤ score ≤ 10 →
  Str.len (Str.strip summary) ≠ 0 →
  Str.len summary ≤ 200 →
  ∃ resp1 resp2 e db1,
    Request.save_day_entry today1 now1 now1' user d score summary db
    = (Return resp1, db1)
    ∧ Request.save_day_entry today2 now2 now2' user d score summary db1
      = (Return resp2, db1)
    ∧ select_day_entry (User.id user) d db1 = [e]
    ∧ DayEntry.score e = score
    ∧ DayEntry.summary e = Str.strip summary.
Proof.
  intros Hc Hsc Hne Hlen.
  destruct (save_day_entry_stores today1 now1 now1' user d score summary db)
    as (resp1 & e & db1 & Hrun1 & Hc1 & Hsel & Hes & Hesum); try done.
  destruct (save_day_entry_noop today2 now2 now2' user d score summary db1 e)
    as [resp2 Hrun2]; try done.
  by exists resp1, resp2, e, db1.
Qed.

Lemma save_day_entry_twice_witness :
  ∃ resp1 resp2 e db1,
    Request.save_day_entry Sample.may_1 1 2 Sample.alice Sample.may_1 5 " ok "
      Sample.db_alice = (Return resp1, db1)
    ∧ Request.save_day_entry Sample.may_2 3 4 Sample.alice Sample.may_1 5 " ok "
        db1 = (Return resp2, db1)
    ∧ select_day_entry 1 Sample.may_1 db1 = [e]
    ∧ DayEntry.score e = 5
    ∧ DayEntry.summary e = "ok".
Proof.
  refine (save_day_entry_twice Sample.may_1 Sample.may_2 1 2 3 4 Sample.alice
            Sample.may_1 5 " ok " Sample.db_alice _ _ _ _).
  - solve_constraints.
  - lia.
  - vm_compute. discriminate.
  - vm_compute. discriminate.
Defined.

(** C2 as worded fails: Alice upserts score 5 and summary "ok" for the first
    of May, the clock reading 1 and 2 during the call, and again, the clock
    reading 3 and 4; the entry of the pair has last-updated time 2 after the
    first call and still 2 after the second. *)
Lemma second_upsert_keeps_updated_at : ¬ upsert_twice_increases_updated_at.
Proof.
  intros Hclaim.
  destruct (Hclaim Sample.may_1 1 2 3 4 Sample.alice Sample.may_1 5 "ok"
              Sample.db_alice
              (DayEntry.mk 1 1 Sample.may_1 5 "ok" 1 2)
              (DayEntry.mk 1 1 Sample.may_1 5 "ok" 1 2))
    as (_ & _ & Hup).
  - solve_constraints.
  - lia.
  - vm_compute. discriminate.
  - vm_compute. discriminate.
  - lia.
  - lia.
  - lia.
  - reflexivity.
  - reflexivity.
  - simpl in Hup. lia.
Qed.

(** ** The calendar grid *)

Section GridFacts.
Import Pages Grid.

Abbreviation full w := (length w = 7%nat).

Lemma calendar_loop_spec (mk : Z → day_data) (days : list Z) :
  ∀ (weeks : list week) (current_week : week),
    Forall (λ w, full w) weeks → (length current_week < 7)%nat →
    Forall (λ w, full w) (calendar_loop mk days weeks current_week).1
    ∧ (length (calendar_loop mk days weeks current_week).2 < 7)%nat
    ∧ concat (calendar_loop mk days weeks current_week).1
        ++ (calendar_loop mk days weeks current_week).2
      = concat weeks ++ current_week ++ ((λ d, Some (mk d)) <$> days).
Proof.
  induction days as [|day rest IH]; intros weeks cw Hfull Hlt; simpl.
  - by rewrite app_nil_r.
  - case_bool_decide as Hlen.
    + destruct (IH (weeks ++ [cw ++ [Some (mk day)]]) []) as (H1 & H2 & H3).
      * apply Forall_app. split; [done|]. by apply Forall_singleton.
      * simpl. lia.
      * split_and!; [done|done|]. rewrite H3, concat_app. simpl.
        by rewrite app_nil_r, <- !app_assoc.
    + destruct (IH weeks (cw ++ [Some (mk day)])) as (H1 & H2 & H3).
      * done.
      * rewrite length_app in *. simpl in *. lia.
      * split_and!; [done|done|]. rewrite H3. by rewrite <- !app_assoc.
Qed.

(** In a list of full weeks, slot [i] of the flattened grid is slot
    [i mod 7] of week [i / 7]. *)
Lemma lookup_concat_full (weeks : list week) (i : nat) :
  Forall (λ w, full w) weeks →
  concat weeks !! i = weeks !! (i / 7)%nat ≫= (.!! (i mod 7)%nat).
Proof.
  intros Hfull. revert i. induction Hfull as [|w ws Hw _ IH]; intros i.
  - by rewrite !lookup_nil.
  - rewrite concat_cons. destruct (decide (i < 7)%nat) as [Hi|Hi].
    + rewrite lookup_app_l by lia.
      rewrite Nat.div_small, Nat.mod_small by lia. done.
    + rewrite lookup_app_r by lia. rewrite Hw, IH.
      assert (i / 7 = S ((i - 7) / 7))%nat as ->.
      { replace i with ((i - 7) + 1 * 7)%nat at 1 by lia.
        rewrite Nat.div_add by lia. lia. }
      assert (i mod 7 = (i - 7) mod 7)%nat as ->.
      { replace i with ((i - 7) + 1 * 7)%nat at 1 by lia.
        by rewrite Nat.Div0.mod_add. }
      done.
Qed.

Lemma length_concat_full (weeks : list week) :
  Forall (λ w, full w) weeks → length (concat weeks) = (7 * length weeks)%nat.
Proof.
  induction 1 as [|w ws Hw _ IH]; [done|].
  rewrite concat_cons, length_app, IH, Hw. simpl. lia.
Qed.

Lemma days_in_month_bounds y m : 28 ≤ Calendar.days_in_month y m ≤ 31.
Proof.
  unfold Calendar.days_in_month, Calendar.mdays.
  destruct (_ && _); repeat case_bool_decide; lia.
Qed.

(** In the source the loop calls the validating constructor; on the days
    of the month it returns the date it is given. *)
Lemma new_date_in_month y m k :
  1 ≤ y ≤ 9999 → 1 ≤ m ≤ 12 → 1 ≤ k ≤ Calendar.days_in_month y m →
  CalendarLib.new_date y m k = Return (Date y m k).
Proof.
  intros Hy Hm Hk. pose proof (days_in_month_bounds y m).
  unfold CalendarLib.new_date, CalendarLib.c_int, Calendar.MINYEAR,
    Calendar.MAXYEAR.
  replace (_ && _ && _) with true
    by (symmetry; rewrite !andb_true_iff, !Z.leb_le, !Z.ltb_lt; lia).
  replace (_ && _) with true; [done|]. symmetry.
  rewrite !andb_true_iff, !Z.leb_le. lia.
Qed.

Lemma monthrange_in_range y m :
  1 ≤ y ≤ 9999 → 1 ≤ m ≤ 12 →
  CalendarLib.monthrange y m
  = Return (Calendar.weekday (Date y m 1), Calendar.days_in_month y m).
Proof.
  intros Hy Hm. unfold CalendarLib.monthrange, Calendar.MINYEAR, Calendar.MAXYEAR.
  replace ((1 <=? m) && (m <=? 12)) with true
    by (symmetry; rewrite andb_true_iff, !Z.leb_le; lia).
  replace ((1 <=? y) && (y <=? 9999)) with true
    by (symmetry; rewrite andb_true_iff, !Z.leb_le; lia).
  done.
Qed.

Lemma get_calendar_data_run today y m entries :
  1 ≤ y ≤ 9999 → 1 ≤ m ≤ 12 →
  get_calendar_data today y m entries
  = Return (finish
              (calendar_loop (make_day today y m entries)
                 (seqZ 1 (Calendar.days_in_month y m)) []
                 (replicate
                    (Z.to_nat ((Calendar.weekday (Date y m 1) + 1) mod 7))
                    None))).
Proof.
  intros Hy Hm. unfold get_calendar_data.
  rewrite new_date_in_month, monthrange_in_range by
    (try done; pose proof (days_in_month_bounds y m); lia).
  unfold mbind, result_bind, mret, result_ret, finish. simpl.
  by destruct (calendar_loop _ _ _ _) as [weeks [|slot cw]].
Qed.

Lemma finish_spec (acc : list week * week) :
  Forall (λ w, full w) acc.1 → (length acc.2 < 7)%nat →
  Forall (λ w, full w) (finish acc)
  ∧ ∃ pad, (pad < 7)%nat
           ∧ concat (finish acc) = concat acc.1 ++ acc.2 ++ replicate pad None.
Proof.
  destruct acc as [weeks cw]. simpl. intros Hfull Hlt. unfold finish. simpl.
  destruct cw as [|slot cw].
  - split; [done|]. exists 0%nat. split; [lia|]. by rewrite !app_nil_r.
  - split.
    + apply Forall_app. split; [done|]. apply Forall_singleton.
      rewrite length_app, length_replicate. lia.
    + exists (7 - length (slot :: cw))%nat. split; [simpl; lia|].
      rewrite concat_app. simpl. by rewrite app_nil_r.
Qed.

Lemma get_score_color_none : get_score_color None = "score-none".
Proof. done. Qed.

Lemma get_score_color_in_range s :
  0 ≤ s ≤ 10 →
  score_categories !! Z.to_nat (s + 1) = Some (get_score_color (Some s)).
Proof.
  intros Hs.
  assert (s = 0 ∨ s = 1 ∨ s = 2 ∨ s = 3 ∨ s = 4 ∨ s = 5 ∨ s = 6 ∨ s = 7
          ∨ s = 8 ∨ s = 9 ∨ s = 10) as Hcases by lia.
  repeat (destruct Hcases as [->|Hcases]; [reflexivity|]).
  by subst s.
Qed.

Lemma get_score_color_out_of_range s :
  ¬ 0 ≤ s ≤ 10 → get_score_color (Some s) = "score-none".
Proof.
  intros Hs. destruct s as [|p|p]; [lia| |done].
  do 4 (try destruct p as [p|p|]); try done; lia.
Qed.

Lemma get_score_color_category score :
  get_score_color score ∈ score_categories.
Proof.
  destruct score as [s|]; [|by left].
  destruct (decide (0 ≤ s ≤ 10)) as [Hs|Hs].
  - eapply list_elem_of_lookup_2. by apply get_score_color_in_range.
  - replace (get_score_color (Some s)) with "score-none"; [by left|].
    destruct s as [|p|p]; [lia| |done].
    do 4 (try destruct p as [p|p|]); try done; lia.
Qed.

End GridFacts.

Lemma weekday_sunday_first (y m k : Z) :
  ((Calendar.weekday (Date y m 1) + 1) mod 7 + k - 1) mod 7
  = (Calendar.weekday (Date y m k) + 1) mod 7.
Proof.
  unfold Calendar.weekday, Calendar.toordinal. simpl.
  generalize (Calendar.days_before_year y + Calendar.days_before_month y m).
  intros c. Z.div_mod_to_equations. lia.
Qed.

(** C9, as the code has it. Let the month be from 1 to 12. For a year
    outside 1 to 9999 the builder raises an exception, whatever the mapping
    and the current day: [ValueError], or [OverflowError] when the year does
    not fit a C integer. For a year from 1 to 9999, any mapping and any
    current day [today], the builder returns a list of weeks of exactly 7
    slots each. Read row after row the grid is: as many empty slots as the
    first of the month is days after Sunday, then the days 1 to the last of
    the month in order, then fewer than 7 empty slots. So day [k] stands in
    the column of its week day counted from Sunday, and every other slot is
    empty. The slot of a day carries its date, its number, its entry in the
    mapping, a category among the twelve that is the category of the score
    for an entry scored 0 to 10 and "score-none" without an entry or for an
    entry scored otherwise, and the two flags that compare the date with
    [today]. A 30-day month that starts on a Wednesday gives 5 rows, the
    first with 3 empty slots followed by day 1. *)
Theorem get_calendar_data_grid (today : date) (year month : Z)
    (entries : gmap date DayEntry.t) :
  1 ≤ month ≤ 12 →
  (¬ 1 ≤ year ≤ 9999 →
   Grid.get_calendar_data today year month entries
   = Raise (if CalendarLib.c_int year then ValueError else OverflowError))
  ∧ (1 ≤ year ≤ 9999 →
     let n := Calendar.days_in_month year month in
     let start := (Calendar.weekday (Date year month 1) + 1) mod 7 in
     let slot := Grid.make_day today year month entries in
     ∃ (weeks : list Grid.week) (pad : nat),
       Grid.get_calendar_data today year month entries = Return weeks
       ∧ Forall (λ w, length w = 7%nat) weeks
       ∧ (pad < 7)%nat
       ∧ concat weeks
         = replicate (Z.to_nat start) None
           ++ ((λ k, Some (slot k)) <$> seqZ 1 n)
           ++ replicate pad None
       ∧ (∀ k, 1 ≤ k ≤ n →
            let i := Z.to_nat (start + k - 1) in
            Z.of_nat (i mod 7)
            = (Calendar.weekday (Date year month k) + 1) mod 7
            ∧ ∃ w, weeks !! (i / 7)%nat = Some w
                   ∧ w !! (i mod 7)%nat = Some (Some (slot k)))
       ∧ (∀ k,
            Pages.dd_date (slot k) = Date year month k
            ∧ Pages.dd_day (slot k) = k
            ∧ Pages.dd_entry (slot k) = entries !! Date year month k
            ∧ Pages.dd_score_class (slot k) ∈ score_categories
            ∧ (entries !! Date year month k = None →
               Pages.dd_score_class (slot k) = "score-none")
            ∧ (∀ e, entries !! Date year month k = Some e →
                    0 ≤ DayEntry.score e ≤ 10 →
                    score_categories !! Z.to_nat (DayEntry.score e + 1)
                    = Some (Pages.dd_score_class (slot k)))
            ∧ (∀ e, entries !! Date year month k = Some e →
                    ¬ 0 ≤ DayEntry.score e ≤ 10 →
                    Pages.dd_score_class (slot k) = "score-none")
            ∧ Pages.dd_is_today (slot k)
              = bool_decide (Date year month k = today)
            ∧ Pages.dd_is_future (slot k)
              = Calendar.date_ltb today (Date year month k))
       ∧ (n = 30 → Calendar.weekday (Date year month 1) = 2 →
          length weeks = 5%nat
          ∧ ∃ w, weeks !! 0%nat = Some w
                 ∧ w !! 0%nat = Some None ∧ w !! 1%nat = Some None
                 ∧ w !! 2%nat = Some None
                 ∧ w !! 3%nat = Some (Some (slot 1)))).
Proof.
  intros Hm. split.
  { intros Hy. unfold Grid.get_calendar_data, CalendarLib.new_date,
      Calendar.MINYEAR, Calendar.MAXYEAR.
    replace (CalendarLib.c_int month) with true
      by (symmetry; unfold CalendarLib.c_int;
          rewrite andb_true_iff, Z.leb_le, Z.ltb_lt; lia).
    rewrite andb_true_r. change (CalendarLib.c_int 1) with true.
    rewrite andb_true_r. destruct (CalendarLib.c_int year); [|done].
    replace ((1 <=? year) && (year <=? 9999)) with false; [done|].
    symmetry. apply andb_false_iff. rewrite !Z.leb_gt. lia. }
  intros Hy n start slot.
  assert (0 ≤ start < 7) as Hstart by (unfold start; apply Z.mod_pos_bound; lia).
  pose proof (days_in_month_bounds year month) as Hn. fold n in Hn.
  pose proof (calendar_loop_spec slot (seqZ 1 n) []
                (replicate (Z.to_nat start) None)) as (Hfull & Hlt & Hcat).
  { done. }
  { rewrite length_replicate. lia. }
  destruct (finish_spec _ Hfull Hlt) as (Hfull' & pad & Hpad & Hcat').
  rewrite app_assoc, Hcat in Hcat'. cbn [concat app] in Hcat'.
  set (weeks := finish (Grid.calendar_loop slot (seqZ 1 n) []
                          (replicate (Z.to_nat start) None))) in *.
  assert (∀ i x, concat weeks !! i = Some x →
                 ∃ w, weeks !! (i / 7)%nat = Some w ∧ w !! (i mod 7)%nat = Some x)
    as Hrowcol.
  { intros i x Hi. rewrite lookup_concat_full in Hi by done.
    by apply bind_Some in Hi. }
  assert (∀ k, 1 ≤ k ≤ n →
               concat weeks !! Z.to_nat (start + k - 1) = Some (Some (slot k)))
    as Hday.
  { intros k Hk. rewrite Hcat', <- app_assoc.
    rewrite lookup_app_r by (rewrite length_replicate; lia).
    rewrite length_replicate.
    rewrite lookup_app_l by (rewrite length_fmap, length_seqZ; lia).
    rewrite list_lookup_fmap, lookup_seqZ_lt by lia. simpl.
    do 3 f_equal. lia. }
  exists weeks, pad. split_and!.
  - by apply get_calendar_data_run.
  - done.
  - done.
  - by rewrite Hcat', <- app_assoc.
  - intros k Hk i. split.
    + unfold i. rewrite Nat2Z.inj_mod, Z2Nat.id by lia.
      apply weekday_sunday_first.
    + apply Hrowcol, Hday, Hk.
  - intros k. unfold slot, Grid.make_day. simpl. split_and!; try done.
    + apply get_score_color_category.
    + by intros ->.
    + intros e -> He. simpl. by apply get_score_color_in_range.
    + intros e -> He. simpl. by apply get_score_color_out_of_range.
  - intros Hn30 Hwd.
    assert (start = 3) as Hs3 by (unfold start; by rewrite Hwd).
    pose proof (length_concat_full weeks Hfull') as Hlen.
    rewrite Hcat', <- app_assoc in Hlen.
    rewrite !length_app, !length_replicate, length_fmap, length_seqZ in Hlen.
    split; [lia|].
    assert (∀ i, (i < 3)%nat → concat weeks !! i = Some None) as Hlead.
    { intros i Hi. rewrite Hcat', <- app_assoc.
      rewrite lookup_app_l by (rewrite length_replicate; lia).
      apply lookup_replicate_2. lia. }
    destruct (Hrowcol 0%nat None (Hlead 0%nat ltac:(lia))) as (w & Hw & Hw0).
    destruct (Hrowcol 1%nat None (Hlead 1%nat ltac:(lia))) as (w1 & Hw1 & Hw1').
    destruct (Hrowcol 2%nat None (Hlead 2%nat ltac:(lia))) as (w2 & Hw2 & Hw2').
    pose proof (Hday 1 ltac:(lia)) as Hd1.
    replace (Z.to_nat (start + 1 - 1)) with 3%nat in Hd1 by lia.
    destruct (Hrowcol 3%nat _ Hd1) as (w3 & Hw3 & Hw3').
    change (1 / 7)%nat with 0%nat in Hw1. change (2 / 7)%nat with 0%nat in Hw2.
    change (3 / 7)%nat with 0%nat in Hw3. change (0 / 7)%nat with 0%nat in Hw.
    rewrite Hw in Hw1, Hw2, Hw3.
    injection Hw1 as <-. injection Hw2 as <-. injection Hw3 as <-.
    exists w. split_and!; done.
Qed.

(** April 2026 has 30 days and starts on a Wednesday; the years 10000 and
    2^31 are refused. *)
Lemma get_calendar_data_grid_witness :
  (∃ (weeks : list Grid.week),
     Grid.get_calendar_data (Date 2026 11 4) 2026 4 ∅ = Return weeks
     ∧ Forall (λ w, length w = 7%nat) weeks
     ∧ length weeks = 5%nat)
  ∧ Grid.get_calendar_data (Date 2026 11 4) 10000 4 ∅ = Raise ValueError
  ∧ Grid.get_calendar_data (Date 2026 11 4) 2147483648 4 ∅
    = Raise OverflowError.
Proof.
  split.
  - destruct (proj2 (get_calendar_data_grid (Date 2026 11 4) 2026 4 ∅
                       ltac:(lia)) ltac:(lia))
      as (weeks & pad & Hrun & Hfull & _ & _ & _ & _ & Hwed).
    exists weeks. split_and!; [exact Hrun|exact Hfull|].
    apply Hwed; reflexivity.
  - split.
    + apply (proj1 (get_calendar_data_grid (Date 2026 11 4) 10000 4 ∅
                      ltac:(lia))).
      lia.
    + apply (proj1 (get_calendar_data_grid (Date 2026 11 4) 2147483648 4 ∅
                      ltac:(lia))).
      lia.
Defined.

(** C9 as worded fails. The grid built for May 2024 from the empty mapping
    on the first of May differs from the one built on the second (the flags
    of the slots compare with the current day), so the three inputs do not
    fix the grid; for the year 0 the builder raises [ValueError] and returns
    no grid; and the first of May 2024 with an entry scored 11 shows the
    category "score-none" although it has an entry. *)
Lemma grid_depends_on_today_and_year :
  ¬ grid_fixed_by_three_inputs
  ∧ Grid.get_calendar_data Sample.may_1 2024 5 ∅
    ≠ Grid.get_calendar_data Sample.may_2 2024 5 ∅
  ∧ (∀ today, Grid.get_calendar_data today 0 1 ∅ = Raise ValueError)
  ∧ ¬ category_none_only_without_entry
  ∧ (∃ weeks w slot,
       Grid.get_calendar_data Sample.may_2 2024 5
         {[Sample.may_1 := Sample.scored 1 Sample.may_1 11]}
       = Return weeks
       ∧ weeks !! 0%nat = Some w
       ∧ w !! 3%nat = Some (Some slot)
       ∧ Pages.dd_entry slot = Some (Sample.scored 1 Sample.may_1 11)
       ∧ Pages.dd_score_class slot = "score-none").
Proof.
  assert (Grid.get_calendar_data Sample.may_1 2024 5 ∅
          ≠ Grid.get_calendar_data Sample.may_2 2024 5 ∅) as Hdiff.
  { vm_compute. discriminate. }
  split_and!; [|exact Hdiff|done| |].
  - intros Hclaim.
    destruct (Hclaim 2024 5 ∅ ltac:(lia)) as (weeks & _ & Hsame).
    apply Hdiff. by rewrite !Hsame.
  - intros Hclaim.
    specialize (Hclaim Sample.may_2 2024 5 1
                  {[Sample.may_1 := Sample.scored 1 Sample.may_1 11]}).
    unfold Grid.make_day in Hclaim. cbn [Pages.dd_score_class] in Hclaim.
    change (Date 2024 5 1) with Sample.may_1 in Hclaim.
    rewrite lookup_singleton_eq in Hclaim. by specialize (Hclaim eq_refl).
  - eexists _, _, _. split_and!; [vm_compute; reflexivity|..]; reflexivity.
Qed.

(** * Further properties of the handlers *)

(** ** Strict create, read back and undone *)

Lemma validate_create_accepts d score summary :
  0 ≤ score ≤ 10 → 1 ≤ Str.len summary ≤ 200 →
  DayEntryCreate.validate d score summary
  = Return (DayEntryCreate.mk d score (Str.strip summary)).
Proof.
  intros Hsc Hlen. unfold DayEntryCreate.validate.
  replace (_ && _) with true; [done|]. symmetry.
  rewrite !andb_true_iff, !Z.leb_le. lia.
Qed.

Lemma select_app_new uid d db e :
  select_day_entry uid d db = [] →
  DayEntry.user_id e = uid → DayEntry.date e = d →
  select_day_entry uid d (mkSession (users db) (day_entries db ++ [e])) = [e].
Proof.
  intros Hs Hu Hd. unfold select_day_entry in *. simpl.
  rewrite filter_app, Hs. simpl. by rewrite filter_cons_True, filter_nil.
Qed.

Lemma request_create_fresh now now' user d score summary db :
  select_day_entry (User.id user) d db = [] →
  0 ≤ score ≤ 10 → 1 ≤ Str.len summary ≤ 200 →
  Request.create_entry now now' user d score summary db
  = let e := DayEntry.mk (next_id (DayEntry.id <$> day_entries db))
               (User.id user) d score (Str.strip summary) now now' in
    (Return e, mkSession (users db) (day_entries db ++ [e])).
Proof.
  intros Hs Hsc Hlen. unfold Request.create_entry.
  rewrite validate_create_accepts by done.
  pose proof (create_entry_absent now now'
                (DayEntryCreate.mk d score (Str.strip summary)) user db Hs)
    as Hrun.
  simpl in Hrun. rewrite <- Hrun. unfold get_db, mbind, M_bind, lift. done.
Qed.

Lemma filter_drop_fresh (l : list DayEntry.t) (e : DayEntry.t) (i : Z) :
  DayEntry.id e = i → i ∉ DayEntry.id <$> l →
  filter (λ x, DayEntry.id x ≠ i) (l ++ [e]) = l.
Proof.
  intros <- Hfresh. rewrite filter_app, filter_cons_False, filter_nil, app_nil_r
    by (intros H; by apply H).
  induction l as [|a l IH]; [done|].
  rewrite fmap_cons, not_elem_of_cons in Hfresh. destruct Hfresh as [Hne Hl].
  rewrite filter_cons_True by done. f_equal. by apply IH.
Qed.

(** X1. A strict create with a valid body for a date on which the user has
    no entry returns the new entry: owner and date as asked, the score as
    given, the summary stripped, the creation time the first reading of the
    clock and the last-updated time the second. A get for that date then
    returns this very entry. *)
Theorem create_then_get (now now' : datetime) (user : User.t) (d : date)
    (score : Z) (summary : string) (db : Session) :
  (∀ e, e ∈ day_entries db → DayEntry.user_id e = User.id user →
        DayEntry.date e ≠ d) →
  0 ≤ score ≤ 10 →
  1 ≤ Str.len summary ≤ 200 →
  ∃ e db',
    Request.create_entry now now' user d score summary db = (Return e, db')
    ∧ DayEntry.user_id e = User.id user
    ∧ DayEntry.date e = d
    ∧ DayEntry.score e = score
    ∧ DayEntry.summary e = Str.strip summary
    ∧ DayEntry.created_at e = now
    ∧ DayEntry.updated_at e = now'
    ∧ Request.get_entry user d db' = (Return e, db').
Proof.
  intros Hno Hsc Hlen.
  assert (select_day_entry (User.id user) d db = []) as Hs.
  { apply select_absent. intros e Hin [Hu Hd]. by apply (Hno e). }
  eexists _, _. split; [by apply request_create_fresh|].
  split_and!; try reflexivity.
  apply get_entry_present. by apply select_app_new.
Qed.

Lemma create_then_get_witness :
  ∃ e db',
    Request.create_entry 60 61 Sample.alice Sample.may_1 8 " fine " Sample.db_bob
    = (Return e, db')
    ∧ DayEntry.summary e = "fine"
    ∧ DayEntry.created_at e = 60
    ∧ DayEntry.updated_at e = 61
    ∧ Request.get_entry Sample.alice Sample.may_1 db' = (Return e, db').
Proof.
  destruct (create_then_get 60 61 Sample.alice Sample.may_1 8 " fine "
              Sample.db_bob)
    as (e & db' & Hrun & _ & _ & _ & Hsum & Hcr & Hup & Hget).
  - intros e ->%list_elem_of_singleton. simpl. discriminate.
  - lia.
  - vm_compute. split; discriminate.
  - exists e, db'.
    split_and!; [exact Hrun|exact Hsum|exact Hcr|exact Hup|exact Hget].
Defined.

(** X2. A strict create for a free date followed by the strict delete of
    that date gives back the storage as it was before the create. *)
Theorem create_then_delete (now now' : datetime) (user : User.t) (d : date)
    (score : Z) (summary : string) (db : Session) :
  (∀ e, e ∈ day_entries db → DayEntry.user_id e = User.id user →
        DayEntry.date e ≠ d) →
  0 ≤ score ≤ 10 →
  1 ≤ Str.len summary ≤ 200 →
  Request.delete_entry user d
    (Request.create_entry now now' user d score summary db).2
  = (Return tt, db).
Proof.
  intros Hno Hsc Hlen.
  assert (select_day_entry (User.id user) d db = []) as Hs.
  { apply select_absent. intros e Hin [Hu Hd]. by apply (Hno e). }
  rewrite request_create_fresh by done. cbn [snd].
  erewrite delete_entry_present by (by apply select_app_new).
  destruct db as [us es]. simpl. do 2 f_equal.
  apply filter_drop_fresh; [done|apply next_id_fresh].
Qed.

Lemma create_then_delete_witness :
  Request.delete_entry Sample.alice Sample.may_1
    (Request.create_entry 60 61 Sample.alice Sample.may_1 8 " fine "
       Sample.db_bob).2
  = (Return tt, Sample.db_bob).
Proof.
  apply (create_then_delete 60 61 Sample.alice Sample.may_1 8 " fine "
           Sample.db_bob).
  - intros e ->%list_elem_of_singleton. simpl. discriminate.
  - lia.
  - vm_compute. split; discriminate.
Defined.

(** ** The listing *)

Lemma date_ltb_lex a b :
  Calendar.date_ltb a b
  ↔ year a < year b
    ∨ (year a = year b
       ∧ (month a < month b ∨ (month a = month b ∧ day a < day b))).
Proof.
  unfold Calendar.date_ltb.
  rewrite !orb_True, !andb_True, !orb_True, !andb_True, !Is_true_true.
  rewrite !Z.ltb_lt, !Z.eqb_eq. tauto.
Qed.

Lemma date_leb_lex a b :
  Calendar.date_leb a b ↔ a = b ∨ Calendar.date_ltb a b.
Proof.
  unfold Calendar.date_leb. rewrite orb_True.
  by rewrite bool_decide_spec.
Qed.

Lemma date_eq_fields a b :
  a = b ↔ year a = year b ∧ month a = month b ∧ day a = day b.
Proof.
  split; [by intros ->|]. destruct a, b. simpl. by intros (-> & -> & ->).
Qed.

Global Instance date_desc_total : Total Entries.date_desc.
Proof.
  intros a b. unfold Entries.date_desc.
  rewrite !date_leb_lex, !date_ltb_lex, !date_eq_fields. lia.
Qed.

Global Instance date_desc_trans : Transitive Entries.date_desc.
Proof.
  intros a b c. unfold Entries.date_desc.
  rewrite !date_leb_lex, !date_ltb_lex, !date_eq_fields. lia.
Qed.

Lemma opt_holds_spec {A} (bound : option A) (test : A → bool) :
  Entries.opt_holds bound test ↔ ∀ x, bound = Some x → test x.
Proof.
  destruct bound as [b|]; simpl.
  - split; [by intros H x [= <-] | by intros H; apply H].
  - split; done.
Qed.

Lemma list_where_spec uid sd ed mn mx e :
  Entries.list_where uid sd ed mn mx e
  ↔ DayEntry.user_id e = uid
    ∧ (∀ d, sd = Some d → Calendar.date_leb d (DayEntry.date e))
    ∧ (∀ d, ed = Some d → Calendar.date_leb (DayEntry.date e) d)
    ∧ (∀ n, mn = Some n → n ≤ DayEntry.score e)
    ∧ (∀ n, mx = Some n → DayEntry.score e ≤ n).
Proof.
  unfold Entries.list_where.
  rewrite !andb_True, bool_decide_spec, !opt_holds_spec.
  setoid_rewrite Is_true_true. setoid_rewrite Z.leb_le. tauto.
Qed.

(** X3. A listing whose score bounds, where given, are within 0 to 10 does
    not fail and does not write. Its rows are exactly the stored entries of
    the user that lie within the bounds given (each bound inclusive, an
    absent bound no restriction), each as often as it is stored; they are
    ordered by date, latest first; the total is their number. A listing with
    a score bound outside 0 to 10 is answered 422 and does not write. *)
Theorem list_entries_exact (user : User.t) (start_date end_date : option date)
    (min_score max_score : option Z) (db : Session) :
  Entries.query_ok min_score max_score = true →
  (∃ resp,
     Request.list_entries user start_date end_date min_score max_score db
     = (Return resp, db)
     ∧ Entries.entries resp
       ≡ₚ filter (λ e, Entries.list_where (User.id user)
                         start_date end_date min_score max_score e)
            (day_entries db)
     ∧ (∀ e, e ∈ Entries.entries resp
             ↔ e ∈ day_entries db
               ∧ DayEntry.user_id e = User.id user
               ∧ (∀ d, start_date = Some d →
                       Calendar.date_leb d (DayEntry.date e))
               ∧ (∀ d, end_date = Some d →
                       Calendar.date_leb (DayEntry.date e) d)
               ∧ (∀ n, min_score = Some n → n ≤ DayEntry.score e)
               ∧ (∀ n, max_score = Some n → DayEntry.score e ≤ n))
     ∧ Sorted Entries.date_desc (Entries.entries resp)
     ∧ Entries.total resp = Z.of_nat (length (Entries.entries resp)))
  ∧ (∀ min_score' max_score',
       (∃ n, (min_score' = Some n ∨ max_score' = Some n) ∧ ¬ 0 ≤ n ≤ 10) →
       Request.list_entries user start_date end_date min_score' max_score' db
       = (Raise (HTTPException HTTP_422_UNPROCESSABLE_ENTITY), db)).
Proof.
  intros Hq. split.
  - set (rows := merge_sort Entries.date_desc
                   (filter (λ e, Entries.list_where (User.id user)
                                   start_date end_date min_score max_score e)
                           (day_entries db))).
    exists (Entries.mkList rows (Z.of_nat (length rows))).
    split; [by rewrite list_entries_run|]. simpl. unfold rows.
    split_and!; [| | |done].
    + apply merge_sort_Permutation.
    + intros e. rewrite merge_sort_Permutation, list_elem_of_filter.
      rewrite list_where_spec. tauto.
    + apply (Sorted_merge_sort _).
  - intros mn mx (n & Hn & Hout). apply list_entries_refused.
    unfold Entries.query_ok. apply andb_false_iff.
    assert (Entries.score_bound_ok (Some n) = false) as Hbad.
    { simpl. apply andb_false_iff. rewrite !Z.leb_gt. lia. }
    destruct Hn as [-> | ->]; [by left|by right].
Qed.

(** The listing of the specification's example: of Bob's entries scored 8,
    3, 10, 7 and 9, the bounds 7 and 9 select those scored 7, 8 and 9, which
    come latest date first; the bound 11 is refused. *)
Lemma list_entries_exact_witness :
  ∃ resp,
    Request.list_entries Sample.bob None None (Some 7) (Some 9)
      Sample.db_scores
    = (Return resp, Sample.db_scores)
    ∧ Entries.entries resp
      = [Sample.scored 5 Sample.may_4 9; Sample.scored 1 Sample.may_3 8;
         Sample.scored 4 Sample.may_2 7]
    ∧ Sorted Entries.date_desc (Entries.entries resp)
    ∧ Entries.total resp = 3
    ∧ Request.list_entries Sample.bob None None (Some 7) (Some 11)
        Sample.db_scores
      = (Raise (HTTPException HTTP_422_UNPROCESSABLE_ENTITY),
         Sample.db_scores).
Proof.
  destruct (list_entries_exact Sample.bob None None (Some 7) (Some 9)
              Sample.db_scores)
    as ((resp & Hrun & _ & _ & Hsorted & Htotal) & Hrefused).
  - reflexivity.
  - exists resp.
    assert (Entries.entries resp
            = [Sample.scored 5 Sample.may_4 9; Sample.scored 1 Sample.may_3 8;
               Sample.scored 4 Sample.may_2 7]) as Hrows.
    { vm_compute in Hrun. injection Hrun as <-. reflexivity. }
    split_and!; [exact Hrun|exact Hrows|exact Hsorted| |].
    + rewrite Htotal, Hrows. reflexivity.
    + apply Hrefused. exists 11. split; [by right|lia].
Defined.

Lemma sorted_distinct_strict (l : list DayEntry.t) :
  StronglySorted Entries.date_desc l → NoDup (DayEntry.date <$> l) →
  StronglySorted
    (λ a b, Calendar.date_ltb (DayEntry.date b) (DayEntry.date a)) l.
Proof.
  induction 1 as [|a l Hs IH Hall]; intros Hnd; [constructor|].
  rewrite fmap_cons in Hnd. apply NoDup_cons in Hnd as [Ha Hnd].
  constructor; [by apply IH|].
  rewrite Forall_forall in Hall |- *. intros b Hb.
  specialize (Hall b Hb). unfold Entries.date_desc in Hall.
  apply date_leb_lex in Hall as [Heq|Hlt]; [|done].
  exfalso. apply Ha. rewrite <- Heq. by apply list_elem_of_fmap_2.
Qed.

Lemma NoDup_dates_of_owner (uid : Z) (l : list DayEntry.t) :
  NoDup (user_date <$> l) → Forall (λ e, DayEntry.user_id e = uid) l →
  NoDup (DayEntry.date <$> l).
Proof.
  intros Hnd Hown.
  assert (user_date <$> l = (λ d, (uid, d)) <$> (DayEntry.date <$> l)) as E.
  { rewrite <- list_fmap_compose. apply list_fmap_ext. intros i e He.
    rewrite Forall_forall in Hown. unfold user_date. simpl.
    rewrite (Hown e); [done|]. by eapply list_elem_of_lookup_2. }
  rewrite E in Hnd. by apply NoDup_fmap_1 in Hnd.
Qed.

(** X4. In a storage that satisfies the constraints of the schema the rows of
    a listing (its score bounds within 0 to 10) are in strictly descending
    order of date: every row is dated before all the rows that precede it,
    so no date occurs twice. *)
Theorem list_entries_strictly_descending (user : User.t)
    (start_date end_date : option date) (min_score max_score : option Z)
    (db : Session) :
  constraints db →
  Entries.query_ok min_score max_score = true →
  ∃ resp,
    Request.list_entries user start_date end_date min_score max_score db
    = (Return resp, db)
    ∧ StronglySorted
        (λ a b, Calendar.date_ltb (DayEntry.date b) (DayEntry.date a))
        (Entries.entries resp)
    ∧ NoDup (DayEntry.date <$> Entries.entries resp).
Proof.
  intros [_ Huq] Hq.
  set (rows := filter (λ e, Entries.list_where (User.id user)
                              start_date end_date min_score max_score e)
                 (day_entries db)).
  exists (Entries.mkList (merge_sort Entries.date_desc rows)
            (Z.of_nat (length (merge_sort Entries.date_desc rows)))).
  split; [by rewrite list_entries_run|]. simpl.
  assert (NoDup (DayEntry.date <$> merge_sort Entries.date_desc rows)) as Hnd.
  { rewrite merge_sort_Permutation.
    apply (NoDup_dates_of_owner (User.id user)).
    - by apply NoDup_fmap_filter.
    - apply Forall_forall. intros e [He _]%list_elem_of_filter.
      by apply list_where_owner in He. }
  split; [|done]. apply sorted_distinct_strict; [|done].
  apply (StronglySorted_merge_sort _).
Qed.

(** Bob's five entries, stored out of order, are listed from the fifth of
    May down to the first. *)
Lemma list_entries_strictly_descending_witness :
  ∃ resp,
    Request.list_entries Sample.bob None None None None Sample.db_scores
    = (Return resp, Sample.db_scores)
    ∧ DayEntry.date <$> Entries.entries resp
      = [Sample.may_5; Sample.may_4; Sample.may_3; Sample.may_2; Sample.may_1]
    ∧ StronglySorted
        (λ a b, Calendar.date_ltb (DayEntry.date b) (DayEntry.date a))
        (Entries.entries resp)
    ∧ NoDup (DayEntry.date <$> Entries.entries resp).
Proof.
  destruct (list_entries_strictly_descending Sample.bob None None None None
              Sample.db_scores) as (resp & Hrun & Hstrict & Hnd).
  - solve_constraints.
  - reflexivity.
  - exists resp. split_and!; [exact Hrun| |exact Hstrict|exact Hnd].
    vm_compute in Hrun. injection Hrun as <-. reflexivity.
Defined.

(** ** What a write leaves alone *)

Section Frame.
Implicit Types (db : Session) (e : DayEntry.t) (d : date) (uid : Z).

Lemma same_elsewhere_refl uid d db : same_elsewhere uid d db db.
Proof. by split. Qed.

Lemma filter_fmap_frame {A} (P : A → Prop) `{∀ x, Decision (P x)}
    (f : A → A) (l : list A) :
  (∀ x, x ∈ l → f x = x ∨ (¬ P x ∧ ¬ P (f x))) →
  filter P (f <$> l) = filter P l.
Proof.
  induction l as [|a l IH]; intros Hf; [done|].
  rewrite fmap_cons, !filter_cons.
  rewrite IH by (intros x Hx; apply Hf; by right).
  destruct (Hf a ltac:(left)) as [->|[Hn1 Hn2]]; [done|].
  by rewrite !decide_False.
Qed.

Lemma add_day_entry_frame now now' uid d score summary db e db' :
  add_day_entry now now' uid d score summary db = Return (e, db') →
  same_elsewhere uid d db db'.
Proof.
  unfold add_day_entry. case_bool_decide; [|done]. intros [= <- <-].
  split; [done|]. intros uid' d' Hne. unfold select_day_entry. simpl.
  rewrite filter_app, filter_cons_False, filter_nil, app_nil_r; [done|].
  simpl. intros [-> ->]. done.
Qed.

Lemma flush_day_entry_frame now old new db e db' :
  constraints db → old ∈ day_entries db →
  DayEntry.id new = DayEntry.id old → user_date new = user_date old →
  flush_day_entry now old new db = Return (e, db') →
  same_elsewhere (DayEntry.user_id old) (DayEntry.date old) db db'.
Proof.
  intros Hc Hin Hid Hkey. unfold flush_day_entry. intros [= <- <-].
  split; [done|]. intros uid' d' Hne. unfold select_day_entry. simpl.
  apply filter_fmap_frame. intros x Hx. case_bool_decide as Hidx; [|by left].
  rewrite (pk_determines db x old Hc Hx Hin Hidx). right.
  assert (user_date (if bool_decide (DayEntry.score new = DayEntry.score old
                                      ∧ DayEntry.summary new = DayEntry.summary old)
                     then old else DayEntry.with_updated_at now new)
          = user_date old) as Hrow.
  { case_bool_decide; [done|]. rewrite <- Hkey. by destruct new. }
  split.
  - intros [Hu Hd]. apply Hne. by rewrite <- Hu, <- Hd.
  - intros [Hu Hd]. apply Hne. injection Hrow as Hru Hrd.
    by rewrite <- Hu, <- Hd, Hru, Hrd.
Qed.

Lemma delete_row_frame e db :
  constraints db → e ∈ day_entries db →
  same_elsewhere (DayEntry.user_id e) (DayEntry.date e) db
    (mkSession (users db)
       (filter (λ x, DayEntry.id x ≠ DayEntry.id e) (day_entries db))).
Proof.
  intros Hc Hin. split; [done|]. intros uid' d' Hne.
  unfold select_day_entry. simpl. rewrite list_filter_filter.
  apply filter_ext_in. intros x Hx. split; [tauto|].
  intros [Hu Hd]. split; [done|]. intros Hid.
  rewrite (pk_determines db x e Hc Hx Hin Hid) in Hu, Hd.
  apply Hne. by rewrite Hu, Hd.
Qed.

End Frame.

(** X5. In a storage that satisfies the constraints of the schema, each of
    the five writes on the entry of a user and a date (strict create, strict
    update, strict delete, upsert, interactive delete), whatever its input
    and whether it succeeds or fails, leaves the users as they are and leaves
    the rows of every other pair of user and date as they are. *)
Theorem writes_touch_one_pair (today : date) (now now' : datetime) (user : User.t)
    (d : date) (score : Z) (summary : string)
    (new_score : option Z) (new_summary : option string) (db : Session) :
  constraints db →
  same_elsewhere (User.id user) d db
    (Request.create_entry now now' user d score summary db).2
  ∧ same_elsewhere (User.id user) d db
      (Request.update_entry now user d new_score new_summary db).2
  ∧ same_elsewhere (User.id user) d db (Request.delete_entry user d db).2
  ∧ same_elsewhere (User.id user) d db
      (Request.save_day_entry today now now' user d score summary db).2
  ∧ same_elsewhere (User.id user) d db
      (Request.delete_day_entry today user d db).2.
Proof.
  intros Hc.
  destruct (select_cases db (User.id user) d Hc)
    as [Hs|(old & Hs & Hin & Hu & Hd)].
  - split_and!.
    + unfold Request.create_entry, DayEntryCreate.validate.
      destruct (_ && _); [|apply same_elsewhere_refl].
      run. cbn. rewrite Hs. cbn.
      destruct (add_day_entry _ _ _ _ _ _ db) as [[e db']|] eqn:Ha;
        [|apply same_elsewhere_refl].
      by eapply add_day_entry_frame.
    + unfold Request.update_entry, DayEntryUpdate.validate.
      destruct (_ && _); [|apply same_elsewhere_refl].
      run. cbn. rewrite Hs. apply same_elsewhere_refl.
    + rewrite delete_entry_absent by done. apply same_elsewhere_refl.
    + unfold Request.save_day_entry, Pages.save_day_entry.
      destruct (_ || _); [apply same_elsewhere_refl|].
      destruct (_ || _); [apply same_elsewhere_refl|].
      run. rewrite Hs. cbn.
      destruct (add_day_entry _ _ _ _ _ _ db) as [[e db']|] eqn:Ha;
        [|apply same_elsewhere_refl].
      by eapply add_day_entry_frame.
    + destruct (delete_day_entry_absent today d user db Hs) as [resp ->].
      apply same_elsewhere_refl.
  - assert (∀ db', same_elsewhere (DayEntry.user_id old) (DayEntry.date old)
                     db db' → same_elsewhere (User.id user) d db db') as Hto
      by (by rewrite Hu, Hd).
    split_and!.
    + unfold Request.create_entry, DayEntryCreate.validate.
      destruct (_ && _); [|apply same_elsewhere_refl].
      run. cbn. rewrite Hs. apply same_elsewhere_refl.
    + unfold Request.update_entry, DayEntryUpdate.validate.
      destruct (_ && _); [|apply same_elsewhere_refl].
      run. cbn. rewrite Hs. cbn.
      destruct (flush_day_entry _ _ _ db) as [[e db']|] eqn:Hf;
        [|apply same_elsewhere_refl].
      apply Hto. eapply flush_day_entry_frame; [done|done| | |exact Hf].
      * destruct new_score, new_summary; simpl; try case_bool_decide; done.
      * destruct new_score, new_summary; simpl; try case_bool_decide; done.
    + rewrite (delete_entry_present _ _ _ old) by done.
      by apply Hto, delete_row_frame.
    + unfold Request.save_day_entry, Pages.save_day_entry.
      destruct (_ || _); [apply same_elsewhere_refl|].
      destruct (_ || _); [apply same_elsewhere_refl|].
      run. rewrite Hs. cbn.
      destruct (flush_day_entry _ _ _ db) as [[e db']|] eqn:Hf;
        [|apply same_elsewhere_refl].
      apply Hto. eapply flush_day_entry_frame; [done|done| | |exact Hf]; done.
    + destruct (delete_day_entry_present today _ user db old Hs) as [resp ->].
      by apply Hto, delete_row_frame.
Qed.

Lemma writes_touch_one_pair_witness :
  select_day_entry 2 Sample.may_1
    (Request.save_day_entry Sample.may_2 70 71 Sample.alice Sample.may_1 3
       "rain" Sample.db_both).2
  = [Sample.entry_bob].
Proof.
  destruct (writes_touch_one_pair Sample.may_2 70 71 Sample.alice Sample.may_1 3
              "rain" None None Sample.db_both) as (_ & _ & _ & [_ Hsave] & _).
  - solve_constraints.
  - rewrite Hsave; [reflexivity|]. simpl. discriminate.
Defined.

(** X6. In a storage that satisfies the constraints of the schema, deleting
    an account removes nothing of anybody else: an entry of another owner is
    stored afterwards exactly if it was stored before, a user with another
    identifier is in the credential store afterwards exactly if it was
    before, and every point query for another owner finds what it found. *)
Theorem delete_account_keeps_others (user : User.t) (db : Session) :
  constraints db →
  let db' := (Request.delete_account user db).2 in
  (∀ e, DayEntry.user_id e ≠ User.id user →
        e ∈ day_entries db' ↔ e ∈ day_entries db)
  ∧ (∀ u, User.id u ≠ User.id user → u ∈ users db' ↔ u ∈ users db)
  ∧ (∀ uid d, uid ≠ User.id user →
       select_day_entry uid d db' = select_day_entry uid d db).
Proof.
  intros Hc db'. unfold db'. run. simpl.
  assert (∀ e, e ∈ day_entries db → DayEntry.user_id e ≠ User.id user →
               DayEntry.id e ∉ DayEntry.id <$>
                 filter (λ x, DayEntry.user_id x = User.id user)
                        (day_entries db)) as Hkeep.
  { intros e Hin Hne (o & Hid & [Ho Hoin]%list_elem_of_filter)%list_elem_of_fmap.
    rewrite (pk_determines db e o Hc Hin Hoin Hid) in Hne. done. }
  split_and!.
  - intros e Hne. rewrite list_elem_of_filter. split; [tauto|].
    intros Hin. split; [by apply Hkeep|done].
  - intros u Hne. rewrite list_elem_of_filter. tauto.
  - intros uid d Hne. unfold select_day_entry. simpl.
    rewrite list_filter_filter. apply filter_ext_in. intros x Hx.
    split; [tauto|]. intros [Hu Hd]. split; [done|].
    apply Hkeep; [done|]. by rewrite Hu.
Qed.

Lemma delete_account_keeps_others_witness :
  select_day_entry 1 Sample.may_2 (Request.delete_account Sample.bob Sample.db_both).2
  = [Sample.entry_alice].
Proof.
  destruct (delete_account_keeps_others Sample.bob Sample.db_both)
    as (_ & _ & Hsel).
  - solve_constraints.
  - rewrite Hsel; [reflexivity|]. simpl. discriminate.
Defined.

(** ** The upsert *)



Lemma get_score_color_scored s :
  0 ≤ s ≤ 10 → Pages.get_score_color (Some s) ≠ "score-none".
Proof.
  intros Hs.
  assert (s = 0 ∨ s = 1 ∨ s = 2 ∨ s = 3 ∨ s = 4 ∨ s = 5 ∨ s = 6 ∨ s = 7
          ∨ s = 8 ∨ s = 9 ∨ s = 10) as Hcases by lia.
  repeat (destruct Hcases as [->|Hcases]; [discriminate|]).
  subst s. discriminate.
Qed.

(** The upsert with input that passes its checks, with the page it
    returns. *)
Lemma save_day_entry_result today now now' user d score summary db :
  constraints db →
  0 ≤ score ≤ 10 → Str.len (Str.strip summary) ≠ 0 → Str.len summary ≤ 200 →
  ∃ e db',
    Request.save_day_entry today now now' user d score summary db
    = (Return (Pages.day_cell_html
                 (Pages.mkDay d (day d) (Some e)
                    (Pages.get_score_color (Some (DayEntry.score e)))
                    (bool_decide (d = today)) false)
                 (Some true)), db')
    ∧ constraints db'
    ∧ select_day_entry (User.id user) d db' = [e]
    ∧ DayEntry.score e = score
    ∧ DayEntry.summary e = Str.strip summary
    ∧ match select_day_entry (User.id user) d db with
      | [] => DayEntry.created_at e = now ∧ DayEntry.updated_at e = now'
      | old :: _ =>
          DayEntry.id e = DayEntry.id old
          ∧ DayEntry.created_at e = DayEntry.created_at old
          ∧ DayEntry.updated_at e
            = (if bool_decide (score = DayEntry.score old
                               ∧ Str.strip summary = DayEntry.summary old)
               then DayEntry.updated_at old else now)
      end.
Proof.
  intros Hc Hsc Hne Hlen.
  unfold Request.save_day_entry, Pages.save_day_entry.
  replace ((score <? 0) || (10 <? score)) with false
    by (symmetry; apply orb_false_iff; split; apply Z.ltb_ge; lia).
  replace ((Str.len (Str.strip summary) =? 0) || (200 <? Str.len summary))
    with false
    by (symmetry; apply orb_false_iff; split;
        [by apply Z.eqb_neq | apply Z.ltb_ge; lia]).
  destruct (select_cases db (User.id user) d Hc)
    as [Hs|(old & Hs & Hin & Hu & Hd)].
  - destruct (add_day_entry now now' (User.id user) d score (Str.strip summary) db)
      as [[e db']|] eqn:Ha.
    + pose proof (add_day_entry_constraints _ _ _ _ _ _ _ _ _ Hc Ha) as Hc'.
      exists e, db'. split; [run; rewrite Hs; cbn; by rewrite Ha|].
      unfold add_day_entry in Ha. rewrite Hs in Ha.
      rewrite bool_decide_eq_true_2 in Ha by done. injection Ha as He Hdb.
      assert (e ∈ day_entries db') as Hein.
      { rewrite <- Hdb, <- He. simpl. apply elem_of_app. right. left. }
      pose proof (select_unique db' e Hc' Hein) as Hsel.
      rewrite <- He in Hsel |- *. simpl in Hsel |- *. rewrite Hs.
      by split_and!.
    + unfold add_day_entry in Ha. rewrite Hs in Ha.
      by rewrite bool_decide_eq_true_2 in Ha.
  - set (new := DayEntry.with_summary (Str.strip summary)
                  (DayEntry.with_score score old)).
    destruct (flush_day_entry_select now old new db Hc Hin)
      as (row & db' & Hf & Hrow & Hc' & _ & Hsel); [done|done|].
    rewrite Hu, Hd in Hsel.
    exists row, db'. split; [run; rewrite Hs; cbn; fold new; by rewrite Hf|].
    rewrite Hs. subst row. unfold new in *. simpl in Hsel |- *.
    destruct (decide (score = DayEntry.score old
                      ∧ Str.strip summary = DayEntry.summary old))
      as [[Hs1 Hs2]|Hdiff].
    + rewrite bool_decide_eq_true_2 in Hsel |- * by done. by split_and!.
    + rewrite (bool_decide_eq_false_2 _ Hdiff) in Hsel |- *. by split_and!.
Qed.

(** X8. With a score from 0 to 10 and a summary that is not empty once
    stripped and has at most 200 characters, the upsert on a storage that
    satisfies the constraints returns the day cell of the entry it stored:
    the entry has the given score and the stripped summary, the cell shows
    the category of that score (never "score-none") and is marked as not in
    the future. A get for the date then returns that entry. *)
Theorem save_then_get (today : date) (now now' : datetime) (user : User.t)
    (d : date) (score : Z) (summary : string) (db : Session) :
  constraints db →
  0 ≤ score ≤ 10 →
  Str.len (Str.strip summary) ≠ 0 →
  Str.len summary ≤ 200 →
  ∃ e db',
    Request.save_day_entry today now now' user d score summary db
    = (Return (Pages.day_cell_html
                 (Pages.mkDay d (day d) (Some e)
                    (Pages.get_score_color (Some score))
                    (bool_decide (d = today)) false)
                 (Some true)), db')
    ∧ DayEntry.score e = score
    ∧ DayEntry.summary e = Str.strip summary
    ∧ Pages.get_score_color (Some score) ≠ "score-none"
    ∧ Request.get_entry user d db' = (Return e, db').
Proof.
  intros Hc Hsc Hne Hlen.
  destruct (save_day_entry_result today now now' user d score summary db)
    as (e & db' & Hrun & _ & Hsel & Hes & Hesum & _); try done.
  exists e, db'. rewrite Hes in Hrun. split_and!; try done.
  - by apply get_score_color_scored.
  - by apply get_entry_present.
Qed.

Lemma save_then_get_witness :
  ∃ e db',
    Request.save_day_entry Sample.may_1 90 91 Sample.bob Sample.may_1 9 " great "
      Sample.db_bob
    = (Return (Pages.day_cell_html
                 (Pages.mkDay Sample.may_1 1 (Some e) "score-9" true false)
                 (Some true)), db')
    ∧ DayEntry.summary e = "great"
    ∧ Request.get_entry Sample.bob Sample.may_1 db' = (Return e, db').
Proof.
  destruct (save_then_get Sample.may_1 90 91 Sample.bob Sample.may_1 9 " great "
              Sample.db_bob) as (e & db' & Hrun & _ & Hsum & _ & Hget).
  - solve_constraints.
  - lia.
  - vm_compute. discriminate.
  - vm_compute. discriminate.
  - exists e, db'. split_and!; [exact Hrun|exact Hsum|exact Hget].
Defined.

(** X9. An upsert over an existing entry keeps the primary key and the
    creation time of the entry; the last-updated time becomes the reading of
    the clock taken for the update when the given score or the stripped
    summary differs from the stored one, and is kept otherwise. The entry stays the only one of its
    pair. *)
Theorem save_day_entry_over_existing (today : date) (now now' : datetime)
    (user : User.t) (d : date) (score : Z) (summary : string)
    (old : DayEntry.t) (db : Session) :
  constraints db →
  old ∈ day_entries db →
  DayEntry.user_id old = User.id user →
  DayEntry.date old = d →
  0 ≤ score ≤ 10 →
  Str.len (Str.strip summary) ≠ 0 →
  Str.len summary ≤ 200 →
  ∃ new,
    select_day_entry (User.id user) d
      (Request.save_day_entry today now now' user d score summary db).2 = [new]
    ∧ DayEntry.id new = DayEntry.id old
    ∧ DayEntry.created_at new = DayEntry.created_at old
    ∧ DayEntry.score new = score
    ∧ DayEntry.summary new = Str.strip summary
    ∧ DayEntry.updated_at new
      = (if bool_decide (score = DayEntry.score old
                         ∧ Str.strip summary = DayEntry.summary old)
         then DayEntry.updated_at old else now).
Proof.
  intros Hc Hin Hu Hd Hsc Hne Hlen.
  pose proof (select_unique db old Hc Hin) as Hs. rewrite Hu, Hd in Hs.
  destruct (save_day_entry_result today now now' user d score summary db)
    as (e & db' & Hrun & _ & Hsel & Hes & Hesum & Hold); try done.
  rewrite Hs in Hold. destruct Hold as (Hid & Hcr & Hup).
  exists e. rewrite Hrun. by split_and!.
Qed.

Lemma save_day_entry_over_existing_witness :
  ∃ new,
    select_day_entry 2 Sample.may_1
      (Request.save_day_entry Sample.may_2 90 91 Sample.bob Sample.may_1 9
         "great" Sample.db_bob).2 = [new]
    ∧ DayEntry.created_at new = 10
    ∧ DayEntry.updated_at new = 90.
Proof.
  destruct (save_day_entry_over_existing Sample.may_2 90 91 Sample.bob
              Sample.may_1 9 "great" Sample.entry_bob Sample.db_bob)
    as (new & Hsel & _ & Hcr & _ & _ & Hup).
  - solve_constraints.
  - simpl. left.
  - reflexivity.
  - reflexivity.
  - lia.
  - vm_compute. discriminate.
  - vm_compute. discriminate.
  - exists new. split_and!; [exact Hsel|exact Hcr|exact Hup].
Defined.

(** ** Stored entries and the schemas *)

Lemma rstrip_fixed s :
  (∀ b, Str.last s = Some b → Str.isspace b = false) → Str.rstrip s = s.
Proof.
  induction s as [|c s IH]; intros Hlast; [done|].
  destruct s as [|c' s'].
  - simpl. by rewrite (Hlast c).
  - change (Str.rstrip (String c (String c' s')))
      with (match Str.rstrip (String c' s') with
            | EmptyString =>
                if Str.isspace c then EmptyString else String c EmptyString
            | r => String c r
            end).
    rewrite IH; [done|]. intros b Hb. by apply Hlast.
Qed.

Lemma strip_fixed s : Str.trimmed s = true → Str.strip s = s.
Proof.
  unfold Str.trimmed, Str.strip. destruct s as [|c s]; [done|].
  destruct (Str.last (String c s)) as [b|] eqn:Hb.
  - simpl Str.first. intros [Hc Hbs]%andb_true_iff.
    apply negb_true_iff in Hc, Hbs. simpl Str.lstrip. rewrite Hc.
    apply rstrip_fixed. intros b' Hb'. congruence.
  - exfalso. clear -Hb. revert c Hb. induction s as [|c' s IH]; intros c Hb.
    + done.
    + apply (IH c'). exact Hb.
Qed.

(** X10. The values of a stored entry that satisfies the invariant of the
    data model pass both request schemas unchanged: submitted again as the
    body of a strict create or of a strict update, the score and the summary
    are accepted and the summary is not altered by the stripping. *)
Theorem stored_values_revalidate (e : DayEntry.t) (d : date) :
  entry_invariant e →
  DayEntryCreate.validate d (DayEntry.score e) (DayEntry.summary e)
  = Return (DayEntryCreate.mk d (DayEntry.score e) (DayEntry.summary e))
  ∧ DayEntryUpdate.validate (Some (DayEntry.score e))
      (Some (DayEntry.summary e))
    = Return (DayEntryUpdate.mk (Some (DayEntry.score e))
                (Some (DayEntry.summary e))).
Proof.
  intros (Hsc & Hlen & Htr)%entry_invariant_spec.
  apply Is_true_true in Htr. split.
  - rewrite validate_create_accepts by done. by rewrite strip_fixed.
  - unfold DayEntryUpdate.validate, DayEntryUpdate.score_ok,
      DayEntryUpdate.summary_ok, DayEntryUpdate.strip_summary.
    replace (_ && _) with true
      by (symmetry; rewrite !andb_true_iff, !Z.leb_le; lia).
    case_bool_decide as He; [done|]. by rewrite strip_fixed.
Qed.

Lemma stored_values_revalidate_witness :
  DayEntryCreate.validate Sample.may_2 7 "good day"
  = Return (DayEntryCreate.mk Sample.may_2 7 "good day").
Proof.
  refine (proj1 (stored_values_revalidate Sample.entry_bob Sample.may_2 _)).
  vm_compute. exact I.
Defined.

(** ** Invariants of the storage *)

Lemma db_blank_reachable : reachable Sample.db_blank.
Proof.
  unfold reachable. eapply rtc_l; [|eapply rtc_l; [|apply rtc_refl]].
  - exact (step_register empty_db Sample.validate_email 0 "$2b$12$alice"
             "alice@example.org" "hunter22").
  - refine (step_create Sample.db_alice 10 11 Sample.alice Sample.may_1 5 " " _).
    simpl. left.
Qed.

(** X11. In every storage that the requests can reach from the empty one,
    the primary keys of the entries are pairwise distinct, no user has two
    entries for one date, and every entry has a score from 0 to 10 and a
    summary of at most 200 characters without white space at either end. *)
Theorem reachable_storage_invariant (db : Session) :
  reachable db →
  NoDup (DayEntry.id <$> day_entries db)
  ∧ NoDup (user_date <$> day_entries db)
  ∧ ∀ e, e ∈ day_entries db →
      0 ≤ DayEntry.score e ≤ 10
      ∧ Str.len (DayEntry.summary e) ≤ 200
      ∧ Str.trimmed (DayEntry.summary e) = true.
Proof.
  intros Hr. destruct (reachable_healthy db Hr) as [[Hpk Huq] Hb].
  split_and!; [done|done|]. intros e He.
  rewrite Forall_forall in Hb. specialize (Hb e He).
  apply entry_bounds_spec in Hb as (? & ? & Htr).
  by apply Is_true_true in Htr.
Qed.

Lemma reachable_storage_invariant_witness :
  NoDup (user_date <$> day_entries Sample.db_blank).
Proof.
  exact (proj1 (proj2 (reachable_storage_invariant Sample.db_blank
                         db_blank_reachable))).
Defined.

(** X12. The upsert never breaks the invariant of the data model: when the
    constraints hold and every stored entry has a score from 0 to 10 and a
    non-empty summary of at most 200 characters without white space at
    either end, the same is true of every entry stored after an upsert,
    whatever its input. *)
Theorem save_day_entry_invariant (today : date) (now now' : datetime)
    (user : User.t) (d : date) (score : Z) (summary : string) (db : Session) :
  constraints db →
  (∀ e, e ∈ day_entries db → entry_invariant e) →
  ∀ e, e ∈ day_entries
             (Request.save_day_entry today now now' user d score summary db).2 →
       0 ≤ DayEntry.score e ≤ 10
       ∧ 1 ≤ Str.len (DayEntry.summary e) ≤ 200
       ∧ Str.trimmed (DayEntry.summary e) = true.
Proof.
  intros Hc Hinv e He.
  assert (Forall entry_invariant (day_entries db)) as Hall
    by (by apply Forall_forall).
  pose proof (save_day_entry_keeps_invariant today now now' user d score summary db
                (conj Hc Hall)) as Hkeep.
  rewrite Forall_forall in Hkeep. specialize (Hkeep e He).
  apply entry_invariant_spec in Hkeep as (? & ? & Htr).
  by apply Is_true_true in Htr.
Qed.

Lemma save_day_entry_invariant_witness :
  1 ≤ Str.len (DayEntry.summary (DayEntry.mk 2 2 Sample.may_2 6 "calm" 90 91))
    ≤ 200.
Proof.
  refine (proj1 (proj2 (save_day_entry_invariant Sample.may_1 90 91 Sample.bob
                          Sample.may_2 6 "  calm  " Sample.db_bob _ _
                          (DayEntry.mk 2 2 Sample.may_2 6 "calm" 90 91) _))).
  - solve_constraints.
  - intros x ->%list_elem_of_singleton. vm_compute. exact I.
  - vm_compute. right. left.
Defined.

(** ** The subject of a token: [str] and [int] *)

Section Decimal.
Import Decimal.

(** The value of a digit list after the prefix of value [acc]. *)
Fixpoint uint_value (acc : Z) (d : uint) : Z :=
  match d with
  | Nil => acc
  | D0 l => uint_value (10 * acc) l
  | D1 l => uint_value (10 * acc + 1) l
  | D2 l => uint_value (10 * acc + 2) l
  | D3 l => uint_value (10 * acc + 3) l
  | D4 l => uint_value (10 * acc + 4) l
  | D5 l => uint_value (10 * acc + 5) l
  | D6 l => uint_value (10 * acc + 6) l
  | D7 l => uint_value (10 * acc + 7) l
  | D8 l => uint_value (10 * acc + 8) l
  | D9 l => uint_value (10 * acc + 9) l
  end.

Lemma of_uint_acc_value (d : uint) (acc : positive) :
  Z.pos (Pos.of_uint_acc d acc) = uint_value (Z.pos acc) d.
Proof.
  revert acc. induction d; intros acc; simpl; rewrite ?IHd; f_equal; lia.
Qed.

Lemma of_uint_value (d : uint) : Z.of_N (Pos.of_uint d) = uint_value 0 d.
Proof.
  induction d; simpl; try done;
    rewrite of_uint_acc_value; f_equal.
Qed.

Lemma parse_digits_digit acc after_digit c k s :
  Auth.digit_of c = Some k →
  Auth.parse_digits acc after_digit (String c s)
  = Auth.parse_digits (10 * acc + k) true s.
Proof. intros Hc. cbn [Auth.parse_digits]. by rewrite Hc. Qed.

Lemma parse_digits_uint (d : uint) (acc : Z) (after_digit : bool) :
  d ≠ Nil ∨ after_digit = true →
  Auth.parse_digits acc after_digit (NilEmpty.string_of_uint d)
  = Some (uint_value acc d).
Proof.
  revert acc after_digit.
  induction d; intros acc after_digit Hd;
    cbn [NilEmpty.string_of_uint uint_value];
    try (erewrite parse_digits_digit by (vm_compute; reflexivity);
         rewrite IHd by (by right); do 2 f_equal; lia).
  destruct Hd as [? | ->]; done.
Qed.

Fixpoint all_chars (P : ascii → bool) (s : string) : bool :=
  match s with
  | EmptyString => true
  | String c s' => P c && all_chars P s'
  end.

Lemma all_chars_last P s b :
  all_chars P s = true → Str.last s = Some b → P b = true.
Proof.
  induction s as [|c s IH]; [done|]. simpl.
  intros [Hc Hs]%andb_true_iff. destruct s as [|c' s'].
  - by intros [= <-].
  - by apply IH.
Qed.

Lemma skip_trailing_fixed s :
  (∀ b, Str.last s = Some b → Auth.int_space b = false) →
  Auth.skip_trailing s = s.
Proof.
  induction s as [|c s IH]; intros Hlast; [done|].
  destruct s as [|c' s'].
  - simpl. by rewrite (Hlast c).
  - change (Auth.skip_trailing (String c (String c' s')))
      with (match Auth.skip_trailing (String c' s') with
            | EmptyString =>
                if Auth.int_space c then EmptyString else String c EmptyString
            | r => String c r
            end).
    rewrite IH; [done|]. intros b Hb. by apply Hlast.
Qed.

Lemma digits_no_space (d : uint) :
  all_chars (λ c, negb (Auth.int_space c)) (NilEmpty.string_of_uint d) = true.
Proof. induction d; simpl; by rewrite ?IHd. Qed.

(** A run of digits, with or without the minus sign before it, has no white
    space to skip. *)
Lemma literal_digits (d : uint) :
  d ≠ Nil →
  Auth.skip_trailing (Auth.skip_leading (NilEmpty.string_of_uint d))
  = NilEmpty.string_of_uint d.
Proof.
  intros Hd.
  assert (Auth.skip_leading (NilEmpty.string_of_uint d)
          = NilEmpty.string_of_uint d) as -> by (by destruct d).
  apply skip_trailing_fixed. intros b Hb.
  pose proof (all_chars_last _ _ _ (digits_no_space d) Hb) as Hn.
  by apply negb_true_iff in Hn.
Qed.

Lemma literal_minus_digits (d : uint) :
  d ≠ Nil →
  Auth.skip_trailing
    (Auth.skip_leading (String "-" (NilEmpty.string_of_uint d)))
  = String "-" (NilEmpty.string_of_uint d).
Proof.
  intros Hd.
  change (Auth.skip_leading (String "-" (NilEmpty.string_of_uint d)))
    with (String "-" (NilEmpty.string_of_uint d)).
  apply skip_trailing_fixed. intros b Hb.
  assert (all_chars (λ c, negb (Auth.int_space c))
            (String "-" (NilEmpty.string_of_uint d)) = true) as Hall
    by (simpl; apply digits_no_space).
  pose proof (all_chars_last _ _ _ Hall Hb) as Hn.
  by apply negb_true_iff in Hn.
Qed.

Lemma count_digits_uint (d : uint) :
  Auth.count_digits (NilEmpty.string_of_uint d) = Z.of_nat (nb_digits d).
Proof.
  induction d; cbn [NilEmpty.string_of_uint nb_digits Auth.count_digits];
    [done|..];
    match goal with
    | |- context [Auth.digit_of ?c] =>
        let v := eval vm_compute in (Auth.digit_of c) in
        change (Auth.digit_of c) with v
    end;
    cbv iota; rewrite IHd; lia.
Qed.

Lemma py_int_digits (d : uint) :
  d ≠ Nil →
  Z.of_nat (nb_digits d) ≤ Auth.int_max_str_digits →
  Auth.py_int (NilEmpty.string_of_uint d) = Return (uint_value 0 d)
  ∧ Auth.py_int (String "-" (NilEmpty.string_of_uint d))
    = Return (- uint_value 0 d).
Proof.
  intros Hd Hlen. unfold Auth.py_int.
  rewrite literal_digits, literal_minus_digits by done.
  assert (Auth.count_digits (String "-" (NilEmpty.string_of_uint d))
          = Auth.count_digits (NilEmpty.string_of_uint d)) as Hminus
    by reflexivity.
  cbv zeta. rewrite Hminus, count_digits_uint.
  replace (Auth.int_max_str_digits <? Z.of_nat (nb_digits d)) with false
    by (symmetry; apply Z.ltb_ge; lia).
  split.
  - pose proof (parse_digits_uint d 0 false (or_introl Hd)) as Hp.
    destruct d; try done; simpl in *; by rewrite Hp.
  - by rewrite (parse_digits_uint d 0 false (or_introl Hd)).
Qed.

(** A digit list is worth at least its prefix shifted by its length. *)
Lemma uint_value_ge (d : uint) (acc : Z) :
  0 ≤ acc → acc * 10 ^ Z.of_nat (nb_digits d) ≤ uint_value acc d.
Proof.
  revert acc.
  induction d; intros acc Hacc; cbn [nb_digits uint_value];
    [change (10 ^ Z.of_nat 0) with 1; lia|..];
    rewrite Nat2Z.inj_succ, Z.pow_succ_r by lia;
    (etrans; [|apply IHd; lia]);
    pose proof (Z.pow_pos_nonneg 10 (Z.of_nat (nb_digits d))
                  ltac:(lia) ltac:(lia));
    nia.
Qed.

(** The decimal digits of a positive number [p] start with a digit that is
    not zero, so [p] is at least ten to the power of their number less
    one. *)
Lemma to_uint_lower_bound (p : positive) :
  10 ^ (Z.of_nat (nb_digits (Pos.to_uint p)) - 1) ≤ Z.pos p.
Proof.
  assert (unorm (Pos.to_uint p) = Pos.to_uint p) as Hnorm.
  { rewrite <- (Unsigned.to_of (Pos.to_uint p)). by rewrite Unsigned.of_to. }
  assert (uint_value 0 (Pos.to_uint p) = Z.pos p) as Hval.
  { by rewrite <- of_uint_value, Unsigned.of_to. }
  pose proof (Unsigned.to_uint_nonzero p) as Hnz.
  rewrite <- Hval. clear Hval.
  destruct (Pos.to_uint p) as [|l|l|l|l|l|l|l|l|l|l] eqn:E;
    cbn [nb_digits uint_value];
    rewrite ?Nat2Z.inj_succ;
    try (replace (Z.succ (Z.of_nat (nb_digits l)) - 1)
           with (Z.of_nat (nb_digits l)) by lia;
         etrans; [|apply uint_value_ge; lia]; lia).
  - done.
  - exfalso. unfold unorm in Hnorm. rewrite DecimalFacts.nzhead_D0 in Hnorm.
    pose proof (DecimalFacts.nzhead_nonzero l) as Hhead.
    destruct (nzhead l) as [|u|u|u|u|u|u|u|u|u|u] eqn:Hl;
      try discriminate Hnorm.
    + injection Hnorm as <-. by apply Hnz.
    + by destruct (Hhead u).
Qed.

Lemma nb_digits_to_uint (p : positive) (k : Z) :
  0 ≤ k → Z.pos p < 10 ^ k → Z.of_nat (nb_digits (Pos.to_uint p)) ≤ k.
Proof.
  intros Hk Hp. pose proof (to_uint_lower_bound p) as Hlow.
  destruct (decide (Z.of_nat (nb_digits (Pos.to_uint p)) ≤ k)) as [|Hgt];
    [done|].
  exfalso.
  assert (10 ^ k ≤ 10 ^ (Z.of_nat (nb_digits (Pos.to_uint p)) - 1))
    by (apply Z.pow_le_mono_r; lia).
  lia.
Qed.

End Decimal.

(** [int(str(n))] is [n] for every integer of at most 4300 digits; a longer
    one neither [str] nor [int] accepts. *)
Lemma py_int_of_py_str (n : Z) :
  Z.abs n < 10 ^ Auth.int_max_str_digits → Auth.py_int (py_str n) = Return n.
Proof.
  intros Hn. unfold py_str. destruct n as [|p|p]; [done| |].
  - assert (Pos.to_uint p ≠ Decimal.Nil) as Hd
      by apply Unsigned.to_uint_nonnil.
    assert (Z.of_nat (Decimal.nb_digits (Pos.to_uint p))
            ≤ Auth.int_max_str_digits) as Hlen
      by (apply nb_digits_to_uint; [done|lia]).
    simpl. destruct (Pos.to_uint p) eqn:E; try done;
      rewrite <- E in *;
      (replace (NilZero.string_of_uint (Pos.to_uint p))
         with (NilEmpty.string_of_uint (Pos.to_uint p)) by (by rewrite E));
      rewrite (proj1 (py_int_digits _ Hd Hlen)), <- of_uint_value,
        Unsigned.of_to; done.
  - assert (Pos.to_uint p ≠ Decimal.Nil) as Hd
      by apply Unsigned.to_uint_nonnil.
    assert (Z.of_nat (Decimal.nb_digits (Pos.to_uint p))
            ≤ Auth.int_max_str_digits) as Hlen
      by (apply nb_digits_to_uint; [done|lia]).
    simpl.
    replace (NilZero.string_of_uint (Pos.to_uint p))
      with (NilEmpty.string_of_uint (Pos.to_uint p))
      by (by destruct (Pos.to_uint p)).
    rewrite (proj2 (py_int_digits _ Hd Hlen)), <- of_uint_value,
      Unsigned.of_to.
    done.
Qed.

(** An integer of the storage has far fewer digits than the limit. *)
Lemma sqlite_integer_digits (n : Z) :
  sqlite_integer n = true → Z.abs n < 10 ^ Auth.int_max_str_digits.
Proof.
  unfold sqlite_integer. intros [?%Z.leb_le ?%Z.ltb_lt]%andb_true_iff.
  apply Z.lt_le_trans with (10 ^ 19); [lia|].
  apply Z.pow_le_mono_r; [lia|]. unfold Auth.int_max_str_digits. lia.
Qed.

(** X13. The subject that login writes into a token, [str] of the user's
    identifier, is read back by [int] as that identifier, for every integer
    of at most 4300 digits (a longer one neither [str] nor [int] accepts);
    so strict resolution of a token whose subject is [str] of the identifier
    of a user in the credential store, the identifiers there being pairwise
    distinct and integers of the storage, returns that user. *)
Theorem subject_round_trip (jwt_decode : string → Auth.decoded)
    (tok : string) (user : User.t) (db : Session) :
  NoDup (User.id <$> users db) →
  user ∈ users db →
  sqlite_integer (User.id user) = true →
  tok ≠ "" →
  jwt_decode tok = Auth.Payload (Some (py_str (User.id user))) →
  (∀ n, Z.abs n < 10 ^ 4300 → Auth.py_int (py_str n) = Return n)
  ∧ get_db (Auth.get_current_user jwt_decode (Some tok)) db = (Return user, db)
  ∧ get_db (Auth.get_current_user_optional jwt_decode (Some tok)) db
    = (Return (Some user), db).
Proof.
  intros Hpk Hin Hfit Htok Hdec.
  assert (select_user_by_id (User.id user) db = [user]) as Hsel
    by (by apply (filter_key_unique User.id)).
  pose proof (py_int_of_py_str _ (sqlite_integer_digits _ Hfit)) as Hint.
  split; [exact py_int_of_py_str|].
  rewrite (get_current_user_run jwt_decode tok _ _ db Htok Hdec Hint).
  rewrite (get_current_user_optional_run jwt_decode tok _ _ db Htok Hdec Hint).
  by rewrite Hfit, Hsel.
Qed.

Lemma subject_round_trip_witness :
  get_db (Auth.get_current_user (λ _, Auth.Payload (Some "2")) (Some "t"))
    Sample.db_bob
  = (Return Sample.bob, Sample.db_bob).
Proof.
  refine (proj1 (proj2 (subject_round_trip (λ _, Auth.Payload (Some "2")) "t"
                          Sample.bob Sample.db_bob _ _ _ _ _))).
  - apply (bool_decide_unpack _). vm_compute. exact I.
  - simpl. right. left.
  - reflexivity.
  - discriminate.
  - reflexivity.
Defined.

(** ** The token of a request *)

Lemma startswith_app p rest : Str.startswith p (p ++ rest)%string = true.
Proof.
  induction p as [|c p IH]; [done|]. simpl.
  by rewrite bool_decide_eq_true_2, IH.
Qed.

Lemma drop_app p rest :
  Str.drop (String.length p) (p ++ rest)%string = rest.
Proof. induction p as [|c p IH]; [by destruct rest|]. simpl. exact IH. Qed.

(** X14. The token of a request is taken from the cookie when the cookie is
    present and not empty, and from the authorization header otherwise. A
    cookie that starts with "Bearer " yields what follows the prefix, so the
    cookie value that login sets yields the token; any other cookie yields
    itself. *)
Theorem token_from_cookie_or_header (token header_token : option string)
    (tok cookie : string) :
  Auth.get_token_from_cookie_or_header (Some ("Bearer " ++ tok)%string)
    header_token
  = Some tok
  ∧ (cookie ≠ "" → Str.startswith "Bearer " cookie = false →
     Auth.get_token_from_cookie_or_header (Some cookie) header_token
     = Some cookie)
  ∧ Auth.get_token_from_cookie_or_header None header_token = header_token
  ∧ Auth.get_token_from_cookie_or_header (Some "") header_token = header_token.
Proof.
  split_and!; try done.
  intros Hne Hpre. unfold Auth.get_token_from_cookie_or_header.
  by rewrite bool_decide_eq_false_2, Hpre.
Qed.

(** ** Credentials *)

Lemma select_user_by_email_elem email db u r :
  select_user_by_email email db = u :: r →
  u ∈ users db ∧ User.email u = email.
Proof.
  intros Hs.
  assert (u ∈ select_user_by_email email db) as Hu by (rewrite Hs; left).
  unfold select_user_by_email in Hu.
  apply list_elem_of_filter in Hu. tauto.
Qed.

Lemma select_user_by_email_absent email db :
  (∀ u, u ∈ users db → User.email u ≠ email) →
  select_user_by_email email db = [].
Proof.
  intros Hno. destruct (select_user_by_email email db) as [|u r] eqn:E; [done|].
  apply select_user_by_email_elem in E as [Hin He]. by destruct (Hno u Hin).
Qed.

Lemma authenticate_user_cases (verify_password : string → string → bool)
    email password db :
  match select_user_by_email email db with
  | [] =>
      Login.authenticate_user verify_password email password db
      = Return (None, db)
  | [u] =>
      Login.authenticate_user verify_password email password db
      = Return (if verify_password password (User.hashed_password u)
                then Some u else None, db)
  | _ =>
      Login.authenticate_user verify_password email password db
      = Raise MultipleResultsFound
  end.
Proof.
  unfold Login.authenticate_user. run.
  destruct (select_user_by_email email db) as [|u [|u' r]]; simpl; try done.
  by destruct (verify_password _ _).
Qed.

(** X15. Authentication never writes. When it returns a user, that user is
    in the credential store, has the email asked for, and the password
    verifies against the stored hash. An email that nobody has and a
    password that does not verify get the same answer: no user. *)
Theorem authenticate_user_sound (verify_password : string → string → bool)
    (email password : string) (db : Session) :
  (get_db (Login.authenticate_user verify_password email password) db).2 = db
  ∧ (∀ u db',
       Login.authenticate_user verify_password email password db
       = Return (Some u, db') →
       u ∈ users db ∧ User.email u = email
       ∧ verify_password password (User.hashed_password u) = true)
  ∧ ((∀ u, u ∈ users db → User.email u ≠ email) →
     get_db (Login.authenticate_user verify_password email password) db
     = (Return None, db))
  ∧ (∀ u, select_user_by_email email db = [u] →
          verify_password password (User.hashed_password u) = false →
          get_db (Login.authenticate_user verify_password email password) db
          = (Return None, db)).
Proof.
  pose proof (authenticate_user_cases verify_password email password db) as Hc.
  unfold get_db.
  destruct (select_user_by_email email db) as [|u [|u' r]] eqn:Hs;
    rewrite Hc; simpl; split_and!; try done.
  - intros v db'. destruct (verify_password _ _) eqn:Hv; intros Heq;
      [|discriminate Heq].
    injection Heq as <- <-. apply select_user_by_email_elem in Hs as [? ?].
    by split_and!.
  - intros Hno. apply select_user_by_email_elem in Hs as [Hin He].
    by destruct (Hno u Hin).
  - intros v [= <-] Hv. by rewrite Hv.
  - intros Hno. apply select_user_by_email_elem in Hs as [Hin He].
    by destruct (Hno u Hin).
Qed.

(** ** Login *)

(** X16. Let the identifiers of the users be pairwise distinct integers of
    the storage and their emails pairwise distinct. A failed authentication
    makes login raise 401 and write nothing. A
    successful login writes nothing either; it returns a token of type
    "bearer" and sets the cookie "access_token" to "Bearer " followed by
    that token, from which the token extraction of a later request recovers
    the token. If the decoder accepts the tokens issued with this expiry and
    returns their subject, strict resolution of the token returns the user
    that logged in, whose email is the one submitted. *)
Theorem login_then_resolve (verify_password : string → string → bool)
    (jwt_encode : string → datetime → string)
    (jwt_decode : string → Auth.decoded)
    (expire_minutes : Z) (debug : bool) (now : datetime)
    (username password : string) (header_token : option string)
    (db : Session) :
  NoDup (User.id <$> users db) →
  Forall (λ u, sqlite_integer (User.id u) = true) (users db) →
  NoDup (User.email <$> users db) →
  (∀ sub, jwt_decode (jwt_encode sub (now + minutes expire_minutes))
          = Auth.Payload (Some sub)) →
  (∀ sub exp, jwt_encode sub exp ≠ "") →
  (get_db (Login.login verify_password jwt_encode expire_minutes debug
             now username password) db
   = (Raise (HTTPException HTTP_401_UNAUTHORIZED), db))
  ∨ ∃ user token cookie,
      get_db (Login.login verify_password jwt_encode expire_minutes debug
                now username password) db
      = (Return (token, cookie), db)
      ∧ user ∈ users db
      ∧ User.email user = username
      ∧ verify_password password (User.hashed_password user) = true
      ∧ Login.token_type token = "bearer"
      ∧ Login.key cookie = "access_token"
      ∧ Login.value cookie = ("Bearer " ++ Login.access_token token)%string
      ∧ Login.max_age cookie = expire_minutes * 60
      ∧ Auth.get_token_from_cookie_or_header (Some (Login.value cookie))
          header_token
        = Some (Login.access_token token)
      ∧ get_db (Auth.get_current_user jwt_decode
                  (Some (Login.access_token token))) db
        = (Return user, db).
Proof.
  intros Hpk Hfit Huq Hdec Hne.
  pose proof (authenticate_user_cases verify_password username password db)
    as Hauth.
  unfold Login.login, get_db, mbind, M_bind.
  destruct (select_user_by_email username db) as [|u [|u' r]] eqn:Hs.
  - rewrite Hauth. by left.
  - rewrite Hauth.
    destruct (verify_password password (User.hashed_password u)) eqn:Hv;
      [|by left].
    right. apply select_user_by_email_elem in Hs as [Hin He].
    eexists u, _, _. split; [reflexivity|]. simpl.
    assert (Login.create_access_token jwt_encode expire_minutes now
              (py_str (User.id u)) (Some (minutes expire_minutes))
            = jwt_encode (py_str (User.id u)) (now + minutes expire_minutes))
      as Htok.
    { unfold Login.create_access_token. by destruct (_ =? 0). }
    split_and!; try done.
    rewrite Htok.
    assert (select_user_by_id (User.id u) db = [u]) as Hsel
      by (by apply (filter_key_unique User.id)).
    rewrite Forall_forall in Hfit. specialize (Hfit u Hin).
    pose proof (get_current_user_run jwt_decode _ (py_str (User.id u))
                  (User.id u) db (Hne _ _) (Hdec _)
                  (py_int_of_py_str _ (sqlite_integer_digits _ Hfit)))
      as Hres.
    rewrite Hfit, Hsel in Hres. exact Hres.
  - exfalso.
    assert (u ∈ users db ∧ User.email u = username) as [Hin He]
      by (by eapply select_user_by_email_elem).
    pose proof (filter_key_unique User.email _ _ Huq Hin) as Hone.
    unfold select_user_by_email in Hs. rewrite He, Hs in Hone. done.
Qed.

Lemma login_then_resolve_witness :
  (get_db (Login.login (λ _ h, bool_decide (h = "$2b$12$bob"))
             (λ sub _, String "t" sub) 1440 false 100
             "bob@example.org" "secret") Sample.db_bob
   = (Raise (HTTPException HTTP_401_UNAUTHORIZED), Sample.db_bob))
  ∨ ∃ user token cookie,
      get_db (Login.login (λ _ h, bool_decide (h = "$2b$12$bob"))
                (λ sub _, String "t" sub) 1440 false 100
                "bob@example.org" "secret") Sample.db_bob
      = (Return (token, cookie), Sample.db_bob)
      ∧ user ∈ users Sample.db_bob
      ∧ User.email user = "bob@example.org"
      ∧ (λ _ h, bool_decide (h = "$2b$12$bob")) "secret"
          (User.hashed_password user) = true
      ∧ Login.token_type token = "bearer"
      ∧ Login.key cookie = "access_token"
      ∧ Login.value cookie = ("Bearer " ++ Login.access_token token)%string
      ∧ Login.max_age cookie = 1440 * 60
      ∧ Auth.get_token_from_cookie_or_header (Some (Login.value cookie)) None
        = Some (Login.access_token token)
      ∧ get_db (Auth.get_current_user
                  (λ t, Auth.Payload (Some (Str.drop 1 t)))
                  (Some (Login.access_token token))) Sample.db_bob
        = (Return user, Sample.db_bob).
Proof.
  apply (login_then_resolve (λ _ h, bool_decide (h = "$2b$12$bob"))
           (λ sub _, String "t" sub)
           (λ t, Auth.Payload (Some (Str.drop 1 t)))
           1440 false 100 "bob@example.org" "secret" None Sample.db_bob).
  - apply (bool_decide_unpack _). vm_compute. exact I.
  - repeat constructor.
  - apply (bool_decide_unpack _). vm_compute. exact I.
  - reflexivity.
  - discriminate.
Defined.

(** ** Registration *)

Lemma select_user_by_email_new email db u :
  select_user_by_email email db = [] → User.email u = email →
  select_user_by_email email (mkSession (users db ++ [u]) (day_entries db))
  = [u].
Proof.
  intros Hs He. unfold select_user_by_email in *. simpl.
  rewrite filter_app, Hs. simpl. by rewrite filter_cons_True, filter_nil.
Qed.

Lemma validate_user_accepts validate_email email password normalized :
  validate_email email = Some normalized →
  6 ≤ Str.len password ≤ 100 →
  Accounts.validate validate_email email password
  = Return (Accounts.mkUserCreate normalized password).
Proof.
  intros He Hlen. unfold Accounts.validate. rewrite He.
  replace (_ && _) with true; [done|]. symmetry.
  rewrite andb_true_iff, !Z.leb_le. lia.
Qed.

Lemma validate_user_rejects validate_email email password :
  validate_email email = None ∨ Str.len password < 6 ∨ 100 < Str.len password →
  Accounts.validate validate_email email password
  = Raise (HTTPException HTTP_422_UNPROCESSABLE_ENTITY).
Proof.
  intros Hbad. unfold Accounts.validate.
  destruct (validate_email email) as [normalized|]; [|done].
  replace (_ && _) with false; [done|]. symmetry.
  rewrite andb_false_iff, !Z.leb_gt. destruct Hbad as [?|[?|?]]; [done|lia|lia].
Qed.

Lemma register_fresh now hashed user_data db :
  select_user_by_email (Accounts.uc_email user_data) db = [] →
  get_db (Accounts.register now hashed user_data) db
  = let u := User.mk (next_id (User.id <$> users db))
               (Accounts.uc_email user_data) hashed now in
    (Return u, mkSession (users db ++ [u]) (day_entries db)).
Proof.
  intros Hs. run. unfold add_user. rewrite Hs. simpl.
  by rewrite Hs, bool_decide_eq_true_2.
Qed.

(** X17. Let the body pass the schema: the validator accepts the address and
    returns it in normal form, and the password has 6 to 100 characters.
    Registering it when no user has the address in normal form creates the
    user: it is appended to the credential store with that address, the hash
    that was computed and the reading of the clock, under an identifier that
    no user had; the entries are untouched. Registering then any body that
    passes the schema and has the same address in normal form raises 400 and
    leaves the storage as it is. A body that does not pass the schema (an
    address the validator refuses, a password of fewer than 6 or more than
    100 characters) is answered 422 and nothing is written. *)
Theorem register_then_taken (validate_email : string → option string)
    (now now' : datetime) (hashed hashed' : string)
    (email password normalized : string) (db : Session) :
  validate_email email = Some normalized →
  6 ≤ Str.len password ≤ 100 →
  (∀ u, u ∈ users db → User.email u ≠ normalized) →
  ∃ user db',
    Request.register validate_email now hashed email password db
    = (Return user, db')
    ∧ users db' = users db ++ [user]
    ∧ day_entries db' = day_entries db
    ∧ User.email user = normalized
    ∧ User.hashed_password user = hashed
    ∧ User.created_at user = now
    ∧ (User.id user ∉ User.id <$> users db)
    ∧ (∀ email' password',
         validate_email email' = Some normalized →
         6 ≤ Str.len password' ≤ 100 →
         Request.register validate_email now' hashed' email' password' db'
         = (Raise (HTTPException HTTP_400_BAD_REQUEST), db'))
    ∧ (∀ email' password' db0,
         validate_email email' = None
         ∨ Str.len password' < 6 ∨ 100 < Str.len password' →
         Request.register validate_email now' hashed' email' password' db0
         = (Raise (HTTPException HTTP_422_UNPROCESSABLE_ENTITY), db0)).
Proof.
  intros He Hlen Hno.
  pose proof (select_user_by_email_absent normalized db Hno) as Hs.
  assert (∀ h n e p s,
            Request.register validate_email n h e p s
            = match Accounts.validate validate_email e p with
              | Return user_data => get_db (Accounts.register n h user_data) s
              | Raise failure => (Raise failure, s)
              end) as Hreq.
  { intros h n e p s. unfold Request.register, get_db, mbind, M_bind, lift.
    by destruct (Accounts.validate validate_email e p). }
  eexists _, _. split.
  { rewrite Hreq, (validate_user_accepts _ _ _ _ He Hlen).
    by apply register_fresh. }
  simpl. split_and!; try done; [apply next_id_fresh| |].
  - intros email' password' He' Hlen'.
    rewrite Hreq, (validate_user_accepts _ _ _ _ He' Hlen').
    run. simpl. by rewrite select_user_by_email_new.
  - intros email' password' db0 Hbad.
    by rewrite Hreq, validate_user_rejects.
Qed.

Lemma register_then_taken_witness :
  ∃ user db',
    Request.register
      (λ s, if bool_decide (s = "carol@EXAMPLE.org")
            then Some "carol@example.org" else Some s)
      7 "$2b$12$carol" "carol@EXAMPLE.org" "secret" Sample.db_bob
    = (Return user, db')
    ∧ User.id user = 3
    ∧ User.email user = "carol@example.org"
    ∧ Request.register
        (λ s, if bool_decide (s = "carol@EXAMPLE.org")
              then Some "carol@example.org" else Some s)
        8 "$2b$12$other" "carol@example.org" "123456" db'
      = (Raise (HTTPException HTTP_400_BAD_REQUEST), db')
    ∧ Request.register
        (λ s, if bool_decide (s = "carol@EXAMPLE.org")
              then Some "carol@example.org" else Some s)
        8 "$2b$12$other" "dave@example.org" "12345" db'
      = (Raise (HTTPException HTTP_422_UNPROCESSABLE_ENTITY), db').
Proof.
  destruct (register_then_taken
              (λ s, if bool_decide (s = "carol@EXAMPLE.org")
                    then Some "carol@example.org" else Some s)
              7 8 "$2b$12$carol" "$2b$12$other"
              "carol@EXAMPLE.org" "secret" "carol@example.org" Sample.db_bob)
    as (user & db' & Hrun & _ & _ & Hmail & _ & _ & _ & Hagain & Hbad).
  - reflexivity.
  - vm_compute. split; discriminate.
  - intros u Hu. simpl in Hu.
    apply elem_of_cons in Hu as [->|Hu]; [simpl; discriminate|].
    apply list_elem_of_singleton in Hu as ->. simpl. discriminate.
  - exists user, db'. split_and!; [exact Hrun| |exact Hmail| |].
    + injection Hrun as <- _. reflexivity.
    + apply Hagain; [reflexivity|]. vm_compute. split; discriminate.
    + apply Hbad. right. left. vm_compute. reflexivity.
Defined.


(** X19. After an account is deleted its identifier, an integer of the
    storage, resolves to nobody: a token whose subject is [str] of the
    identifier of the deleted user is answered with 401 in strict mode and
    with no user in optional mode. *)
Theorem deleted_account_unauthorized (jwt_decode : string → Auth.decoded)
    (tok : string) (user : User.t) (db : Session) :
  sqlite_integer (User.id user) = true →
  tok ≠ "" →
  jwt_decode tok = Auth.Payload (Some (py_str (User.id user))) →
  let db' := (Request.delete_account user db).2 in
  (∀ u, u ∈ users db' → User.id u ≠ User.id user)
  ∧ get_db (Auth.get_current_user jwt_decode (Some tok)) db'
    = (Raise (HTTPException HTTP_401_UNAUTHORIZED), db')
  ∧ get_db (Auth.get_current_user_optional jwt_decode (Some tok)) db'
    = (Return None, db').
Proof.
  intros Hfit Htok Hdec db'.
  assert (∀ u, u ∈ users db' → User.id u ≠ User.id user) as Hgone.
  { unfold db'. run. simpl. by intros u [? _]%list_elem_of_filter. }
  pose proof (select_user_absent (User.id user) db' Hgone) as Hsel.
  pose proof (py_int_of_py_str _ (sqlite_integer_digits _ Hfit)) as Hint.
  split; [done|].
  rewrite (get_current_user_run jwt_decode tok _ _ db' Htok Hdec Hint).
  rewrite (get_current_user_optional_run jwt_decode tok _ _ db' Htok Hdec
             Hint).
  by rewrite Hfit, Hsel.
Qed.

Lemma deleted_account_unauthorized_witness :
  get_db (Auth.get_current_user (λ _, Auth.Payload (Some "2")) (Some "t"))
    (Request.delete_account Sample.bob Sample.db_both).2
  = (Raise (HTTPException HTTP_401_UNAUTHORIZED),
     (Request.delete_account Sample.bob Sample.db_both).2).
Proof.
  refine (proj1 (proj2 (deleted_account_unauthorized
                          (λ _, Auth.Payload (Some "2")) "t"
                          Sample.bob Sample.db_both _ _ _))).
  - reflexivity.
  - discriminate.
  - reflexivity.
Defined.

(** ** The credential store and the owners of the entries *)

Section Owners.
Implicit Types (db : Session) (e : DayEntry.t) (uid : Z).

(** The users are the same and every entry afterwards has the owner [uid] or
    the owner of an entry before. *)
Definition owners_within (uid : Z) (db db' : Session) : Prop :=
  users db' = users db
  ∧ ∀ e', e' ∈ day_entries db' →
      DayEntry.user_id e' = uid
      ∨ ∃ old, old ∈ day_entries db ∧ DayEntry.user_id e' = DayEntry.user_id old.

Lemma owners_within_refl uid db : owners_within uid db db.
Proof. split; [done|]. intros e He. right. by exists e. Qed.

Lemma add_day_entry_owners now now' uid d score summary db e db' :
  add_day_entry now now' uid d score summary db = Return (e, db') →
  owners_within uid db db'.
Proof.
  unfold add_day_entry. case_bool_decide; [|done]. intros [= <- <-].
  split; [done|]. simpl. intros e' [He|He%list_elem_of_singleton]%elem_of_app.
  - right. by exists e'.
  - left. by rewrite He.
Qed.

Lemma flush_day_entry_owners now uid old new db e db' :
  old ∈ day_entries db → user_date new = user_date old →
  flush_day_entry now old new db = Return (e, db') →
  owners_within uid db db'.
Proof.
  intros Hin Hkey. unfold flush_day_entry. intros [= <- <-].
  split; [done|]. simpl. intros e' (x & -> & Hx)%list_elem_of_fmap. right.
  case_bool_decide; [|by exists x]. exists old. split; [done|].
  case_bool_decide; [done|].
  injection Hkey as Hu _. by destruct new.
Qed.

Lemma filter_owners uid (P : DayEntry.t → Prop) `{∀ e, Decision (P e)} db :
  owners_within uid db (mkSession (users db) (filter P (day_entries db))).
Proof.
  split; [done|]. simpl. intros e' [_ He]%list_elem_of_filter.
  right. by exists e'.
Qed.

Lemma store_ok_owners_within uid db db' :
  store_ok db → uid ∈ User.id <$> users db → owners_within uid db db' →
  store_ok db'.
Proof.
  intros [Hpk Huq Hfk] Huid [Hus Hown]. split; rewrite ?Hus; try done.
  intros e' He'. destruct (Hown e' He') as [->|(old & Hold & ->)]; [done|].
  by apply Hfk.
Qed.

Lemma entry_writes_owners today now now' (user : User.t) d score summary
    new_score new_summary db :
  owners_within (User.id user) db
    (Request.create_entry now now' user d score summary db).2
  ∧ owners_within (User.id user) db
      (Request.update_entry now user d new_score new_summary db).2
  ∧ owners_within (User.id user) db (Request.delete_entry user d db).2
  ∧ owners_within (User.id user) db
      (Request.save_day_entry today now now' user d score summary db).2
  ∧ owners_within (User.id user) db
      (Request.delete_day_entry today user d db).2.
Proof.
  split_and!.
  - unfold Request.create_entry, DayEntryCreate.validate.
    destruct (_ && _); [|apply owners_within_refl].
    run. cbn.
    destruct (select_day_entry (User.id user) d db) as [|old [|old' r]];
      cbn; try apply owners_within_refl.
    destruct (add_day_entry _ _ _ _ _ _ db) as [[e db']|] eqn:Ha;
      [|apply owners_within_refl].
    by eapply add_day_entry_owners.
  - unfold Request.update_entry, DayEntryUpdate.validate.
    destruct (_ && _); [|apply owners_within_refl].
    run. cbn.
    destruct (select_day_entry (User.id user) d db) as [|old [|old' r]] eqn:Hs;
      cbn; try apply owners_within_refl.
    apply select_singleton_elem in Hs as (Hin & _ & _).
    destruct (flush_day_entry _ _ _ db) as [[e db']|] eqn:Hf;
      [|apply owners_within_refl].
    eapply flush_day_entry_owners; [exact Hin| |exact Hf].
    destruct new_score, new_summary; simpl; try case_bool_decide; done.
  - run.
    destruct (select_day_entry (User.id user) d db) as [|old [|old' r]];
      cbn; try apply owners_within_refl.
    apply filter_owners.
  - unfold Request.save_day_entry, Pages.save_day_entry.
    destruct (_ || _); [apply owners_within_refl|].
    destruct (_ || _); [apply owners_within_refl|].
    run.
    destruct (select_day_entry (User.id user) d db) as [|old [|old' r]] eqn:Hs;
      cbn; try apply owners_within_refl.
    + destruct (add_day_entry _ _ _ _ _ _ db) as [[e db']|] eqn:Ha;
        [|apply owners_within_refl].
      by eapply add_day_entry_owners.
    + apply select_singleton_elem in Hs as (Hin & _ & _).
      destruct (flush_day_entry _ _ _ db) as [[e db']|] eqn:Hf;
        [|apply owners_within_refl].
      eapply flush_day_entry_owners; [exact Hin| |exact Hf]. done.
  - run.
    destruct (select_day_entry (User.id user) d db) as [|old [|old' r]];
      cbn; try apply owners_within_refl.
    apply filter_owners.
Qed.

Lemma add_user_store_ok now email hashed db u db' :
  store_ok db → add_user now email hashed db = Return (u, db') →
  store_ok db'.
Proof.
  intros [Hpk Huq Hfk]. unfold add_user. case_bool_decide as Hs; [|done].
  intros [= <- <-]. split; simpl.
  - rewrite fmap_app. apply NoDup_app. split_and!; [done| |apply NoDup_singleton].
    intros x Hx ->%list_elem_of_singleton. by apply next_id_fresh in Hx.
  - rewrite fmap_app. apply NoDup_app. split_and!; [done| |apply NoDup_singleton].
    intros x Hx ->%list_elem_of_singleton.
    apply list_elem_of_fmap in Hx as (v & Hv & Hin).
    eapply (filter_nil_not_elem_of _ _ v); [exact Hs| |exact Hin]. done.
  - intros e He. rewrite fmap_app. apply elem_of_app. left. by apply Hfk.
Qed.

Lemma delete_user_row_store_ok (user : User.t) db :
  store_ok db →
  store_ok (mkSession
              (filter (λ u, User.id u ≠ User.id user) (users db))
              (filter (λ e, DayEntry.id e ∉ DayEntry.id <$>
                              filter (λ e, DayEntry.user_id e = User.id user)
                                     (day_entries db))
                      (day_entries db))).
Proof.
  intros [Hpk Huq Hfk]. split; simpl.
  - by apply NoDup_fmap_filter.
  - by apply NoDup_fmap_filter.
  - intros e [Hid Hin]%list_elem_of_filter.
    destruct (decide (DayEntry.user_id e = User.id user)) as [Hu|Hu].
    + exfalso. apply Hid. apply list_elem_of_fmap_2.
      by rewrite list_elem_of_filter.
    + apply Hfk in Hin. apply list_elem_of_fmap in Hin as (u & Hue & Hu').
      apply list_elem_of_fmap. exists u. split; [done|].
      rewrite list_elem_of_filter. split; [congruence|done].
Qed.

Lemma any_step_store_ok db db' : store_ok db → any_step db db' → store_ok db'.
Proof.
  intros Hok [Hstep|Hstep].
  - destruct Hstep as [ve now hashed em pw|now now' u d sc su Hu
                      |now u d sc su Hu|u d Hu
                      |today now now' u d sc su Hu|today u d Hu|u Hu].
    + unfold Request.register.
      destruct (Accounts.validate ve em pw) as [user_data|failure]; [|done].
      run. destruct (select_user_by_email _ db) as [|v [|v' r]]; simpl;
        try done.
      destruct (add_user _ _ _ db) as [[w db1]|] eqn:Ha; [|done].
      by eapply add_user_store_ok.
    + eapply (store_ok_owners_within (User.id u)); [done| |].
      * by apply list_elem_of_fmap_2.
      * apply (entry_writes_owners (Date 1 1 1) now now' u d sc su None None).
    + eapply (store_ok_owners_within (User.id u)); [done| |].
      * by apply list_elem_of_fmap_2.
      * apply (entry_writes_owners (Date 1 1 1) now now u d 0 "" sc su).
    + eapply (store_ok_owners_within (User.id u)); [done| |].
      * by apply list_elem_of_fmap_2.
      * apply (entry_writes_owners (Date 1 1 1) 0 0 u d 0 "" None None).
    + eapply (store_ok_owners_within (User.id u)); [done| |].
      * by apply list_elem_of_fmap_2.
      * apply (entry_writes_owners today now now' u d sc su None None).
    + eapply (store_ok_owners_within (User.id u)); [done| |].
      * by apply list_elem_of_fmap_2.
      * apply (entry_writes_owners today 0 0 u d 0 "" None None).
    + run. simpl. by apply delete_user_row_store_ok.
  - destruct Hstep as [enc mins now now' hashed email pw pwc|u Hu].
    + unfold Login.register_submit.
      destruct (negb _); [done|]. destruct (_ <? 6); [done|].
      run. destruct (select_user_by_email _ db) as [|v [|v' r]]; simpl;
        try done.
      destruct (add_user _ _ _ db) as [[w db1]|] eqn:Ha; [|done].
      simpl. by eapply add_user_store_ok.
    + unfold MorePages.delete_account_page. run. simpl.
      by apply delete_user_row_store_ok.
Qed.

Lemma reachable_store_ok db : reachable_by_any_route db → store_ok db.
Proof.
  unfold reachable_by_any_route. revert db. apply rtc_ind_r.
  - split; simpl; [apply NoDup_nil_2|apply NoDup_nil_2|].
    intros e He. by apply elem_of_nil in He.
  - intros y z _ Hstep IH. by eapply any_step_store_ok.
Qed.

End Owners.

(** The storage of the two users and their two entries, reached through
    the routes of the API and of the pages: Alice signs up on the
    registration form, Bob through the API, Carol on the form; Bob saves the
    first of May on the calendar page, Alice creates the second through the
    API; Carol deletes her account on the settings page. *)
Lemma db_both_reachable_by_any_route : reachable_by_any_route Sample.db_both.
Proof.
  unfold reachable_by_any_route.
  set (carol := User.mk 3 "carol@example.org" "$2b$12$carol" 6).
  apply rtc_l with Sample.db_alice.
  { right.
    exact (step_register_submit empty_db (λ sub _, sub) 1440 0 1
             "$2b$12$alice" "alice@example.org" "hunter22" "hunter22"). }
  apply rtc_l with (mkSession [Sample.alice; Sample.bob] []).
  { left.
    exact (step_register Sample.db_alice Sample.validate_email 5
             "$2b$12$bob" "bob@example.org" "secret"). }
  apply rtc_l with (mkSession [Sample.alice; Sample.bob; carol] []).
  { right.
    exact (step_register_submit (mkSession [Sample.alice; Sample.bob] [])
             (λ sub _, sub) 1440 6 7
             "$2b$12$carol" "carol@example.org" "opensesame" "opensesame"). }
  apply rtc_l with (mkSession [Sample.alice; Sample.bob; carol]
                      [Sample.entry_bob]).
  { left.
    refine (step_save (mkSession [Sample.alice; Sample.bob; carol] [])
              Sample.may_1 10 11 Sample.bob Sample.may_1 7 "good day" _).
    simpl. right. left. }
  apply rtc_l with (mkSession [Sample.alice; Sample.bob; carol]
                      [Sample.entry_bob; Sample.entry_alice]).
  { left.
    refine (step_create (mkSession [Sample.alice; Sample.bob; carol]
                           [Sample.entry_bob])
              20 21 Sample.alice Sample.may_2 4 "slow day" _).
    simpl. left. }
  apply rtc_once. right.
  refine (step_delete_account_page
            (mkSession [Sample.alice; Sample.bob; carol]
               [Sample.entry_bob; Sample.entry_alice]) carol _).
  simpl. right. right. left.
Qed.

(** X20. In every storage that any writing route can reach from the empty
    one (the API's and the pages', registration form and account deletion
    page included), the identifiers of the users are pairwise distinct, so
    are their emails, and every entry is owned by a user that is in the
    credential store: no entry outlives its owner. *)
Theorem store_invariant_any_route (db : Session) :
  reachable_by_any_route db →
  NoDup (User.id <$> users db)
  ∧ NoDup (User.email <$> users db)
  ∧ ∀ e, e ∈ day_entries db →
      ∃ u, u ∈ users db ∧ User.id u = DayEntry.user_id e.
Proof.
  intros Hr. destruct (reachable_store_ok db Hr) as [Hpk Huq Hfk].
  split_and!; [done|done|]. intros e He.
  apply Hfk, list_elem_of_fmap in He as (u & Hu & Hin). by exists u.
Qed.

Lemma store_invariant_any_route_witness :
  NoDup (User.id <$> users Sample.db_both)
  ∧ NoDup (User.email <$> users Sample.db_both)
  ∧ (∃ u, u ∈ users Sample.db_both
          ∧ User.id u = DayEntry.user_id Sample.entry_bob)
  ∧ (∃ u, u ∈ users Sample.db_both
          ∧ User.id u = DayEntry.user_id Sample.entry_alice).
Proof.
  destruct (store_invariant_any_route Sample.db_both
              db_both_reachable_by_any_route) as (Hid & Hmail & Hown).
  split_and!; [exact Hid|exact Hmail| |].
  - apply Hown. simpl. left.
  - apply Hown. simpl. right. left.
Defined.

(** ** The calendar page *)

Section CalendarPage.
Import Pages Grid MorePages.

(** The month and the year that the page shows for the query parameters. *)
Definition shown_month (today_month : Z) (month : option Z) : Z :=
  if (or_else month today_month <? 1) || (12 <? or_else month today_month)
  then today_month else or_else month today_month.

Definition shown_year (today_year : Z) (year : option Z) : Z :=
  if (or_else year today_year <? 2000) || (2100 <? or_else year today_year)
  then today_year else or_else year today_year.

Lemma shown_month_range tm month : 1 ≤ tm ≤ 12 → 1 ≤ shown_month tm month ≤ 12.
Proof.
  intros Htm. unfold shown_month.
  destruct (_ || _) eqn:E; [done|].
  apply orb_false_iff in E as [?%Z.ltb_ge ?%Z.ltb_ge]. lia.
Qed.

Lemma shown_year_range ty year : 1 ≤ ty ≤ 9999 → 1 ≤ shown_year ty year ≤ 9999.
Proof.
  intros Hty. unfold shown_year.
  destruct (_ || _) eqn:E; [done|].
  apply orb_false_iff in E as [?%Z.ltb_ge ?%Z.ltb_ge]. lia.
Qed.

(** The layout of the grid, for the rows and columns of the days. *)
Lemma grid_layout today y m entries :
  1 ≤ y ≤ 9999 → 1 ≤ m ≤ 12 →
  ∃ weeks,
    get_calendar_data today y m entries = Return weeks
    ∧ Forall (λ w, length w = 7%nat) weeks
    ∧ ∀ k, 1 ≤ k ≤ Calendar.days_in_month y m →
        let i := Z.to_nat ((Calendar.weekday (Date y m 1) + 1) mod 7 + k - 1) in
        ∃ w, weeks !! (i / 7)%nat = Some w
             ∧ w !! (i mod 7)%nat = Some (Some (make_day today y m entries k)).
Proof.
  intros Hy Hm.
  set (n := Calendar.days_in_month y m).
  set (start := (Calendar.weekday (Date y m 1) + 1) mod 7).
  set (slot := make_day today y m entries).
  assert (0 ≤ start < 7) as Hstart by (unfold start; apply Z.mod_pos_bound; lia).
  pose proof (days_in_month_bounds y m) as Hn. fold n in Hn.
  pose proof (calendar_loop_spec slot (seqZ 1 n) []
                (replicate (Z.to_nat start) None)) as (Hfull & Hlt & Hcat).
  { done. }
  { rewrite length_replicate. lia. }
  destruct (finish_spec _ Hfull Hlt) as (Hfull' & pad & Hpad & Hcat').
  rewrite app_assoc, Hcat in Hcat'. cbn [concat app] in Hcat'.
  eexists. split; [by apply get_calendar_data_run|]. split; [done|].
  intros k Hk i. fold n start slot in Hfull', Hcat' |- *.
  assert (concat (finish (calendar_loop slot (seqZ 1 n) []
                            (replicate (Z.to_nat start) None))) !! i
          = Some (Some (slot k))) as Hi.
  { rewrite Hcat', <- app_assoc. unfold i. fold start.
    rewrite lookup_app_r by (rewrite length_replicate; lia).
    rewrite length_replicate.
    rewrite lookup_app_l by (rewrite length_fmap, length_seqZ; lia).
    rewrite list_lookup_fmap, lookup_seqZ_lt by lia. simpl.
    do 3 f_equal. lia. }
  rewrite lookup_concat_full in Hi by done. by apply bind_Some in Hi.
Qed.

End CalendarPage.

Section CalendarPageRun.
Import Pages Grid MorePages.

Lemma calendar_page_run today (user : User.t) (qyear qmonth : option Z) db :
  1 ≤ year today ≤ 9999 → 1 ≤ month today ≤ 12 →
  let y := shown_year (year today) qyear in
  let m := shown_month (month today) qmonth in
  ∃ weeks,
    get_calendar_data today y m
      (by_date (select_month (User.id user) (Date y m 1)
                  (Date y m (Calendar.days_in_month y m)) db))
    = Return weeks
    ∧ Forall (λ w, length w = 7%nat) weeks
    ∧ (∀ k, 1 ≤ k ≤ Calendar.days_in_month y m →
         let i := Z.to_nat ((Calendar.weekday (Date y m 1) + 1) mod 7 + k - 1) in
         ∃ w, weeks !! (i / 7)%nat = Some w
              ∧ w !! (i mod 7)%nat
                = Some (Some (make_day today y m
                                (by_date (select_month (User.id user)
                                            (Date y m 1)
                                            (Date y m (Calendar.days_in_month y m))
                                            db)) k)))
    ∧ calendar_page today user qyear qmonth db
      = Return (mkCalendarPage weeks y m
                  (default "" (month_names !! Z.to_nat m))
                  (if 1 <? m then m - 1 else 12)
                  (if 1 <? m then y else y - 1)
                  (if m <? 12 then m + 1 else 1)
                  (if m <? 12 then y else y + 1) today, db).
Proof.
  intros Hty Htm y m. destruct today as [ty tm td].
  cbn [year month] in Hty, Htm, y, m.
  pose proof (shown_year_range ty qyear Hty) as Hy.
  pose proof (shown_month_range tm qmonth Htm) as Hm.
  fold y in Hy. fold m in Hm.
  destruct (grid_layout (Date ty tm td) y m
              (by_date (select_month (User.id user) (Date y m 1)
                          (Date y m (Calendar.days_in_month y m)) db)) Hy Hm)
    as (weeks & Hrun & Hfull & Hlay).
  exists weeks. split; [done|]. split; [done|]. split; [done|].
  unfold calendar_page. cbv zeta.
  change (if (or_else qmonth tm <? 1) || (12 <? or_else qmonth tm)
          then tm else or_else qmonth tm) with m.
  change (if (or_else qyear ty <? 2000) || (2100 <? or_else qyear ty)
          then ty else or_else qyear ty) with y.
  pose proof (days_in_month_bounds y m) as Hn.
  unfold mbind, M_bind, lift, execute, mret, M_ret.
  rewrite new_date_in_month by (try done; lia).
  rewrite monthrange_in_range by done. cbn [snd].
  rewrite new_date_in_month by (try done; lia).
  by rewrite Hrun.
Qed.

End CalendarPageRun.

Section CalendarPageFacts.
Import Pages Grid MorePages.

Ltac by_cases_Z :=
  simpl;
  repeat (match goal with
          | |- context [?a =? ?b] => destruct (Z.eqb_spec a b)
          end; simpl);
  repeat (match goal with
          | |- context [?a <? ?b] => destruct (Z.ltb_spec a b)
          end; simpl); try lia; try done.

Lemma shown_month_spec tm qm :
  (∀ m, qm = Some m → 1 ≤ m ≤ 12 → shown_month tm qm = m)
  ∧ (∀ m, qm = Some m → ¬ 1 ≤ m ≤ 12 → shown_month tm qm = tm)
  ∧ (qm = None → shown_month tm qm = tm).
Proof.
  unfold shown_month, or_else. split_and!.
  - intros m -> Hm. by_cases_Z.
  - intros m -> Hm. by_cases_Z.
  - intros ->. by_cases_Z.
Qed.

Lemma shown_year_spec ty qy :
  (∀ y, qy = Some y → 2000 ≤ y ≤ 2100 → shown_year ty qy = y)
  ∧ (∀ y, qy = Some y → ¬ 2000 ≤ y ≤ 2100 → shown_year ty qy = ty)
  ∧ (qy = None → shown_year ty qy = ty).
Proof.
  unfold shown_year, or_else. split_and!.
  - intros y -> Hy. by_cases_Z.
  - intros y -> Hy. by_cases_Z.
  - intros ->. by_cases_Z.
Qed.

Lemma month_names_lookup m :
  1 ≤ m ≤ 12 →
  ∃ name, month_names !! Z.to_nat m = Some name ∧ name ≠ "".
Proof.
  intros Hm.
  assert (m = 1 ∨ m = 2 ∨ m = 3 ∨ m = 4 ∨ m = 5 ∨ m = 6 ∨ m = 7 ∨ m = 8
          ∨ m = 9 ∨ m = 10 ∨ m = 11 ∨ m = 12) as Hcases by lia.
  repeat (destruct Hcases as [->|Hcases]; [by eexists|]).
  subst m. by eexists.
Qed.

Lemma by_date_snoc l e :
  by_date (l ++ [e]) = <[DayEntry.date e := e]> (by_date l).
Proof. unfold by_date. by rewrite foldl_app. Qed.

(** The mapping built from the rows holds, for a date, the last row of that
    date. *)
Lemma by_date_lookup l dt :
  by_date l !! dt = last (filter (λ e, DayEntry.date e = dt) l).
Proof.
  induction l as [|e l IH] using rev_ind; [done|].
  rewrite by_date_snoc, filter_app.
  destruct (decide (DayEntry.date e = dt)) as [He|He].
  - rewrite filter_cons_True, filter_nil by done.
    by rewrite last_snoc, <- He, lookup_insert_eq.
  - rewrite filter_cons_False, filter_nil, app_nil_r by done.
    by rewrite lookup_insert_ne.
Qed.

Lemma select_month_day uid y m k n db :
  1 ≤ k ≤ n →
  filter (λ e, DayEntry.date e = Date y m k)
    (select_month uid (Date y m 1) (Date y m n) db)
  = select_day_entry uid (Date y m k) db.
Proof.
  intros Hk. unfold select_month, select_day_entry.
  rewrite list_filter_filter. apply list_filter_iff. intros e.
  split; [tauto|]. intros [Hu Hd]. rewrite Hd.
  split_and!; try done.
  - apply date_leb_lex. rewrite date_ltb_lex, date_eq_fields. simpl. lia.
  - apply date_leb_lex. rewrite date_ltb_lex, date_eq_fields. simpl. lia.
Qed.

End CalendarPageFacts.

(** X21. Whatever year and month the query asks for, the calendar page does
    not fail and does not write, given that the current date is a date. It
    shows the month asked for when that is from 1 to 12 and the current
    month otherwise, the year asked for when that is from 2000 to 2100 and
    the current year otherwise; the grid has weeks of exactly 7 slots; the
    month name is the entry of that month in the table of names; and the
    links lead to the month just before and the month just after, across the
    turn of the year. *)
Theorem calendar_page_total (today : date) (user : User.t)
    (qyear qmonth : option Z) (db : Session) :
  1 ≤ year today ≤ 9999 →
  1 ≤ month today ≤ 12 →
  ∃ page,
    get_db (MorePages.calendar_page today user qyear qmonth) db
    = (Return page, db)
    ∧ Forall (λ w, length w = 7%nat) (MorePages.cp_weeks page)
    ∧ 1 ≤ MorePages.cp_month page ≤ 12
    ∧ (∀ m, qmonth = Some m → 1 ≤ m ≤ 12 → MorePages.cp_month page = m)
    ∧ (∀ m, qmonth = Some m → ¬ 1 ≤ m ≤ 12 →
            MorePages.cp_month page = month today)
    ∧ (qmonth = None → MorePages.cp_month page = month today)
    ∧ (∀ y, qyear = Some y → 2000 ≤ y ≤ 2100 → MorePages.cp_year page = y)
    ∧ (∀ y, qyear = Some y → ¬ 2000 ≤ y ≤ 2100 →
            MorePages.cp_year page = year today)
    ∧ (qyear = None → MorePages.cp_year page = year today)
    ∧ MorePages.month_names !! Z.to_nat (MorePages.cp_month page)
      = Some (MorePages.cp_month_name page)
    ∧ MorePages.cp_month_name page ≠ ""
    ∧ 1 ≤ MorePages.cp_prev_month page ≤ 12
    ∧ 1 ≤ MorePages.cp_next_month page ≤ 12
    ∧ 12 * MorePages.cp_prev_year page + MorePages.cp_prev_month page + 1
      = 12 * MorePages.cp_year page + MorePages.cp_month page
    ∧ 12 * MorePages.cp_next_year page + MorePages.cp_next_month page
      = 12 * MorePages.cp_year page + MorePages.cp_month page + 1.
Proof.
  intros Hty Htm.
  destruct (calendar_page_run today user qyear qmonth db Hty Htm)
    as (weeks & _ & Hfull & _ & Hrun).
  pose proof (shown_month_range (month today) qmonth Htm) as Hm.
  destruct (shown_month_spec (month today) qmonth) as (Hm1 & Hm2 & Hm3).
  destruct (shown_year_spec (year today) qyear) as (Hy1 & Hy2 & Hy3).
  destruct (month_names_lookup _ Hm) as (name & Hname & Hne).
  eexists. unfold get_db. rewrite Hrun. split; [reflexivity|].
  cbn [MorePages.cp_weeks MorePages.cp_month MorePages.cp_year
       MorePages.cp_month_name MorePages.cp_prev_month MorePages.cp_prev_year
       MorePages.cp_next_month MorePages.cp_next_year].
  rewrite Hname. cbn [default from_option].
  split_and!; try done;
    destruct (Z.ltb_spec 1 (shown_month (month today) qmonth));
    destruct (Z.ltb_spec (shown_month (month today) qmonth) 12); lia.
Qed.

Lemma calendar_page_total_witness :
  ∃ page,
    get_db (MorePages.calendar_page (Date 2024 1 15) Sample.bob
              (Some 1999) (Some 13)) Sample.db_bob
    = (Return page, Sample.db_bob)
    ∧ MorePages.cp_year page = 2024
    ∧ MorePages.cp_month page = 1
    ∧ MorePages.cp_prev_year page = 2023
    ∧ MorePages.cp_prev_month page = 12.
Proof.
  destruct (calendar_page_total (Date 2024 1 15) Sample.bob
              (Some 1999) (Some 13) Sample.db_bob)
    as (page & Hrun & _ & _ & _ & Hm & _ & _ & Hy & _ & _ & _ & Hp & _
        & Hprev & _).
  - simpl. lia.
  - simpl. lia.
  - specialize (Hm 13 eq_refl ltac:(lia)).
    specialize (Hy 1999 eq_refl ltac:(lia)). simpl in Hm, Hy.
    exists page. split_and!; [exact Hrun|exact Hy|exact Hm| |]; lia.
Defined.

(** X22. The calendar page shows exactly the user's entries of the month it
    shows, each on its own day. In a storage that satisfies the constraints,
    the slot of day [k] stands in the row and the column of that day, carries
    the date of that day, and its entry is the user's stored entry for that
    date when there is one and none when there is not; an entry of another
    user is never shown. *)
Theorem calendar_page_shows_month (today : date) (user : User.t)
    (qyear qmonth : option Z) (db : Session) :
  constraints db →
  1 ≤ year today ≤ 9999 →
  1 ≤ month today ≤ 12 →
  ∃ page,
    get_db (MorePages.calendar_page today user qyear qmonth) db
    = (Return page, db)
    ∧ ∀ k, 1 ≤ k ≤ Calendar.days_in_month (MorePages.cp_year page)
                     (MorePages.cp_month page) →
        let dt := Date (MorePages.cp_year page) (MorePages.cp_month page) k in
        let i := Z.to_nat ((Calendar.weekday
                              (Date (MorePages.cp_year page)
                                 (MorePages.cp_month page) 1) + 1) mod 7
                           + k - 1) in
        ∃ w slot,
          MorePages.cp_weeks page !! (i / 7)%nat = Some w
          ∧ w !! (i mod 7)%nat = Some (Some slot)
          ∧ Pages.dd_date slot = dt
          ∧ (∀ e, e ∈ day_entries db → DayEntry.user_id e = User.id user →
                  DayEntry.date e = dt → Pages.dd_entry slot = Some e)
          ∧ ((∀ e, e ∈ day_entries db → DayEntry.user_id e = User.id user →
                   DayEntry.date e ≠ dt) → Pages.dd_entry slot = None)
          ∧ (∀ e, Pages.dd_entry slot = Some e →
                  e ∈ day_entries db ∧ DayEntry.user_id e = User.id user
                  ∧ DayEntry.date e = dt).
Proof.
  intros Hc Hty Htm.
  destruct (calendar_page_run today user qyear qmonth db Hty Htm)
    as (weeks & _ & _ & Hlay & Hrun).
  eexists. unfold get_db. rewrite Hrun. split; [reflexivity|].
  cbn [MorePages.cp_weeks MorePages.cp_month MorePages.cp_year].
  intros k Hk. cbv zeta. destruct (Hlay k Hk) as (w & Hw & Hslot).
  eexists w, _. split; [exact Hw|]. split; [exact Hslot|].
  unfold Grid.make_day. cbn [Pages.dd_date Pages.dd_entry].
  rewrite by_date_lookup, select_month_day by done.
  set (dt := Date (shown_year (year today) qyear)
               (shown_month (month today) qmonth) k).
  split; [done|].
  destruct (select_cases db (User.id user) dt Hc)
    as [Hs|(e0 & Hs & Hin & Hu & Hd)]; rewrite Hs; simpl.
  - split_and!; [|done|done]. intros e Hin Hu Hd.
    assert (e ∈ select_day_entry (User.id user) dt db) as He
      by (by apply elem_of_select).
    rewrite Hs in He. by apply elem_of_nil in He.
  - split_and!.
    + intros e Hin' Hu' Hd'.
      assert (e ∈ select_day_entry (User.id user) dt db) as He
        by (by apply elem_of_select).
      rewrite Hs in He. by apply list_elem_of_singleton in He as ->.
    + intros Hno. by destruct (Hno e0 Hin Hu).
    + by intros e [= <-].
Qed.

Lemma calendar_page_shows_month_witness :
  ∃ page,
    get_db (MorePages.calendar_page (Date 2024 5 20) Sample.bob None None)
      Sample.db_both
    = (Return page, Sample.db_both)
    ∧ ∃ w slot,
        MorePages.cp_weeks page !! 0%nat = Some w
        ∧ w !! 3%nat = Some (Some slot)
        ∧ Pages.dd_entry slot = Some Sample.entry_bob.
Proof.
  destruct (calendar_page_shows_month (Date 2024 5 20) Sample.bob None None
              Sample.db_both) as (page & Hrun & Hshow).
  - solve_constraints.
  - simpl. lia.
  - simpl. lia.
  - exists page. split; [exact Hrun|].
    injection Hrun as <-.
    destruct (Hshow 1 ltac:(vm_compute; split; discriminate))
      as (w & slot & Hw & Hslot & _ & Hfound & _).
    exists w, slot. split_and!; [exact Hw|exact Hslot|].
    apply Hfound; [simpl; left|reflexivity|reflexivity].
Defined.

(** ** The day form *)

(** X23. The day form shows what the API's get returns. In a storage that
    satisfies the constraints the form never fails and never writes; it
    carries the user's entry for the date exactly when the get returns that
    entry, and it is the empty form exactly when the get raises 404. *)
Theorem get_day_modal_agrees (today : date) (d : date) (user : User.t)
    (db : Session) :
  constraints db →
  ∃ modal,
    get_db (MorePages.get_day_modal today d user) db = (Return modal, db)
    ∧ MorePages.dm_entry_date modal = d
    ∧ MorePages.dm_is_future modal = Calendar.date_ltb today d
    ∧ (∀ e, MorePages.dm_entry modal = Some e
            ↔ Request.get_entry user d db = (Return e, db))
    ∧ (MorePages.dm_entry modal = None
       ↔ Request.get_entry user d db
         = (Raise (HTTPException HTTP_404_NOT_FOUND), db)).
Proof.
  intros Hc. unfold MorePages.get_day_modal.
  destruct (select_cases db (User.id user) d Hc)
    as [Hs|(e0 & Hs & _)].
  - eexists. run. rewrite Hs. simpl. split; [reflexivity|]. simpl.
    split_and!; done.
  - eexists. run. rewrite Hs. simpl. split; [reflexivity|]. simpl.
    split_and!; try done.
    intros e. split; by intros [= <-].
Qed.

Lemma get_day_modal_agrees_witness :
  ∃ modal,
    get_db (MorePages.get_day_modal Sample.may_2 Sample.may_1 Sample.bob)
      Sample.db_bob = (Return modal, Sample.db_bob)
    ∧ MorePages.dm_entry modal = Some Sample.entry_bob.
Proof.
  destruct (get_day_modal_agrees Sample.may_2 Sample.may_1 Sample.bob
              Sample.db_bob) as (modal & Hrun & _ & _ & Hsome & _).
  - solve_constraints.
  - exists modal. split; [exact Hrun|]. apply Hsome. reflexivity.
Defined.

(** ** The two write paths agree *)

(** X24. The strict API and the upsert of the pages store the same thing. On
    a date that is free, a strict create and an upsert with the same valid
    score and a summary that is not blank leave the same storage; on a date
    that is taken, a strict update that supplies both fields and an upsert
    leave the same storage. *)
Theorem strict_writes_agree_with_upsert (today : date) (now now' : datetime)
    (user : User.t) (d : date) (score : Z) (summary : string) (db : Session) :
  constraints db →
  0 ≤ score ≤ 10 →
  Str.len (Str.strip summary) ≠ 0 →
  Str.len summary ≤ 200 →
  ((∀ e, e ∈ day_entries db → DayEntry.user_id e = User.id user →
         DayEntry.date e ≠ d) →
   (Request.create_entry now now' user d score summary db).2
   = (Request.save_day_entry today now now' user d score summary db).2)
  ∧ (∀ old, old ∈ day_entries db → DayEntry.user_id old = User.id user →
            DayEntry.date old = d →
     (Request.update_entry now user d (Some score) (Some summary) db).2
     = (Request.save_day_entry today now now' user d score summary db).2).
Proof.
  intros Hc Hsc Hne Hlen.
  assert (1 ≤ Str.len summary) as Hlen1.
  { pose proof (StrFacts.strip_len summary).
    pose proof (StrFacts.len_nonneg (Str.strip summary)). lia. }
  assert (summary ≠ "") as Hsne by (intros ->; by apply Hne).
  assert (∀ rows, select_day_entry (User.id user) d db = rows →
            (Request.save_day_entry today now now' user d score summary db).2
            = match rows with
              | [] => match add_day_entry now now' (User.id user) d score
                              (Str.strip summary) db with
                      | Return (_, db') => db'
                      | Raise _ => db
                      end
              | [old] => match flush_day_entry now old
                                 (DayEntry.with_summary (Str.strip summary)
                                    (DayEntry.with_score score old)) db with
                         | Return (_, db') => db'
                         | Raise _ => db
                         end
              | _ => db
              end) as Hsave.
  { intros rows Hrows.
    unfold Request.save_day_entry, Pages.save_day_entry.
    replace ((score <? 0) || (10 <? score)) with false
      by (symmetry; apply orb_false_iff; split; apply Z.ltb_ge; lia).
    replace ((Str.len (Str.strip summary) =? 0) || (200 <? Str.len summary))
      with false
      by (symmetry; apply orb_false_iff; split;
          [by apply Z.eqb_neq | apply Z.ltb_ge; lia]).
    run. rewrite Hrows. destruct rows as [|old [|old' r]]; cbn; [| |done].
    - by destruct (add_day_entry _ _ _ _ _ _ db) as [[? ?]|].
    - by destruct (flush_day_entry _ _ _ db) as [[? ?]|]. }
  split.
  - intros Hno.
    assert (select_day_entry (User.id user) d db = []) as Hs.
    { apply select_absent. intros e Hin [Hu Hd]. by apply (Hno e). }
    rewrite (Hsave [] Hs). unfold Request.create_entry.
    rewrite validate_create_accepts by lia.
    run. cbn. rewrite Hs. cbn.
    by destruct (add_day_entry _ _ _ _ _ _ db) as [[? ?]|].
  - intros old Hin Hu Hd.
    pose proof (select_unique db old Hc Hin) as Hs. rewrite Hu, Hd in Hs.
    rewrite (Hsave [old] Hs).
    unfold Request.update_entry, DayEntryUpdate.validate,
      DayEntryUpdate.score_ok, DayEntryUpdate.summary_ok,
      DayEntryUpdate.strip_summary.
    replace (_ && _) with true
      by (symmetry; rewrite !andb_true_iff, !Z.leb_le; lia).
    rewrite bool_decide_eq_false_2 by done.
    run. cbn. rewrite Hs. cbn.
    by destruct (flush_day_entry _ _ _ db) as [[? ?]|].
Qed.

Lemma strict_writes_agree_with_upsert_witness :
  (Request.update_entry 95 Sample.bob Sample.may_1 (Some 3) (Some " dull ")
     Sample.db_bob).2
  = (Request.save_day_entry Sample.may_2 95 96 Sample.bob Sample.may_1 3 " dull "
       Sample.db_bob).2.
Proof.
  refine (proj2 (strict_writes_agree_with_upsert Sample.may_2 95 96 Sample.bob
                   Sample.may_1 3 " dull " Sample.db_bob _ _ _ _)
            Sample.entry_bob _ _ _).
  - solve_constraints.
  - lia.
  - vm_compute. discriminate.
  - vm_compute. discriminate.
  - simpl. left.
  - reflexivity.
  - reflexivity.
Defined.

(** ** The storage location *)

Lemma startswith_split p s :
  Str.startswith p s = true →
  s = (p ++ Str.drop (String.length p) s)%string.
Proof.
  revert s. induction p as [|a p IH]; intros s Hs; [done|].
  destruct s as [|b s]; [done|]. simpl in Hs.
  apply andb_true_iff in Hs as [Hab Hp].
  apply bool_decide_eq_true in Hab as ->.
  change (String b s = String b (p ++ Str.drop (String.length p) s)%string).
  f_equal. by apply IH.
Qed.

Lemma replace_first_prefix old new s :
  Str.startswith old s = true →
  Config.replace_first old new s
  = (new ++ Str.drop (String.length old) s)%string.
Proof. intros Hs. destruct s; simpl; by rewrite Hs. Qed.

Lemma async_url_postgres rest :
  Config.async_database_url ("postgres://" ++ rest)
  = ("postgresql+asyncpg://" ++ rest)%string.
Proof. reflexivity. Qed.

Lemma async_url_postgresql rest :
  Config.contains "+asyncpg" ("postgresql://" ++ rest) = false →
  Config.async_database_url ("postgresql://" ++ rest)
  = ("postgresql+asyncpg://" ++ rest)%string.
Proof.
  intros Hno. unfold Config.async_database_url.
  change (Str.startswith "postgres://" ("postgresql://" ++ rest)) with false.
  change (Str.startswith "postgresql://" ("postgresql://" ++ rest)) with true.
  cbv zeta. rewrite Hno. reflexivity.
Qed.

Lemma async_url_fixed rest :
  Config.async_database_url ("postgresql+asyncpg://" ++ rest)
  = ("postgresql+asyncpg://" ++ rest)%string.
Proof. reflexivity. Qed.

(** X25. The storage location is rewritten for the asynchronous driver: a
    location that starts with "postgres://" gets the scheme
    "postgresql+asyncpg://" with the rest kept; so does one that starts with
    "postgresql://" unless "+asyncpg" occurs anywhere in it; every other
    location is returned as it is. Rewriting a rewritten location changes
    nothing. *)
Theorem async_database_url_spec (database_url rest : string) :
  Config.async_database_url ("postgres://" ++ rest)
  = ("postgresql+asyncpg://" ++ rest)%string
  ∧ (Config.contains "+asyncpg" ("postgresql://" ++ rest) = false →
     Config.async_database_url ("postgresql://" ++ rest)
     = ("postgresql+asyncpg://" ++ rest)%string)
  ∧ (Config.contains "+asyncpg" ("postgresql://" ++ rest) = true →
     Config.async_database_url ("postgresql://" ++ rest)
     = ("postgresql://" ++ rest)%string)
  ∧ (Str.startswith "postgres://" database_url = false →
     Str.startswith "postgresql://" database_url = false →
     Config.async_database_url database_url = database_url)
  ∧ Config.async_database_url (Config.async_database_url database_url)
    = Config.async_database_url database_url.
Proof.
  split_and!.
  - apply async_url_postgres.
  - apply async_url_postgresql.
  - intros Hyes. unfold Config.async_database_url.
    change (Str.startswith "postgres://" ("postgresql://" ++ rest)) with false.
    cbv zeta. by rewrite Hyes, andb_false_r.
  - intros H1 H2. unfold Config.async_database_url. cbv zeta.
    by rewrite H1, H2.
  - destruct (Str.startswith "postgres://" database_url) eqn:H1.
    { rewrite (startswith_split _ _ H1), async_url_postgres.
      apply async_url_fixed. }
    destruct (Str.startswith "postgresql://" database_url
              && negb (Config.contains "+asyncpg" database_url)) eqn:H2.
    { apply andb_true_iff in H2 as [H2 H3%negb_true_iff].
      rewrite (startswith_split _ _ H2) in H3 |- *.
      rewrite async_url_postgresql by exact H3. apply async_url_fixed. }
    assert (Config.async_database_url database_url = database_url) as Hfix.
    { unfold Config.async_database_url. cbv zeta. by rewrite H1, H2. }
    by rewrite !Hfix.
Qed.
